(** * mm-guest-audit: the audit pipeline, its inactivity classifier, the
      renderers and the output writer, the client over the Mattermost API and
      the program around them, embedded from audit.go, output.go, errors.go,
      client.go and main.go, with the mock client of audit_test.go, the
      sample of output_test.go and the substring test of client_test.go. *)

From stdpp Require Import prelude strings pretty gmap.

Local Open Scope string_scope.
Local Open Scope list_scope.
Local Open Scope Z_scope.

(** ** The parts of the Go library the program calls

    [time.Time] is used through three operations only: [time.UnixMilli(ms).UTC()],
    [t.Before(u)] and [t.AddDate(0, 0, days)]; [fmt]'s [%q] verb is used once,
    in an error message.  They are an interface here; [Before] is the strict
    comparison of two instants, so no instant is before itself. *)
Class GoLib := {
  Time : Type;
  Time_Before : Time -> Time -> bool;
  Time_AddDays : Time -> Z -> Time;
  time_UnixMilliUTC : Z -> Time;
  strconv_Quote : string -> string;
  Time_Before_irrefl : forall t, Time_Before t t = false
}.

(** A Go [error] is observed through [Error()] only; it is its message.
    [fmt.Errorf(prefix + "%w", err)] yields the message [prefix ++ err]. *)
Definition error := string.

(** Go's [a != b] and [a == b] on strings. *)
Definition str_ne (a b : string) : bool := negb (String.eqb a b).

(** ** errors.go: exit codes *)
Definition ExitSuccess : Z := 0.
Definition ExitConfigError : Z := 1.
Definition ExitAPIError : Z := 2.
Definition ExitPartialFailure : Z := 3.
Definition ExitOutputError : Z := 4.

(** ** The data model

    [model.User], [model.Team] and [model.Channel] come from the Mattermost
    library; only the fields the program reads are kept.  [int64] fields are
    integers; the program only compares them with zero or converts them. *)
Module User.
Record t := mk {
  Id : string;
  Username : string;
  FirstName : string;
  LastName : string;
  Email : string;
  CreateAt : Z;
  LastActivityAt : Z;
  DeleteAt : Z
}.
End User.

Module Team.
Record t := mk { Id : string; DisplayName : string }.
End Team.

Module Channel.
Record t := mk { Id : string; DisplayName : string }.
End Channel.

Module TeamInfo.
Record t := mk { ID : string; DisplayName : string }.
End TeamInfo.

Module ChannelInfo.
Record t := mk { TeamName : string; ChannelName : string }.
End ChannelInfo.

Module GuestRecord.
Record t {Time : Type} := mk {
  Username : string;
  DisplayName : string;
  Email : string;
  CreatedAt : option Time;
  LastLogin : option Time;
  LastPost : option Time;
  Teams : list TeamInfo.t;
  Channels : list ChannelInfo.t;
  Active : bool;
  Inactive : bool;
  Error : string
}.
Arguments t : clear implicits.
End GuestRecord.

Module AuditSummary.
Record t := mk {
  TotalGuests : Z;
  ActiveGuests : Z;
  InactiveGuests : Z;
  DeactivatedGuests : Z;
  FailedLookups : Z
}.
(** The zero value of the struct. *)
Definition zero : t := mk 0 0 0 0 0.
End AuditSummary.

Module AuditResult.
Record t {Time : Type} := mk {
  Guests : list (GuestRecord.t Time);
  Summary : AuditSummary.t;
  InactiveDays : Z
}.
Arguments t : clear implicits.
End AuditResult.

(** ** Pure helpers of audit.go *)

(** [BuildDisplayName]: the [switch] tries its cases in order. *)
Definition BuildDisplayName (firstName lastName : string) : string :=
  if str_ne firstName EmptyString && str_ne lastName EmptyString
  then firstName +:+ " " +:+ lastName
  else if str_ne firstName EmptyString then firstName
  else if str_ne lastName EmptyString then lastName
  else EmptyString.

(** ** Effects

    The pipeline talks to the outside world: the Mattermost server, the
    clock, standard error.  A computation takes the state of the world,
    returns its value and the new state, and writes down what it did, in
    order. *)
Definition M (W E A : Type) : Type := W -> A * W * list E.

Definition ret {W E A} (a : A) : M W E A := fun w => (a, w, []).

Definition bind {W E A B} (m : M W E A) (k : A -> M W E B) : M W E B :=
  fun w =>
    let '(a, w1, t1) := m w in
    let '(b, w2, t2) := k a w1 in
    (b, w2, t1 ++ t2).

Definition emit {W E} (e : E) : M W E unit := fun w => (tt, w, [e]).

Definition when {W E} (b : bool) (m : M W E unit) : M W E unit :=
  if b then m else ret tt.

(** A call into the world, written down with its answer. *)
Definition call {W E A} (f : W -> A * W) (ev : A -> E) : M W E A :=
  fun w => let '(r, w') := f w in (r, w', [ev r]).

Notation "'do' x <- m ; k" := (bind m (fun x => k))
  (at level 10, x name, m at level 100, k at level 200).
Notation "'do' ' p <- m ; k" := (bind m (fun x => match x with p => k end))
  (at level 10, p pattern, m at level 100, k at level 200).
Notation "m ;; k" := (bind m (fun _ => k))
  (at level 100, k at level 200, right associativity).

(** ** client.go: the [MattermostClient] interface

    Every method returns a value or an error: both implementations, the real
    client and the mock of the tests, return a nil value with each error. *)
Record MattermostClient {Time W : Type} := {
  GetGuestUsers : Z -> Z -> W -> (list User.t + error) * W;
  GetTeamByName : string -> W -> (Team.t + error) * W;
  GetTeamsForUser : string -> W -> (list Team.t + error) * W;
  GetChannelsForTeamForUser : string -> string -> W -> (list Channel.t + error) * W;
  GetLastPostDateForUser :
    string -> string -> list string -> W -> (option Time + error) * W
}.
Arguments MattermostClient : clear implicits.

(** [time.Now()], the ambient clock. *)
Class Clock (Time W : Type) := time_Now : W -> Time * W.

(** What is written to standard error, message by message. *)
Inductive Diag :=
| LogError (err : error)
| LogScoping (filterTeamName filterTeamID : string)
| LogRetrieving
| LogFound (n : Z)
| LogGuestFailed (username : string) (err : error)
| LogLastPostFailed (username : string) (err : error).

(** The transcript of a run: each call of the client with its answer, and
    each message on standard error. *)
Inductive Event {Time : Type} :=
| GotGuestUsers (page perPage : Z) (r : list User.t + error)
| GotTeamByName (name : string) (r : Team.t + error)
| GotTeamsForUser (userID : string) (r : list Team.t + error)
| GotChannels (teamID userID : string) (r : list Channel.t + error)
| GotLastPostDate (userID username : string) (teamIDs : list string)
    (r : option Time + error)
| Stderr (d : Diag).
Arguments Event : clear implicits.

(** How the pagination loop ends; [OutOfFuel] is the bound of the model, not
    an outcome of the program. *)
Inductive Listing :=
| OutOfFuel
| ListingFailed (err : error)
| Listed (allGuests : list User.t).

Section Pipeline.
Context `{GoLib} {W : Type} `{!Clock Time W}.

Abbreviation Eff := (M W (Event Time)).
Abbreviation Client := (MattermostClient Time W).

Definition now : Eff Time := fun w => let '(t, w') := time_Now w in (t, w', []).

(** [MillisToTime]: zero is the absent date. *)
Definition MillisToTime (millis : Z) : option Time :=
  if millis =? 0 then None else Some (time_UnixMilliUTC millis).

(** [IsInactiveAt]: the classifier with an injected reference time. *)
Definition IsInactiveAt (lastLogin : option Time) (inactiveDays : Z)
    (now : Time) : bool :=
  if inactiveDays <=? 0 then false
  else match lastLogin with
       | None => true
       | Some t =>
           let cutoff := Time_AddDays now (- inactiveDays) in
           Time_Before t cutoff
       end.

(** [IsInactive]: the same with the real clock, read only when needed. *)
Definition IsInactive (lastLogin : option Time) (inactiveDays : Z) : Eff bool :=
  if inactiveDays <=? 0 then ret false
  else match lastLogin with
       | None => ret true
       | Some t =>
           do n <- now;
           let cutoff := Time_AddDays n (- inactiveDays) in
           ret (Time_Before t cutoff)
       end.

(** [processGuest], first loop: keep the teams in scope. *)
Fixpoint filterTeams (filterTeamID : string) (teams : list Team.t)
    (teamInfos : list TeamInfo.t) : list TeamInfo.t :=
  match teams with
  | [] => teamInfos
  | t :: teams' =>
      if str_ne filterTeamID EmptyString && str_ne (Team.Id t) filterTeamID
      then filterTeams filterTeamID teams' teamInfos
      else filterTeams filterTeamID teams'
             (teamInfos ++ [TeamInfo.mk (Team.Id t) (Team.DisplayName t)])
  end.

(** [processGuest], second loop: the channels of each team in scope.  The
    first failure ends the loop with the wrapped error. *)
Fixpoint channelsLoop (client : Client) (u : User.t)
    (teamInfos : list TeamInfo.t) (channels : list ChannelInfo.t)
    (teamIDs : list string)
    : Eff (list ChannelInfo.t * list string + error) :=
  match teamInfos with
  | [] => ret (inl (channels, teamIDs))
  | ti :: teamInfos' =>
      let teamIDs := teamIDs ++ [TeamInfo.ID ti] in
      do r <- call (GetChannelsForTeamForUser client (TeamInfo.ID ti) (User.Id u))
                (GotChannels (TeamInfo.ID ti) (User.Id u));
      match r with
      | inr err =>
          ret (inr ("failed to get channels for team "
                      +:+ strconv_Quote (TeamInfo.DisplayName ti)
                      +:+ ": " +:+ err))
      | inl chs =>
          let channels :=
            channels ++
              map (fun ch =>
                     ChannelInfo.mk (TeamInfo.DisplayName ti) (Channel.DisplayName ch))
                chs in
          channelsLoop client u teamInfos' channels teamIDs
      end
  end.

(** [processGuest]: a record, or nothing for a guest out of scope, or an
    error. *)
Definition processGuest (client : Client) (u : User.t) (filterTeamID : string)
    (inactiveDays : Z) (verbose : bool)
    : Eff (option (GuestRecord.t Time) * option error) :=
  do r <- call (GetTeamsForUser client (User.Id u)) (GotTeamsForUser (User.Id u));
  match r with
  | inr err => ret (None, Some ("failed to get teams: " +:+ err))
  | inl teams =>
      let teamInfos := filterTeams filterTeamID teams [] in
      if str_ne filterTeamID EmptyString && (Z.of_nat (length teamInfos) =? 0)
      then ret (None, None)
      else
        do cr <- channelsLoop client u teamInfos [] [];
        match cr with
        | inr err => ret (None, Some err)
        | inl (channels, teamIDs) =>
            do lastPost <-
              (if 0 <? Z.of_nat (length teamIDs) then
                 do lr <- call (GetLastPostDateForUser client (User.Id u)
                                  (User.Username u) teamIDs)
                            (GotLastPostDate (User.Id u) (User.Username u) teamIDs);
                 match lr with
                 | inr err =>
                     when verbose
                       (emit (Stderr (LogLastPostFailed (User.Username u) err)));;
                     ret None
                 | inl lastPost => ret lastPost
                 end
               else ret None);
            let lastLogin := MillisToTime (User.LastActivityAt u) in
            let active := User.DeleteAt u =? 0 in
            do inactive <- IsInactive lastLogin inactiveDays;
            ret (Some {| GuestRecord.Username := User.Username u;
                         GuestRecord.DisplayName :=
                           BuildDisplayName (User.FirstName u) (User.LastName u);
                         GuestRecord.Email := User.Email u;
                         GuestRecord.CreatedAt := MillisToTime (User.CreateAt u);
                         GuestRecord.LastLogin := lastLogin;
                         GuestRecord.LastPost := lastPost;
                         GuestRecord.Teams := teamInfos;
                         GuestRecord.Channels := channels;
                         GuestRecord.Active := active;
                         GuestRecord.Inactive := inactive;
                         GuestRecord.Error := EmptyString |}, None)
        end
  end.

(** [RunAudit], pagination loop.  [fuel] bounds the number of pages the model
    fetches; the program itself loops until a short page or an error.  [page]
    cannot overflow: [allGuests] holds at least [perPage] users per page
    fetched. *)
Fixpoint fetchGuests (fuel : nat) (client : Client) (page perPage : Z)
    (allGuests : list User.t) : Eff Listing :=
  match fuel with
  | O => ret OutOfFuel
  | S fuel' =>
      do r <- call (GetGuestUsers client page perPage) (GotGuestUsers page perPage);
      match r with
      | inr err =>
          emit (Stderr (LogError err));;
          ret (ListingFailed err)
      | inl users =>
          let allGuests := allGuests ++ users in
          if Z.of_nat (length users) <? perPage then ret (Listed allGuests)
          else fetchGuests fuel' client (page + 1) perPage allGuests
      end
  end.

(** The record [RunAudit] builds for a guest whose processing failed. *)
Definition stubRecord (u : User.t) (err : error) : GuestRecord.t Time :=
  {| GuestRecord.Username := User.Username u;
     GuestRecord.DisplayName := BuildDisplayName (User.FirstName u) (User.LastName u);
     GuestRecord.Email := User.Email u;
     GuestRecord.CreatedAt := MillisToTime (User.CreateAt u);
     GuestRecord.LastLogin := None;
     GuestRecord.LastPost := None;
     GuestRecord.Teams := [];
     GuestRecord.Channels := [];
     GuestRecord.Active := User.DeleteAt u =? 0;
     GuestRecord.Inactive := false;
     GuestRecord.Error := err |}.

(** [result.Summary.FailedLookups++] *)
Definition incFailedLookups (result : AuditResult.t Time) : AuditResult.t Time :=
  let s := AuditResult.Summary result in
  {| AuditResult.Guests := AuditResult.Guests result;
     AuditResult.Summary :=
       {| AuditSummary.TotalGuests := AuditSummary.TotalGuests s;
          AuditSummary.ActiveGuests := AuditSummary.ActiveGuests s;
          AuditSummary.InactiveGuests := AuditSummary.InactiveGuests s;
          AuditSummary.DeactivatedGuests := AuditSummary.DeactivatedGuests s;
          AuditSummary.FailedLookups := AuditSummary.FailedLookups s + 1 |};
     AuditResult.InactiveDays := AuditResult.InactiveDays result |}.

(** [result.Guests = append(result.Guests, record)] *)
Definition appendGuest (result : AuditResult.t Time) (record : GuestRecord.t Time)
    : AuditResult.t Time :=
  {| AuditResult.Guests := AuditResult.Guests result ++ [record];
     AuditResult.Summary := AuditResult.Summary result;
     AuditResult.InactiveDays := AuditResult.InactiveDays result |}.

(** [RunAudit], the body of the loop over the guests: one guest. *)
Definition guestStep (client : Client) (filterTeamID : string)
    (inactiveDays : Z) (verbose : bool) (u : User.t)
    (st : AuditResult.t Time * Z) : Eff (AuditResult.t Time * Z) :=
  let '(result, exitCode) := st in
  do '(record, err) <- processGuest client u filterTeamID inactiveDays verbose;
  do '(record, result, exitCode) <-
    match err with
    | Some e =>
        when verbose (emit (Stderr (LogGuestFailed (User.Username u) e)));;
        ret (Some (stubRecord u e), incFailedLookups result, ExitPartialFailure)
    | None => ret (record, result, exitCode)
    end;
  match record with
  | None => ret (result, exitCode)
  | Some record => ret (appendGuest result record, exitCode)
  end.

(** [RunAudit], the loop over the guests. *)
Fixpoint guestsLoop (client : Client) (filterTeamID : string)
    (inactiveDays : Z) (verbose : bool) (allGuests : list User.t)
    (st : AuditResult.t Time * Z) : Eff (AuditResult.t Time * Z) :=
  match allGuests with
  | [] => ret st
  | u :: rest =>
      do st' <- guestStep client filterTeamID inactiveDays verbose u st;
      guestsLoop client filterTeamID inactiveDays verbose rest st'
  end.

(** [RunAudit], the loop that fills the summary. *)
Fixpoint summaryLoop (guests : list (GuestRecord.t Time)) (s : AuditSummary.t)
    : AuditSummary.t :=
  match guests with
  | [] => s
  | g :: rest =>
      if str_ne (GuestRecord.Error g) EmptyString then summaryLoop rest s
      else if negb (GuestRecord.Active g) then
        summaryLoop rest
          {| AuditSummary.TotalGuests := AuditSummary.TotalGuests s;
             AuditSummary.ActiveGuests := AuditSummary.ActiveGuests s;
             AuditSummary.InactiveGuests := AuditSummary.InactiveGuests s;
             AuditSummary.DeactivatedGuests := AuditSummary.DeactivatedGuests s + 1;
             AuditSummary.FailedLookups := AuditSummary.FailedLookups s |}
      else if GuestRecord.Inactive g then
        summaryLoop rest
          {| AuditSummary.TotalGuests := AuditSummary.TotalGuests s;
             AuditSummary.ActiveGuests := AuditSummary.ActiveGuests s;
             AuditSummary.InactiveGuests := AuditSummary.InactiveGuests s + 1;
             AuditSummary.DeactivatedGuests := AuditSummary.DeactivatedGuests s;
             AuditSummary.FailedLookups := AuditSummary.FailedLookups s |}
      else
        summaryLoop rest
          {| AuditSummary.TotalGuests := AuditSummary.TotalGuests s;
             AuditSummary.ActiveGuests := AuditSummary.ActiveGuests s + 1;
             AuditSummary.InactiveGuests := AuditSummary.InactiveGuests s;
             AuditSummary.DeactivatedGuests := AuditSummary.DeactivatedGuests s;
             AuditSummary.FailedLookups := AuditSummary.FailedLookups s |}
  end.

(** The end of [RunAudit]: the summary loop, then [TotalGuests]. *)
Definition summarise (result : AuditResult.t Time) : AuditResult.t Time :=
  let s := summaryLoop (AuditResult.Guests result) (AuditResult.Summary result) in
  {| AuditResult.Guests := AuditResult.Guests result;
     AuditResult.Summary :=
       {| AuditSummary.TotalGuests := Z.of_nat (length (AuditResult.Guests result));
          AuditSummary.ActiveGuests := AuditSummary.ActiveGuests s;
          AuditSummary.InactiveGuests := AuditSummary.InactiveGuests s;
          AuditSummary.DeactivatedGuests := AuditSummary.DeactivatedGuests s;
          AuditSummary.FailedLookups := AuditSummary.FailedLookups s |};
     AuditResult.InactiveDays := AuditResult.InactiveDays result |}.

(** [RunAudit], the resolution of the team filter: the identity and display
    name of the team, both empty without a filter, or the exit code. *)
Definition resolveTeamFilter (client : Client) (teamFilter : string)
    (verbose : bool) : Eff (string * string + Z) :=
  if str_ne teamFilter EmptyString then
    do r <- call (GetTeamByName client teamFilter) (GotTeamByName teamFilter);
    match r with
    | inr err =>
        emit (Stderr (LogError err));;
        ret (inr ExitConfigError)
    | inl team =>
        let filterTeamID := Team.Id team in
        let filterTeamName := Team.DisplayName team in
        when verbose (emit (Stderr (LogScoping filterTeamName filterTeamID)));;
        ret (inl (filterTeamID, filterTeamName))
    end
  else ret (inl (EmptyString, EmptyString)).

(** [RunAudit].  [None] only when [fuel] pages were fetched and none was
    short; otherwise the result, absent after a fatal error, and the exit
    code. *)
Definition RunAudit (fuel : nat) (client : Client) (teamFilter : string)
    (inactiveDays : Z) (verbose : bool)
    : Eff (option (option (AuditResult.t Time) * Z)) :=
  do f <- resolveTeamFilter client teamFilter verbose;
  match f with
  | inr code => ret (Some (None, code))
  | inl (filterTeamID, filterTeamName) =>
      when verbose (emit (Stderr LogRetrieving));;
      let page := 0 in
      let perPage := 200 in
      do l <- fetchGuests fuel client page perPage [];
      match l with
      | OutOfFuel => ret None
      | ListingFailed _ => ret (Some (None, ExitAPIError))
      | Listed allGuests =>
          when verbose (emit (Stderr (LogFound (Z.of_nat (length allGuests)))));;
          let result :=
            {| AuditResult.Guests := [];
               AuditResult.Summary := AuditSummary.zero;
               AuditResult.InactiveDays := inactiveDays |} in
          let exitCode := ExitSuccess in
          do '(result, exitCode) <-
            guestsLoop client filterTeamID inactiveDays verbose allGuests
              (result, exitCode);
          ret (Some (Some (summarise result), exitCode))
      end
  end.
End Pipeline.

(** ** audit_test.go: the mock client

    Go maps are finite maps; a nil map has no key.  The mock keeps no state:
    its answers depend on its fields and on the arguments only. *)
Record mockClient {Time : Type} := {
  guests : list User.t;
  guestsErr : option error;
  teams : gmap string (list Team.t);
  teamsErr : gmap string error;
  teamByName : gmap string Team.t;
  teamByNameErr : gmap string error;
  channels : gmap string (list Channel.t);
  channelsErr : gmap string error;
  lastPostDate : gmap string Time;
  lastPostDateErr : gmap string error
}.
Arguments mockClient : clear implicits.

(** Go's [s[i:j]], for [0 <= i <= j <= len(s)]. *)
Definition slice {A} (s : list A) (i j : Z) : list A :=
  take (Z.to_nat (j - i)) (drop (Z.to_nat i) s).

Section Mock.
Context `{GoLib}.

Definition mock_GetGuestUsers (m : mockClient Time) (page perPage : Z)
    : list User.t + error :=
  match guestsErr m with
  | Some err => inr err
  | None =>
      let start := page * perPage in
      if Z.of_nat (length (guests m)) <=? start then inl []
      else
        let end_ := start + perPage in
        let end_ :=
          if Z.of_nat (length (guests m)) <? end_
          then Z.of_nat (length (guests m)) else end_ in
        inl (slice (guests m) start end_)
  end.

Definition mock_GetTeamByName (m : mockClient Time) (name : string)
    : Team.t + error :=
  match teamByNameErr m !! name with
  | Some err => inr err
  | None =>
      match teamByName m !! name with
      | Some t => inl t
      | None =>
          inr ("error: team " +:+ strconv_Quote name
                 +:+ " not found. Please check the name and try again")
      end
  end.

Definition mock_GetTeamsForUser (m : mockClient Time) (userID : string)
    : list Team.t + error :=
  match teamsErr m !! userID with
  | Some err => inr err
  | None => inl (default [] (teams m !! userID))
  end.

Definition mock_GetChannelsForTeamForUser (m : mockClient Time)
    (teamID userID : string) : list Channel.t + error :=
  let key := teamID +:+ ":" +:+ userID in
  match channelsErr m !! key with
  | Some err => inr err
  | None => inl (default [] (channels m !! key))
  end.

Definition mock_GetLastPostDateForUser (m : mockClient Time)
    (userID username : string) (teamIDs : list string) : option Time + error :=
  match lastPostDateErr m !! userID with
  | Some err => inr err
  | None => inl (lastPostDate m !! userID)
  end.

(** The mock as a [MattermostClient]: the world is left as it is. *)
Definition mockAsClient {W : Type} (m : mockClient Time) : MattermostClient Time W :=
  {| GetGuestUsers page perPage w := (mock_GetGuestUsers m page perPage, w);
     GetTeamByName name w := (mock_GetTeamByName m name, w);
     GetTeamsForUser userID w := (mock_GetTeamsForUser m userID, w);
     GetChannelsForTeamForUser teamID userID w :=
       (mock_GetChannelsForTeamForUser m teamID userID, w);
     GetLastPostDateForUser userID username teamIDs w :=
       (mock_GetLastPostDateForUser m userID username teamIDs, w) |}.
End Mock.

(** ** The guests and the time of audit_test.go *)

(** 2024-03-09T16:00:00Z, in nanoseconds. *)
Definition testNow : Z := 1710000000000000000.

(** Five days before [testNow], in milliseconds. *)
Definition loginTime : Z := 1709568000000.

Definition jane : User.t :=
  User.mk "user1" "jane.doe" "Jane" "Doe" "jane@example.com" 1709280000000 loginTime 0.

Definition bob : User.t :=
  User.mk "user2" "bob.smith" "Bob" "Smith" "bob@example.com" 1709280000000 loginTime 0.

(** A mock for a filtered run: the only guest belongs to Engineering, not
    to Sales, and the call for the teams of that guest fails. *)
Definition strangerMock {Time : Type} : mockClient Time :=
  {| guests := [jane];
     guestsErr := None;
     teams := {[ "user1" := [Team.mk "team1" "Engineering"] ]};
     teamsErr := {[ "user1" := "error: API request failed (HTTP 500)" ]};
     teamByName := {[ "Sales" := Team.mk "team2" "Sales" ]};
     teamByNameErr := ∅;
     channels := ∅;
     channelsErr := ∅;
     lastPostDate := ∅;
     lastPostDateErr := ∅ |}.

(** ** An instance of the library for the examples

    Instants are nanoseconds since the Unix epoch and every time is in UTC,
    where a calendar day lasts 86400 seconds; [%q] is the plain quoting of
    a string that needs no escape. *)
Definition dquote : Ascii.ascii := Eval cbv in Ascii.ascii_of_nat 34.

Definition utcLib : GoLib :=
  {| Time := Z;
     Time_Before := Z.ltb;
     Time_AddDays t days := t + days * 86400000000000;
     time_UnixMilliUTC ms := ms * 1000000;
     strconv_Quote s := String dquote (s +:+ String dquote EmptyString);
     Time_Before_irrefl := Z.ltb_irrefl |}.

(** A world that is its clock, stopped. *)
Definition stoppedClock : Clock Z Z := fun w => (w, w).

(** ** The scenarios of audit_test.go *)

(** A mock as a client, and a run against it, with the library and the
    clock of the examples. *)
Definition mockZ (m : mockClient Z) : MattermostClient Z Z := @mockAsClient utcLib Z m.

Definition runMock (fuel : nat) (m : mockClient Z) (teamFilter : string)
    (inactiveDays : Z) (verbose : bool) (w : Z) :=
  @RunAudit utcLib Z stoppedClock fuel (mockZ m) teamFilter inactiveDays verbose w.

(** [TestRunAudit_PartialFailure]: the team call of the second guest fails. *)
Definition partialFailureMock : mockClient Z :=
  {| guests := [jane; bob];
     guestsErr := None;
     teams := {[ "user1" := [Team.mk "team1" "Engineering"] ]};
     teamsErr := {[ "user2" := "error: API request failed (HTTP 500)" ]};
     teamByName := ∅;
     teamByNameErr := ∅;
     channels := {[ "team1:user1" := [Channel.mk "ch1" "General"] ]};
     channelsErr := ∅;
     lastPostDate := ∅;
     lastPostDateErr := ∅ |}.

(** [TestRunAudit_TeamFilter]: two guests, one of them in Sales. *)
Definition teamFilterMock : mockClient Z :=
  {| guests := [jane; bob];
     guestsErr := None;
     teams := {[ "user1" := [Team.mk "team1" "Engineering"];
                 "user2" := [Team.mk "team1" "Engineering"; Team.mk "team2" "Sales"] ]};
     teamsErr := ∅;
     teamByName := {[ "Sales" := Team.mk "team2" "Sales" ]};
     teamByNameErr := ∅;
     channels := {[ "team2:user2" := [Channel.mk "ch3" "Partner Updates"] ]};
     channelsErr := ∅;
     lastPostDate := {[ "user2" := 1709740800000000000 ]};
     lastPostDateErr := ∅ |}.

(** [TestRunAudit_TeamFilterNotFound]: no team at all. *)
Definition noTeamMock : mockClient Z :=
  {| guests := [];
     guestsErr := None;
     teams := ∅;
     teamsErr := ∅;
     teamByName := ∅;
     teamByNameErr := ∅;
     channels := ∅;
     channelsErr := ∅;
     lastPostDate := ∅;
     lastPostDateErr := ∅ |}.

(** [TestRunAudit_Pagination]: 250 guests, all in Engineering. *)
Definition paginationGuest (i : nat) : User.t :=
  User.mk ("user" +:+ pretty i) ("guest" +:+ pretty i) EmptyString EmptyString
    ("guest" +:+ pretty i +:+ "@example.com") 1709280000000 0 0.

Definition paginationMock : mockClient Z :=
  {| guests := map paginationGuest (seq 0 250);
     guestsErr := None;
     teams :=
       list_to_map
         (map (fun i => ("user" +:+ pretty i, [Team.mk "team1" "Engineering"]))
            (seq 0 250));
     teamsErr := ∅;
     teamByName := ∅;
     teamByNameErr := ∅;
     channels :=
       list_to_map
         (map (fun i => ("team1:user" +:+ pretty i, [Channel.mk "ch1" "General"]))
            (seq 0 250));
     channelsErr := ∅;
     lastPostDate := ∅;
     lastPostDateErr := ∅ |}.

(** One guest in one team; the estimation of the last post fails. *)
Definition lastPostFailureMock : mockClient Z :=
  {| guests := [jane];
     guestsErr := None;
     teams := {[ "user1" := [Team.mk "team1" "Engineering"] ]};
     teamsErr := ∅;
     teamByName := ∅;
     teamByNameErr := ∅;
     channels := {[ "team1:user1" := [Channel.mk "ch1" "General"] ]};
     channelsErr := ∅;
     lastPostDate := ∅;
     lastPostDateErr := {[ "user1" := "error: API request failed (HTTP 429)" ]} |}.

(** A server that returns a full page of guests and then fails: the mock
    above for every other call, with a world that is still its clock. *)
Definition flakyClient : MattermostClient Z Z :=
  {| GetGuestUsers page perPage w :=
       (if page =? 0 then inl (replicate 200 jane)
        else inr "error: API request failed (HTTP 502)",
        w);
     GetTeamByName := GetTeamByName (mockZ partialFailureMock);
     GetTeamsForUser := GetTeamsForUser (mockZ partialFailureMock);
     GetChannelsForTeamForUser :=
       GetChannelsForTeamForUser (mockZ partialFailureMock);
     GetLastPostDateForUser :=
       GetLastPostDateForUser (mockZ partialFailureMock) |}.

(** ** output.go: [WriteOutput]

    The operating system creates and closes files.  The three renderers
    ([writeTable], [writeCSV], [writeJSON]) write to the writer they are
    given and return what their encoder reports; they are taken as they
    come, [WriteOutput] only chooses their writer. *)
Inductive Writer {File : Type} :=
| Stdout
| ToFile (f : File).
Arguments Writer : clear implicits.

Record OutputEnv {Time W File : Type} := {
  os_Create : string -> W -> (File + error) * W;
  File_Close : File -> W -> W;
  writeTable : Writer File -> AuditResult.t Time -> W -> option error * W;
  writeCSV : Writer File -> AuditResult.t Time -> W -> option error * W;
  writeJSON : Writer File -> AuditResult.t Time -> W -> option error * W
}.
Arguments OutputEnv : clear implicits.

(** What [WriteOutput] does, in order: the attempt to create the file, the
    warning on standard error, the renderer called with its writer and its
    answer, the deferred close. *)
Inductive OutEvent {File : Type} :=
| Created (outputPath : string) (r : File + error)
| Warned (outputPath : string) (err : error)
| Rendered (format : string) (w : Writer File) (err : option error)
| Closed (f : File).
Arguments OutEvent : clear implicits.

Section Output.
Context {Time W File : Type}.

(** The [switch] on the format. *)
Definition render (env : OutputEnv Time W File) (format : string)
    (w : Writer File) (result : AuditResult.t Time) : W -> option error * W :=
  if String.eqb format "csv" then writeCSV env w result
  else if String.eqb format "json" then writeJSON env w result
  else writeTable env w result.

Definition WriteOutput (env : OutputEnv Time W File)
    (result : AuditResult.t Time) (format outputPath : string)
    : M W (OutEvent File) (option error) :=
  do w <-
    (if str_ne outputPath EmptyString then
       do r <- call (os_Create env outputPath) (Created outputPath);
       match r with
       | inr err => emit (Warned outputPath err);; ret Stdout
       | inl f => ret (ToFile f)
       end
     else ret Stdout);
  do err <- call (render env format w result) (Rendered format w);
  match w with
  | ToFile f => (fun s => (tt, File_Close env f s, [Closed f]));; ret err
  | Stdout => ret err
  end.
End Output.

(** A small operating system for the examples: the text written to standard
    output and the files by path; no file can be created under
    [/nonexistent/].  The stand-ins for the renderers write one line, the
    format and the number of guests, and never fail. *)
Record TestOS := {
  stdout : string;
  files : list (string * string)
}.

Definition testWrite (text : string) (w : Writer string) (os : TestOS)
    : option error * TestOS :=
  match w with
  | Stdout => (None, {| stdout := stdout os +:+ text; files := files os |})
  | ToFile path => (None, {| stdout := stdout os; files := (path, text) :: files os |})
  end.

Definition testEnv : OutputEnv Z TestOS string :=
  {| os_Create path os :=
       if String.prefix "/nonexistent/" path
       then (inr ("open " +:+ path +:+ ": no such file or directory"), os)
       else (inl path, os);
     File_Close path os := os;
     writeTable w result :=
       testWrite ("table " +:+ pretty (AuditSummary.TotalGuests (AuditResult.Summary result))) w;
     writeCSV w result :=
       testWrite ("csv " +:+ pretty (AuditSummary.TotalGuests (AuditResult.Summary result))) w;
     writeJSON w result :=
       testWrite ("json " +:+ pretty (AuditSummary.TotalGuests (AuditResult.Summary result))) w |}.

(** ** The vocabulary of the properties *)

(** Number of elements of a list that satisfy a test, as a Go [int]. *)
Definition countIf {A} (p : A -> bool) (l : list A) : Z :=
  Z.of_nat (length (List.filter p l)).

Section Vocabulary.
Context {Time : Type}.

(** The four buckets of the summary, as tests on a record. *)
Definition isFailed (g : GuestRecord.t Time) : bool :=
  str_ne (GuestRecord.Error g) EmptyString.

Definition isDeactivated (g : GuestRecord.t Time) : bool :=
  String.eqb (GuestRecord.Error g) EmptyString && negb (GuestRecord.Active g).

Definition isInactive (g : GuestRecord.t Time) : bool :=
  String.eqb (GuestRecord.Error g) EmptyString
  && GuestRecord.Active g && GuestRecord.Inactive g.

Definition isActive (g : GuestRecord.t Time) : bool :=
  String.eqb (GuestRecord.Error g) EmptyString
  && GuestRecord.Active g && negb (GuestRecord.Inactive g).

(** A call of the client that was answered with an error. *)
Definition failed (e : Event Time) : bool :=
  match e with
  | GotGuestUsers _ _ (inr _) => true
  | GotTeamByName _ (inr _) => true
  | GotTeamsForUser _ (inr _) => true
  | GotChannels _ _ (inr _) => true
  | GotLastPostDate _ _ _ (inr _) => true
  | _ => false
  end.

(** The calls of the guest-listing operation in a transcript, in order. *)
Definition listingCalls (tr : list (Event Time)) : list (Z * Z * (list User.t + error)) :=
  omap (fun e => match e with
                 | GotGuestUsers page perPage r => Some (page, perPage, r)
                 | _ => None
                 end) tr.

(** The users a listing call returned, if it succeeded. *)
Definition answeredUsers (c : Z * Z * (list User.t + error)) : option (list User.t) :=
  match c with
  | (_, _, inl users) => Some users
  | _ => None
  end.

(** The users the successful pages of a transcript returned, in order. *)
Definition listedUsers (tr : list (Event Time)) : list User.t :=
  concat (omap answeredUsers (listingCalls tr)).

(** A call of the guest-listing operation. *)
Definition isListing (e : Event Time) : bool :=
  match e with
  | GotGuestUsers _ _ _ => true
  | _ => false
  end.

(** A call of the last-post estimation. *)
Definition isLastPost (e : Event Time) : bool :=
  match e with
  | GotLastPostDate _ _ _ _ => true
  | _ => false
  end.

(** How a record repeats the account it was built from. *)
Definition recordOf (u : User.t) (g : GuestRecord.t Time) : Prop :=
  GuestRecord.Username g = User.Username u
  /\ GuestRecord.DisplayName g = BuildDisplayName (User.FirstName u) (User.LastName u)
  /\ GuestRecord.Email g = User.Email u
  /\ GuestRecord.Active g = (User.DeleteAt u =? 0).
End Vocabulary.

(** The team reference [processGuest] keeps for a team. *)
Definition toTeamInfo (t : Team.t) : TeamInfo.t :=
  TeamInfo.mk (Team.Id t) (Team.DisplayName t).

(** A team is in scope when no filter is active or it is the team of the
    filter. *)
Definition inScope (filterTeamID : string) (t : Team.t) : bool :=
  String.eqb filterTeamID EmptyString || String.eqb (Team.Id t) filterTeamID.

(** What the loop of [RunAudit] makes of one guest. *)
Inductive GuestOutcome {Time : Type} :=
| Skipped
| FailedWith (e : error)
| Kept (r : GuestRecord.t Time).
Arguments GuestOutcome : clear implicits.

Section Outcomes.
Context `{GoLib}.

(** The effect of an outcome on the result and the exit code. *)
Definition applyOutcome (st : AuditResult.t Time * Z)
    (uo : User.t * GuestOutcome Time) : AuditResult.t Time * Z :=
  let '(result, exitCode) := st in
  match uo with
  | (_, Skipped) => (result, exitCode)
  | (u, FailedWith e) =>
      (appendGuest (incFailedLookups result) (stubRecord u e), ExitPartialFailure)
  | (_, Kept r) => (appendGuest result r, exitCode)
  end.

(** The records a list of outcomes contributes, in order. *)
Definition outcomeRecord (uo : User.t * GuestOutcome Time)
    : option (GuestRecord.t Time) :=
  match uo with
  | (_, Skipped) => None
  | (u, FailedWith e) => Some (stubRecord u e)
  | (_, Kept r) => Some r
  end.

(** An outcome and the transcript it comes with.  No guest is listed any
    more, and the team call is first.  A guest is skipped when a filter is active and no team of the answer is
    in scope; fails when the team call or a channel call fails; is kept
    otherwise, and then only the last-post call can have failed. *)
Definition outcomeSpec (filterTeamID : string) (inactiveDays : Z) (u : User.t)
    (tr : list (Event Time)) (o : GuestOutcome Time) : Prop :=
  listingCalls tr = [] /\
  match o with
  | Skipped =>
      filterTeamID <> EmptyString
      /\ exists teams,
           tr = [GotTeamsForUser (User.Id u) (inl teams)]
           /\ List.filter (inScope filterTeamID) teams = []
  | FailedWith e =>
      e <> EmptyString
      /\ exists rt tr1,
           tr = GotTeamsForUser (User.Id u) rt :: tr1
           /\ match rt with
              | inr e0 =>
                  e = "failed to get teams: " +:+ e0 /\ List.filter failed tr1 = []
              | inl _ =>
                  exists teamID e0,
                    List.filter failed tr1 = [GotChannels teamID (User.Id u) (inr e0)]
              end
  | Kept r =>
      exists teams tr1,
        tr = GotTeamsForUser (User.Id u) (inl teams) :: tr1
        /\ GuestRecord.Error r = EmptyString
        /\ GuestRecord.Teams r = map toTeamInfo (List.filter (inScope filterTeamID) teams)
        /\ (filterTeamID = EmptyString \/ GuestRecord.Teams r <> [])
        /\ recordOf u r
        /\ GuestRecord.CreatedAt r = MillisToTime (User.CreateAt u)
        /\ GuestRecord.LastLogin r = MillisToTime (User.LastActivityAt u)
        /\ (exists n, GuestRecord.Inactive r
                      = IsInactiveAt (GuestRecord.LastLogin r) inactiveDays n)
        /\ (List.filter failed tr1 = []
            \/ exists e0,
                List.filter failed tr1
                = [GotLastPostDate (User.Id u) (User.Username u)
                     (map TeamInfo.ID (GuestRecord.Teams r)) (inr e0)]
                /\ GuestRecord.LastPost r = None
                /\ GuestRecord.Teams r <> [])
  end.

(** The guests of a run, each with its outcome and its part of the
    transcript. *)
Inductive LoopRun (filterTeamID : string) (inactiveDays : Z)
    : list User.t -> list (Event Time) -> list (User.t * GuestOutcome Time) -> Prop :=
| LoopRun_nil : LoopRun filterTeamID inactiveDays [] [] []
| LoopRun_cons u us tr1 tr2 o os :
    outcomeSpec filterTeamID inactiveDays u tr1 o ->
    LoopRun filterTeamID inactiveDays us tr2 os ->
    LoopRun filterTeamID inactiveDays (u :: us) (tr1 ++ tr2) ((u, o) :: os).

(** The transcript of full pages fetched one after the other. *)
Fixpoint pageEvents (page perPage : Z) (pages : list (list User.t))
    : list (Event Time) :=
  match pages with
  | [] => []
  | p :: ps => GotGuestUsers page perPage (inl p) :: pageEvents (page + 1) perPage ps
  end.

(** [&AuditResult{InactiveDays: inactiveDays}] *)
Definition emptyResult (inactiveDays : Z) : AuditResult.t Time :=
  {| AuditResult.Guests := [];
     AuditResult.Summary := AuditSummary.zero;
     AuditResult.InactiveDays := inactiveDays |}.

(** Standard error, when verbose. *)
Definition verbosely (verbose : bool) (d : Diag) : list (Event Time) :=
  if verbose then [Stderr d] else [].

(** An outcome that is a failure. *)
Definition isFailure (uo : User.t * GuestOutcome Time) : bool :=
  match uo with
  | (_, FailedWith _) => true
  | _ => false
  end.

(** The calls [pageEvents] records. *)
Fixpoint pageCalls (page perPage : Z) (pages : list (list User.t))
    : list (Z * Z * (list User.t + error)) :=
  match pages with
  | [] => []
  | p :: ps => (page, perPage, inl p) :: pageCalls (page + 1) perPage ps
  end.

(** A record kept for a guest, without error. *)
Definition keptOf (u : User.t) (g : GuestRecord.t Time) : Prop :=
  recordOf u g /\ GuestRecord.Error g = EmptyString.

(** The best-effort stub of a guest: identity, display name, email, creation
    time and enabled flag, nothing else, and an error. *)
Definition isStubOf (u : User.t) (g : GuestRecord.t Time) : Prop :=
  recordOf u g
  /\ GuestRecord.CreatedAt g = MillisToTime (User.CreateAt u)
  /\ GuestRecord.LastLogin g = None
  /\ GuestRecord.LastPost g = None
  /\ GuestRecord.Teams g = []
  /\ GuestRecord.Channels g = []
  /\ GuestRecord.Inactive g = false
  /\ GuestRecord.Error g <> EmptyString.

(** The reading of the team filter that takes the mock at its word: every
    record of the result is the record of a guest whose teams, as the mock
    holds them, include the team of the filter. *)
Definition onlyMembers (m : mockClient Time) (filterTeamID : string)
    (result : AuditResult.t Time) : Prop :=
  forall g, In g (AuditResult.Guests result) ->
    exists u t,
      In u (guests m)
      /\ GuestRecord.Username g = User.Username u
      /\ In t (default [] (teams m !! User.Id u))
      /\ Team.Id t = filterTeamID.

End Outcomes.

(** ** More vocabulary: the calls of a guest *)

Section Calls.
Context {Time : Type}.

(** The users whose teams a transcript asks for, in order. *)
Definition teamCallIDs (tr : list (Event Time)) : list string :=
  omap (fun e => match e with
                 | GotTeamsForUser userID _ => Some userID
                 | _ => None
                 end) tr.

(** The successful channel calls of a guest: one per team, with its
    answer. *)
Definition channelEvents (userID : string)
    (answered : list (TeamInfo.t * list Channel.t)) : list (Event Time) :=
  map (fun a => GotChannels (TeamInfo.ID (fst a)) userID (inl (snd a))) answered.

(** The channel references built from those answers. *)
Definition channelInfos (answered : list (TeamInfo.t * list Channel.t))
    : list ChannelInfo.t :=
  concat (map (fun a =>
                 map (fun ch =>
                        ChannelInfo.mk (TeamInfo.DisplayName (fst a))
                          (Channel.DisplayName ch))
                   (snd a))
            answered).

(** A call made for one guest: teams, channels or last post. *)
Definition isGuestCall (e : Event Time) : bool :=
  match e with
  | GotTeamsForUser _ _ | GotChannels _ _ _ | GotLastPostDate _ _ _ _ => true
  | _ => false
  end.

(** A lookup of a team by its name. *)
Definition isTeamLookup (e : Event Time) : bool :=
  match e with
  | GotTeamByName _ _ => true
  | _ => false
  end.

(** A call of the client without its answer. *)
Inductive Call :=
| CallGuestUsers (page perPage : Z)
| CallTeamByName (name : string)
| CallTeamsForUser (userID : string)
| CallChannels (teamID userID : string)
| CallLastPostDate (userID username : string) (teamIDs : list string).

Definition callOf (e : Event Time) : option Call :=
  match e with
  | GotGuestUsers page perPage _ => Some (CallGuestUsers page perPage)
  | GotTeamByName name _ => Some (CallTeamByName name)
  | GotTeamsForUser userID _ => Some (CallTeamsForUser userID)
  | GotChannels teamID userID _ => Some (CallChannels teamID userID)
  | GotLastPostDate userID username teamIDs _ =>
      Some (CallLastPostDate userID username teamIDs)
  | Stderr _ => None
  end.

(** The calls of a transcript, in order. *)
Definition calls (tr : list (Event Time)) : list Call := omap callOf tr.

(** The calls [processGuest] makes for a guest it keeps, given the teams in
    scope: the teams, the channels of each team in order, and the last post
    when there is a team. *)
Definition keptCalls (u : User.t) (teamInfos : list TeamInfo.t) : list Call :=
  CallTeamsForUser (User.Id u)
  :: map (fun ti => CallChannels (TeamInfo.ID ti) (User.Id u)) teamInfos
  ++ match teamInfos with
     | [] => []
     | _ :: _ =>
         [CallLastPostDate (User.Id u) (User.Username u)
            (map TeamInfo.ID teamInfos)]
     end.

End Calls.

(** The record [processGuest] builds for a guest it keeps, given the teams
    in scope, the channels, the last post and the inactivity flag. *)
Definition completeRecord `{GoLib} (u : User.t) (teamInfos : list TeamInfo.t)
    (channels : list ChannelInfo.t) (lastPost : option Time) (inactive : bool)
    : GuestRecord.t Time :=
  {| GuestRecord.Username := User.Username u;
     GuestRecord.DisplayName := BuildDisplayName (User.FirstName u) (User.LastName u);
     GuestRecord.Email := User.Email u;
     GuestRecord.CreatedAt := MillisToTime (User.CreateAt u);
     GuestRecord.LastLogin := MillisToTime (User.LastActivityAt u);
     GuestRecord.LastPost := lastPost;
     GuestRecord.Teams := teamInfos;
     GuestRecord.Channels := channels;
     GuestRecord.Active := User.DeleteAt u =? 0;
     GuestRecord.Inactive := inactive;
     GuestRecord.Error := EmptyString |}.


(** ** output.go: the three renderers

    [strings.Join], [fmt]'s [%d] and [%t] verbs are the library's; times are
    formatted by [t.UTC().Format(layout)], an operation of the time library.
    The renderers write through a [tabwriter], a [csv.Writer] and a
    [json.Encoder]; these are operations of the world, written down with
    what they were given and what they answered. *)
Definition strings_Join (elems : list string) (sep : string) : string :=
  String.concat sep elems.

Definition fmt_bool (b : bool) : string := if b then "true" else "false".

Definition tab : string := Eval cbv in String (Ascii.ascii_of_nat 9) EmptyString.
Definition newline : string := Eval cbv in String (Ascii.ascii_of_nat 10) EmptyString.

(** The em dash of the summary line, in UTF-8. *)
Definition emdash : string :=
  Eval cbv in
    String (Ascii.ascii_of_nat 226)
      (String (Ascii.ascii_of_nat 128)
         (String (Ascii.ascii_of_nat 148) EmptyString)).

Class GoFormat `{GoLib} := Time_FormatUTC : string -> Time -> string.

Module jsonGuestRecord.
Record t := mk {
  Username : string;
  DisplayName : string;
  Email : string;
  CreatedAt : option string;
  LastLogin : option string;
  LastPost : option string;
  Teams : list string;
  Channels : list ChannelInfo.t;
  Active : bool;
  Inactive : bool
}.
End jsonGuestRecord.

Module jsonOutput.
Record t := mk {
  Summary : AuditSummary.t;
  InactiveDays : Z;
  Guests : list jsonGuestRecord.t
}.
End jsonOutput.

(** What a renderer does to its writers, in order. *)
Inductive RenderEvent :=
| TabWrote (text : string)
| TabFlushed (err : option error)
| Wrote (text : string) (err : option error)
| CsvWrote (row : list string) (err : option error)
| CsvFlushed
| JsonEncoded (output : jsonOutput.t) (err : option error).

(** The writers of a renderer over its [io.Writer]: the [tabwriter] buffers
    what it is given and reports errors when flushed; [fmt.Fprint] and its
    kin report an error, which the program drops. *)
Record RenderEnv {W : Type} := {
  tw_Write : string -> W -> W;
  tw_Flush : W -> option error * W;
  w_Write : string -> W -> option error * W;
  csv_Write : list string -> W -> option error * W;
  csv_Flush : W -> W;
  json_Encode : jsonOutput.t -> W -> option error * W
}.
Arguments RenderEnv : clear implicits.

Module Render.
Section Render.
Context `{GoFormat} {W : Type}.

Abbreviation Out := (M W RenderEvent).

(** [FormatTimeISO] and [FormatTimeDisplay], of audit.go. *)
Definition FormatTimeISO (t : option Time) : string :=
  match t with
  | None => EmptyString
  | Some t => Time_FormatUTC "2006-01-02T15:04:05Z07:00" t
  end.

Definition FormatTimeDisplay (t : option Time) : string :=
  match t with
  | None => "Never"
  | Some t => Time_FormatUTC "2006-01-02 15:04" t
  end.

Definition timeToStringPtr (t : option Time) : option string :=
  match t with
  | None => None
  | Some _ => Some (FormatTimeISO t)
  end.

Definition guestStatus (g : GuestRecord.t Time) : string :=
  if negb (GuestRecord.Active g) then "Deactivated"
  else if GuestRecord.Inactive g then "Inactive"
  else "Active".

Definition formatTeamNames (teams : list TeamInfo.t) : string :=
  if Z.of_nat (length teams) =? 0 then EmptyString
  else strings_Join (map TeamInfo.DisplayName teams) ", ".

Definition formatTeamNamesCSV (teams : list TeamInfo.t) : string :=
  if Z.of_nat (length teams) =? 0 then EmptyString
  else strings_Join (map TeamInfo.DisplayName teams) "|".

(** The loop of [formatChannelNamesTable]: it breaks at index [maxDisplay]. *)
Fixpoint shownNames (maxDisplay i : Z) (channels : list ChannelInfo.t)
    (names : list string) : list string :=
  match channels with
  | [] => names
  | ch :: channels' =>
      if maxDisplay <=? i then names
      else shownNames maxDisplay (i + 1) channels'
             (names ++ [ChannelInfo.ChannelName ch])
  end.

Definition formatChannelNamesTable (channels : list ChannelInfo.t) : string :=
  if Z.of_nat (length channels) =? 0 then EmptyString
  else
    let maxDisplay := 2 in
    let names := shownNames maxDisplay 0 channels [] in
    let result := strings_Join names ", " in
    if maxDisplay <? Z.of_nat (length channels)
    then result +:+ " (+" +:+ pretty (Z.of_nat (length channels) - maxDisplay)
                +:+ " more)"
    else result.

Definition formatChannelNamesCSV (channels : list ChannelInfo.t) : string :=
  if Z.of_nat (length channels) =? 0 then EmptyString
  else strings_Join
         (map (fun ch => ChannelInfo.TeamName ch +:+ "/" +:+ ChannelInfo.ChannelName ch)
            channels)
         "|".

(** *** [writeTable] *)

Definition tableHeader : string :=
  "USERNAME" +:+ tab +:+ "DISPLAY NAME" +:+ tab +:+ "EMAIL" +:+ tab +:+ "TEAMS"
  +:+ tab +:+ "CHANNELS" +:+ tab +:+ "LAST LOGIN" +:+ tab +:+ "LAST POST"
  +:+ tab +:+ "STATUS".

(** The cells of the row of a guest, in the order of the format string. *)
Definition tableCells (g : GuestRecord.t Time) : list string :=
  let teams := formatTeamNames (GuestRecord.Teams g) in
  let channels := formatChannelNamesTable (GuestRecord.Channels g) in
  let status := guestStatus g in
  [GuestRecord.Username g; GuestRecord.DisplayName g; GuestRecord.Email g;
   teams; channels;
   FormatTimeDisplay (GuestRecord.LastLogin g);
   FormatTimeDisplay (GuestRecord.LastPost g);
   status].

(** [%s\t%s\t%s\t%s\t%s\t%s\t%s\t%s\n] *)
Definition tableLine (g : GuestRecord.t Time) : string :=
  strings_Join (tableCells g) tab +:+ newline.

Definition tw_print (env : RenderEnv W) (text : string) : Out unit :=
  fun w => (tt, tw_Write env text w, [TabWrote text]).

(** A write whose error is dropped. *)
Definition w_print (env : RenderEnv W) (text : string) : Out unit :=
  do _ <- call (w_Write env text) (Wrote text);
  ret tt.

Fixpoint tableRows (env : RenderEnv W) (guests : list (GuestRecord.t Time))
    : Out unit :=
  match guests with
  | [] => ret tt
  | g :: guests' => tw_print env (tableLine g);; tableRows env guests'
  end.

Definition summaryParts (s : AuditSummary.t) : list string :=
  let parts := [] in
  let parts :=
    if 0 <? AuditSummary.ActiveGuests s
    then parts ++ [pretty (AuditSummary.ActiveGuests s) +:+ " active"]
    else parts in
  let parts :=
    if 0 <? AuditSummary.InactiveGuests s
    then parts ++ [pretty (AuditSummary.InactiveGuests s) +:+ " inactive"]
    else parts in
  let parts :=
    if 0 <? AuditSummary.DeactivatedGuests s
    then parts ++ [pretty (AuditSummary.DeactivatedGuests s) +:+ " deactivated"]
    else parts in
  let parts :=
    if 0 <? AuditSummary.FailedLookups s
    then parts ++ [pretty (AuditSummary.FailedLookups s) +:+ " failed"]
    else parts in
  parts.

Definition writeTable (env : RenderEnv W) (result : AuditResult.t Time)
    : Out (option error) :=
  tw_print env (tableHeader +:+ newline);;
  tableRows env (AuditResult.Guests result);;
  do err <- call (tw_Flush env) TabFlushed;
  match err with
  | Some e => ret (Some e)
  | None =>
      w_print env newline;;
      w_print env ("Total: "
                   +:+ pretty (AuditSummary.TotalGuests (AuditResult.Summary result))
                   +:+ " guest(s)");;
      let parts := summaryParts (AuditResult.Summary result) in
      (if 0 <? Z.of_nat (length parts)
       then w_print env (" " +:+ emdash +:+ " " +:+ strings_Join parts ", ")
       else ret tt);;
      w_print env newline;;
      ret None
  end.

(** *** [writeCSV] *)

Definition csvHeader : list string :=
  ["username"; "display_name"; "email"; "created_at"; "last_login"; "last_post";
   "teams"; "channels"; "active"; "inactive"].

Definition csvRow (g : GuestRecord.t Time) : list string :=
  [GuestRecord.Username g;
   GuestRecord.DisplayName g;
   GuestRecord.Email g;
   FormatTimeISO (GuestRecord.CreatedAt g);
   FormatTimeISO (GuestRecord.LastLogin g);
   FormatTimeISO (GuestRecord.LastPost g);
   formatTeamNamesCSV (GuestRecord.Teams g);
   formatChannelNamesCSV (GuestRecord.Channels g);
   fmt_bool (GuestRecord.Active g);
   fmt_bool (GuestRecord.Inactive g)].

Fixpoint csvRows (env : RenderEnv W) (guests : list (GuestRecord.t Time))
    : Out (option error) :=
  match guests with
  | [] => ret None
  | g :: guests' =>
      let row := csvRow g in
      do err <- call (csv_Write env row) (CsvWrote row);
      match err with
      | Some e => ret (Some e)
      | None => csvRows env guests'
      end
  end.

(** The flush is deferred: it runs on every way out. *)
Definition writeCSV (env : RenderEnv W) (result : AuditResult.t Time)
    : Out (option error) :=
  do r <-
    (do err <- call (csv_Write env csvHeader) (CsvWrote csvHeader);
     match err with
     | Some e => ret (Some e)
     | None => csvRows env (AuditResult.Guests result)
     end);
  (fun w => (tt, csv_Flush env w, [CsvFlushed]));;
  ret r.

(** *** [writeJSON] *)

Definition jsonRecord (g : GuestRecord.t Time) : jsonGuestRecord.t :=
  let teamNames := map TeamInfo.DisplayName (GuestRecord.Teams g) in
  let channels := GuestRecord.Channels g in
  {| jsonGuestRecord.Username := GuestRecord.Username g;
     jsonGuestRecord.DisplayName := GuestRecord.DisplayName g;
     jsonGuestRecord.Email := GuestRecord.Email g;
     jsonGuestRecord.CreatedAt := timeToStringPtr (GuestRecord.CreatedAt g);
     jsonGuestRecord.LastLogin := timeToStringPtr (GuestRecord.LastLogin g);
     jsonGuestRecord.LastPost := timeToStringPtr (GuestRecord.LastPost g);
     jsonGuestRecord.Teams := teamNames;
     jsonGuestRecord.Channels := channels;
     jsonGuestRecord.Active := GuestRecord.Active g;
     jsonGuestRecord.Inactive := GuestRecord.Inactive g |}.

Definition writeJSON (env : RenderEnv W) (result : AuditResult.t Time)
    : Out (option error) :=
  let output :=
    {| jsonOutput.Summary := AuditResult.Summary result;
       jsonOutput.InactiveDays := AuditResult.InactiveDays result;
       jsonOutput.Guests := map jsonRecord (AuditResult.Guests result) |} in
  call (json_Encode env output) (JsonEncoded output).

End Render.
End Render.


(** ** client.go: the client over the Mattermost API

    [strings.TrimRight(s, cutset)] removes the trailing characters of [s]
    that are in [cutset]. *)
Fixpoint strings_TrimRight (s cutset : string) : string :=
  match s with
  | EmptyString => EmptyString
  | String c s' =>
      match strings_TrimRight s' cutset with
      | EmptyString =>
          if existsb (Ascii.eqb c) (String.list_ascii_of_string cutset)
          then EmptyString
          else String c EmptyString
      | String c' r => String c (String c' r)
      end
  end.

Definition NormalizeURL (url : string) : string := strings_TrimRight url "/".

Module Response.
Record t := mk { StatusCode : Z }.
End Response.

Module Post.
Record t := mk { CreateAt : Z }.
End Post.

Definition classifyAPIErrorFromStatus (url : string) (statusCode : Z) : error :=
  if statusCode =? 401
  then "error: authentication failed. Check your token or credentials"
  else if statusCode =? 403
  then "error: permission denied. This operation requires a System Administrator account"
  else if statusCode =? 404
  then "error: the requested resource was not found"
  else if 500 <=? statusCode
  then "error: the Mattermost server returned an unexpected error (HTTP "
       +:+ pretty statusCode +:+ "). Check server logs for details"
  else "error: API request failed (HTTP " +:+ pretty statusCode +:+ ")".

Definition ClassifyAPIError (url : string) (statusCode : Z) : error :=
  classifyAPIErrorFromStatus url statusCode.

Definition classifyAPIError (url : string) (resp : option Response.t) (err : error)
    : error :=
  match resp with
  | None =>
      if str_ne url EmptyString
      then "error: unable to connect to " +:+ url
           +:+ ". Check the URL and network connectivity"
      else "error: API request failed: " +:+ err
  | Some resp => classifyAPIErrorFromStatus url (Response.StatusCode resp)
  end.

(** [resp != nil && resp.StatusCode == 404] *)
Definition is404 (resp : option Response.t) : bool :=
  match resp with
  | Some resp => Response.StatusCode resp =? 404
  | None => false
  end.

(** A call of the API library answers with a value, or with an error and
    the response, if there was one. *)
Definition ApiResult (A : Type) : Type := A + (option Response.t * error).

(** [model.Client4], as far as the program uses it.  The posts of a search
    come as a map; they are listed in the order the loop meets them. *)
Record Client4 {W : Type} := {
  api_SetToken : string -> W -> W;
  api_GetMe : W -> ApiResult unit * W;
  api_Login : string -> string -> W -> ApiResult unit * W;
  api_GetUsersWithCustomQueryParameters :
    Z -> Z -> string -> W -> ApiResult (list User.t) * W;
  api_GetTeamByName : string -> W -> ApiResult Team.t * W;
  api_GetTeamsForUser : string -> W -> ApiResult (list Team.t) * W;
  api_GetChannelsForTeamForUser :
    string -> string -> W -> ApiResult (list Channel.t) * W;
  api_SearchPosts : string -> string -> W -> ApiResult (option (list Post.t)) * W
}.
Arguments Client4 : clear implicits.

(** [t.After(u)] of the time library. *)
Class GoAfter `{GoLib} := Time_After : Time -> Time -> bool.

(** The calls of the API, with their answers. *)
Inductive ApiEvent :=
| ApiGotUsers (page perPage : Z) (query : string) (r : ApiResult (list User.t))
| ApiGotTeamByName (name : string) (r : ApiResult Team.t)
| ApiGotTeams (userID : string) (r : ApiResult (list Team.t))
| ApiGotChannels (teamID userID : string) (r : ApiResult (list Channel.t))
| ApiSearched (teamID terms : string) (r : ApiResult (option (list Post.t))).

Module mmClient.
Section mmClient.
Context `{GoAfter} {W : Type}.
Variable api : Client4 W.

Abbreviation Api := (M W ApiEvent).

Definition GetGuestUsers (page perPage : Z) : Api (list User.t + error) :=
  do r <- call (api_GetUsersWithCustomQueryParameters api page perPage
                  "role=system_guest")
            (ApiGotUsers page perPage "role=system_guest");
  match r with
  | inr (resp, err) => ret (inr (classifyAPIError EmptyString resp err))
  | inl users => ret (inl users)
  end.

Definition GetTeamByName (name : string) : Api (Team.t + error) :=
  do r <- call (api_GetTeamByName api name) (ApiGotTeamByName name);
  match r with
  | inr (resp, err) =>
      if is404 resp
      then ret (inr ("error: team " +:+ strconv_Quote name
                     +:+ " not found. Please check the name and try again"))
      else ret (inr (classifyAPIError EmptyString resp err))
  | inl team => ret (inl team)
  end.

Definition GetTeamsForUser (userID : string) : Api (list Team.t + error) :=
  do r <- call (api_GetTeamsForUser api userID) (ApiGotTeams userID);
  match r with
  | inr (resp, err) => ret (inr (classifyAPIError EmptyString resp err))
  | inl teams => ret (inl teams)
  end.

Definition GetChannelsForTeamForUser (teamID userID : string)
    : Api (list Channel.t + error) :=
  do r <- call (api_GetChannelsForTeamForUser api teamID userID)
            (ApiGotChannels teamID userID);
  match r with
  | inr (resp, err) => ret (inr (classifyAPIError EmptyString resp err))
  | inl channels => ret (inl channels)
  end.

(** [GetLastPostDateForUser], the loop over the posts of one team. *)
Fixpoint latestOfPosts (posts : list Post.t) (latestTime : option Time)
    : option Time :=
  match posts with
  | [] => latestTime
  | post :: posts' =>
      let t := MillisToTime (Post.CreateAt post) in
      let latestTime :=
        match t with
        | Some t' =>
            if match latestTime with
               | None => true
               | Some l => Time_After t' l
               end
            then t
            else latestTime
        | None => latestTime
        end in
      latestOfPosts posts' latestTime
  end.

(** [GetLastPostDateForUser], the loop over the teams. *)
Fixpoint searchTeams (username : string) (teamIDs : list string)
    (latestTime : option Time) : Api (option Time + error) :=
  match teamIDs with
  | [] => ret (inl latestTime)
  | teamID :: teamIDs' =>
      do r <- call (api_SearchPosts api teamID ("from:" +:+ username))
                (ApiSearched teamID ("from:" +:+ username));
      match r with
      | inr (resp, err) =>
          if is404 resp then searchTeams username teamIDs' latestTime
          else ret (inr (classifyAPIError EmptyString resp err))
      | inl None => searchTeams username teamIDs' latestTime
      | inl (Some posts) =>
          searchTeams username teamIDs' (latestOfPosts posts latestTime)
      end
  end.

Definition GetLastPostDateForUser (userID username : string)
    (teamIDs : list string) : Api (option Time + error) :=
  searchTeams username teamIDs None.

End mmClient.
End mmClient.

(** The real client as a [MattermostClient]. *)
Definition forget {W E A} (m : M W E A) : W -> A * W :=
  fun w => let '(a, w', _) := m w in (a, w').

Definition mmAsClient `{GoAfter} {W : Type} (api : Client4 W)
    : MattermostClient Time W :=
  {| GetGuestUsers page perPage := forget (mmClient.GetGuestUsers api page perPage);
     GetTeamByName name := forget (mmClient.GetTeamByName api name);
     GetTeamsForUser userID := forget (mmClient.GetTeamsForUser api userID);
     GetChannelsForTeamForUser teamID userID :=
       forget (mmClient.GetChannelsForTeamForUser api teamID userID);
     GetLastPostDateForUser userID username teamIDs :=
       forget (mmClient.GetLastPostDateForUser api userID username teamIDs) |}.

(** *** [NewClient] and [obtainPassword]

    The terminal, the environment and standard error are parts of the
    world; [model.NewAPIv4Client] gives the API of a server. *)
Record AuthEnv {W : Type} := {
  model_NewAPIv4Client : string -> Client4 W;
  term_IsTerminal : W -> bool * W;
  term_ReadPassword : W -> (string + error) * W;
  os_Getenv : string -> W -> string * W
}.
Arguments AuthEnv : clear implicits.

Inductive AuthEvent :=
| NewAPI (url : string)
| TokenSet (token : string)
| AuthStderr (text : string)
| GotMe (r : ApiResult unit)
| AskedTerminal (isTerminal : bool)
| ReadPassword (r : string + error)
| GotEnv (key value : string)
| LoggedIn (username password : string) (r : ApiResult unit).

Section Auth.
Context {W : Type}.
Variable env : AuthEnv W.

Definition obtainPassword : M W AuthEvent (string + error) :=
  do isTerminal <- call (term_IsTerminal env) AskedTerminal;
  if isTerminal then
    emit (AuthStderr "Password: ");;
    do r <- call (term_ReadPassword env) ReadPassword;
    emit (AuthStderr newline);;
    match r with
    | inr err => ret (inr ("error: failed to read password: " +:+ err))
    | inl passwordBytes => ret (inl passwordBytes)
    end
  else
    do password <- call (os_Getenv env "MM_PASSWORD") (GotEnv "MM_PASSWORD");
    if String.eqb password EmptyString
    then ret (inr "error: password required. Set MM_PASSWORD for non-interactive use, or run interactively to be prompted")
    else ret (inl password).

Definition NewClient (url token username : string) (verbose : bool)
    : M W AuthEvent (Client4 W + error) :=
  let url := NormalizeURL url in
  let api := model_NewAPIv4Client env url in
  emit (NewAPI url);;
  if str_ne token EmptyString then
    (fun w => (tt, api_SetToken api token w, [TokenSet token]));;
    when verbose (emit (AuthStderr ("Authenticating with personal access token..."
                                +:+ newline)));;
    do r <- call (api_GetMe api) GotMe;
    match r with
    | inr (resp, err) => ret (inr (classifyAPIError url resp err))
    | inl _ => ret (inl api)
    end
  else if str_ne username EmptyString then
    do p <- obtainPassword;
    match p with
    | inr err => ret (inr err)
    | inl password =>
        when verbose
          (emit (AuthStderr ("Authenticating with username and password..."
                             +:+ newline)));;
        do r <- call (api_Login api username password) (LoggedIn username password);
        match r with
        | inr (resp, err) => ret (inr (classifyAPIError url resp err))
        | inl _ => ret (inl api)
        end
    end
  else
    ret (inr "error: authentication required. Use --token (or MM_TOKEN) for token auth, or --username (or MM_USERNAME) for password auth").
End Auth.

(** ** main.go: [run], after the flags are parsed *)
Module Flags.
Record t := mk {
  url : string;
  token : string;
  username : string;
  team : string;
  inactiveDays : Z;
  format : string;
  output : string;
  verbose : bool;
  showVersion : bool
}.
End Flags.

Inductive MainEvent {Time File : Type} :=
| PrintedVersion (text : string)
| MainStderr (line : string)
| Auth (e : AuthEvent)
| Audit (e : Event Time)
| Output (e : OutEvent File).
Arguments MainEvent : clear implicits.

(** A computation inside another, its events relabelled. *)
Definition within {W E E' A} (f : E -> E') (m : M W E A) : M W E' A :=
  fun w => let '(a, w', tr) := m w in (a, w', map f tr).

Section Main.
Context `{GoAfter} {W File : Type} `{!Clock Time W}.
Variable version : string.
Variable authEnv : AuthEnv W.
Variable outputEnv : OutputEnv Time W File.

(** [run]: [None] only when the bound of the pagination loop is hit. *)
Definition run (fuel : nat) (flags : Flags.t)
    : M W (MainEvent Time File) (option Z) :=
  if Flags.showVersion flags then
    emit (PrintedVersion ("mm-guest-audit " +:+ version +:+ newline));;
    ret (Some ExitSuccess)
  else if String.eqb (Flags.url flags) EmptyString then
    emit (MainStderr "error: server URL is required. Use --url or set the MM_URL environment variable.");;
    ret (Some ExitConfigError)
  else if negb (String.eqb (Flags.format flags) "table"
                || String.eqb (Flags.format flags) "csv"
                || String.eqb (Flags.format flags) "json") then
    emit (MainStderr ("error: invalid format " +:+ strconv_Quote (Flags.format flags)
                      +:+ ". Use table, csv, or json."));;
    ret (Some ExitConfigError)
  else
    do c <- within Auth (NewClient authEnv (Flags.url flags) (Flags.token flags)
                           (Flags.username flags) (Flags.verbose flags));
    match c with
    | inr err => emit (MainStderr err);; ret (Some ExitConfigError)
    | inl api =>
        let client := mmAsClient api in
        when (Flags.verbose flags) (emit (MainStderr "Authentication successful."));;
        do a <- within Audit (RunAudit fuel client (Flags.team flags)
                                (Flags.inactiveDays flags) (Flags.verbose flags));
        match a with
        | None => ret None
        | Some (None, exitCode) => ret (Some exitCode)
        | Some (Some result, exitCode) =>
            do err <- within Output (WriteOutput outputEnv result (Flags.format flags)
                                       (Flags.output flags));
            match err with
            | Some err =>
                emit (MainStderr ("error: failed to write output: " +:+ err));;
                ret (Some ExitOutputError)
            | None => ret (Some exitCode)
            end
        end
    end.
End Main.


(** ** More vocabulary: the real client *)

Definition slash : Ascii.ascii := Eval cbv in Ascii.ascii_of_nat 47.

(** A run of slashes. *)
Fixpoint slashes (k : nat) : string :=
  match k with
  | O => EmptyString
  | S k => String slash (slashes k)
  end.

(** The teams searched in a transcript of the API, in order. *)
Definition searchedTeams (tr : list ApiEvent) : list string :=
  omap (fun e => match e with
                 | ApiSearched teamID _ _ => Some teamID
                 | _ => None
                 end) tr.

(** The posts the searches of a transcript found, in the order met. *)
Definition foundPosts (tr : list ApiEvent) : list Post.t :=
  concat (omap (fun e => match e with
                         | ApiSearched _ _ (inl (Some posts)) => Some posts
                         | _ => None
                         end) tr).

(** A search that failed with something else than a 404. *)
Definition searchFailed (e : ApiEvent) : bool :=
  match e with
  | ApiSearched _ _ (inr (resp, _)) => negb (is404 resp)
  | _ => false
  end.

(** The events of [obtainPassword]. *)
Definition isPasswordEvent (e : AuthEvent) : bool :=
  match e with
  | AskedTerminal _ | ReadPassword _ | GotEnv _ _ => true
  | AuthStderr _ | NewAPI _ | TokenSet _ | GotMe _ | LoggedIn _ _ _ => false
  end.

(** A call of the server while authenticating. *)
Definition isAuthCall (e : AuthEvent) : bool :=
  match e with
  | GotMe _ | LoggedIn _ _ _ => true
  | _ => false
  end.


(** The dates of the posts that have one, in order. *)
Definition postTimes `{GoLib} (posts : list Post.t) : list Time :=
  omap (fun post => MillisToTime (Post.CreateAt post)) posts.


(** ** More vocabulary: the events of [run] *)

Section MainVocabulary.
Context {Time File : Type}.

Definition isAuth (e : MainEvent Time File) : bool :=
  match e with Auth _ => true | _ => false end.

Definition isAudit (e : MainEvent Time File) : bool :=
  match e with Audit _ => true | _ => false end.

Definition isOutput (e : MainEvent Time File) : bool :=
  match e with Output _ => true | _ => false end.

(** The renderings of a transcript: format and outcome. *)
Definition renderings (tr : list (MainEvent Time File))
    : list (string * option error) :=
  omap (fun e => match e with
                 | Output (Rendered format _ err) => Some (format, err)
                 | _ => None
                 end) tr.

End MainVocabulary.

(** The formats [run] accepts. *)
Definition validFormat (format : string) : bool :=
  String.eqb format "table" || String.eqb format "csv" || String.eqb format "json".


(** ** More scenarios

    A mock whose channel call fails for the second team of the guest. *)
Definition channelFailureMock : mockClient Z :=
  {| guests := [jane];
     guestsErr := None;
     teams := {[ "user1" := [Team.mk "team1" "Engineering"; Team.mk "team2" "Sales"] ]};
     teamsErr := ∅;
     teamByName := ∅;
     teamByNameErr := ∅;
     channels := {[ "team1:user1" := [Channel.mk "ch1" "General"] ]};
     channelsErr := {[ "team2:user1" := "error: API request failed (HTTP 500)" ]};
     lastPostDate := ∅;
     lastPostDateErr := ∅ |}.

(** A mock whose team Sales has an empty identity; the only guest belongs
    to Engineering alone and no call fails. *)
Definition emptyIdMock : mockClient Z :=
  {| guests := [jane];
     guestsErr := None;
     teams := {[ "user1" := [Team.mk "team1" "Engineering"] ]};
     teamsErr := ∅;
     teamByName := {[ "Sales" := Team.mk EmptyString "Sales" ]};
     teamByNameErr := ∅;
     channels := {[ "team1:user1" := [Channel.mk "ch1" "General"] ]};
     channelsErr := ∅;
     lastPostDate := ∅;
     lastPostDateErr := ∅ |}.

(** Stand-ins for the formatting and the order of instants of the examples:
    the layout followed by the instant, and the order of the integers. *)
Definition utcFormat : @GoFormat utcLib :=
  fun layout t => layout +:+ "@" +:+ pretty t.

Definition utcAfter : @GoAfter utcLib := Z.gtb.

(** [sampleResult] of output_test.go. *)
Definition sampleResult : AuditResult.t Z :=
  let created := Some 1709287200000000000 in
  let login := Some 1731659520000000000 in
  let post := Some 1731604920000000000 in
  {| AuditResult.InactiveDays := 30;
     AuditResult.Guests :=
       [ {| GuestRecord.Username := "jane.doe";
            GuestRecord.DisplayName := "Jane Doe";
            GuestRecord.Email := "jane.doe@external.com";
            GuestRecord.CreatedAt := created;
            GuestRecord.LastLogin := login;
            GuestRecord.LastPost := post;
            GuestRecord.Teams :=
              [TeamInfo.mk "team1" "Engineering"; TeamInfo.mk "team2" "Sales"];
            GuestRecord.Channels :=
              [ChannelInfo.mk "Engineering" "General";
               ChannelInfo.mk "Engineering" "Dev Backend";
               ChannelInfo.mk "Sales" "Partner Updates"];
            GuestRecord.Active := true;
            GuestRecord.Inactive := false;
            GuestRecord.Error := EmptyString |};
         {| GuestRecord.Username := "bob.contractor";
            GuestRecord.DisplayName := "Bob Contractor";
            GuestRecord.Email := "bob@contractor.io";
            GuestRecord.CreatedAt := created;
            GuestRecord.LastLogin := None;
            GuestRecord.LastPost := None;
            GuestRecord.Teams := [TeamInfo.mk "team1" "Engineering"];
            GuestRecord.Channels := [ChannelInfo.mk "Engineering" "General"];
            GuestRecord.Active := true;
            GuestRecord.Inactive := true;
            GuestRecord.Error := EmptyString |} ];
     AuditResult.Summary :=
       {| AuditSummary.TotalGuests := 2;
          AuditSummary.ActiveGuests := 1;
          AuditSummary.InactiveGuests := 1;
          AuditSummary.DeactivatedGuests := 0;
          AuditSummary.FailedLookups := 0 |} |}.

(** Writers for the examples: the world is the list of the texts that
    reached the destination; the tabwriter delivers on flush; the third row
    of a CSV file does not fit. *)
Definition testRenderEnv : RenderEnv (list string) :=
  {| tw_Write text w := w;
     tw_Flush w := (None, w ++ ["(table)"]);
     w_Write text w := (None, w ++ [text]);
     csv_Write row w :=
       if Z.of_nat (length w) =? 2 then (Some "write: no space left on device", w)
       else (None, w ++ [strings_Join row ","]);
     csv_Flush w := w;
     json_Encode output w := (None, w ++ ["(json)"]) |}.

(** A server for the examples: one guest in three teams; the search finds
    three posts in the first team, one of them without a date, answers 404
    for the second, nothing for the third and fails for any other. *)
Definition testApi : Client4 Z :=
  {| api_SetToken token w := w;
     api_GetMe w := (inl tt, w);
     api_Login username password w := (inl tt, w);
     api_GetUsersWithCustomQueryParameters page perPage query w :=
       (inl (if page =? 0 then [jane] else []), w);
     api_GetTeamByName name w :=
       (inr (Some (Response.mk 404), "team not found"), w);
     api_GetTeamsForUser userID w :=
       (inl [Team.mk "team1" "Engineering"; Team.mk "team2" "Sales";
             Team.mk "team3" "Support"], w);
     api_GetChannelsForTeamForUser teamID userID w :=
       (inl [Channel.mk "ch1" "General"], w);
     api_SearchPosts teamID terms w :=
       if String.eqb teamID "team1"
       then (inl (Some [Post.mk 1709568000000; Post.mk 0; Post.mk 1709740800000]), w)
       else if String.eqb teamID "team2"
       then (inr (Some (Response.mk 404), "not found"), w)
       else if String.eqb teamID "team3"
       then (inl None, w)
       else (inr (Some (Response.mk 500), "internal server error"), w) |}.

(** No terminal; the password is in the environment. *)
Definition testAuthEnv : AuthEnv Z :=
  {| model_NewAPIv4Client url := testApi;
     term_IsTerminal w := (false, w);
     term_ReadPassword w := (inr "inappropriate ioctl for device", w);
     os_Getenv key w :=
       (if String.eqb key "MM_PASSWORD" then "secret" else EmptyString, w) |}.

(** A terminal at which nothing is typed before the return key. *)
Definition terminalAuthEnv : AuthEnv Z :=
  {| model_NewAPIv4Client url := testApi;
     term_IsTerminal w := (true, w);
     term_ReadPassword w := (inl EmptyString, w);
     os_Getenv key w :=
       (if String.eqb key "MM_PASSWORD" then "secret" else EmptyString, w) |}.

(** An output whose renderers fail. *)
Definition fullDiskOutput : OutputEnv Z Z string :=
  {| os_Create path w := (inl path, w);
     File_Close path w := w;
     writeTable wr result w := (Some "write: no space left on device", w);
     writeCSV wr result w := (Some "write: no space left on device", w);
     writeJSON wr result w := (Some "write: no space left on device", w) |}.

Definition testFlags : Flags.t :=
  {| Flags.url := "https://mm.example.com/";
     Flags.token := EmptyString;
     Flags.username := "admin";
     Flags.team := EmptyString;
     Flags.inactiveDays := 30;
     Flags.format := "csv";
     Flags.output := "guests.csv";
     Flags.verbose := true;
     Flags.showVersion := false |}.


(** ** client_test.go: the substring test of the tests

    [len(s)] and [s[i:j]] on Go strings, which are sequences of bytes. *)
Definition len (s : string) : Z := Z.of_nat (String.length s).

Definition str_slice (s : string) (i j : Z) : string :=
  String.substring (Z.to_nat i) (Z.to_nat (j - i)) s.

(** [containsStr]: the loop, with the number of indices still to try. *)
Fixpoint containsStr_loop (n : nat) (s sub : string) (i : Z) : bool :=
  match n with
  | O => false
  | S n' =>
      if String.eqb (str_slice s i (i + len sub)) sub then true
      else containsStr_loop n' s sub (i + 1)
  end.

(** [for i := 0; i <= len(s)-len(sub); i++] *)
Definition containsStr (s sub : string) : bool :=
  containsStr_loop (Z.to_nat (len s - len sub + 1)) s sub 0.

Definition containsSubstring (s sub : string) : bool :=
  (len sub <=? len s)
  && (String.eqb s sub || ((0 <? len s) && containsStr s sub)).


(** * Properties *)

Lemma str_ne_true a b : str_ne a b = true <-> a <> b.
Proof.
  unfold str_ne. rewrite negb_true_iff. apply String.eqb_neq.
Qed.

Lemma str_ne_false a b : str_ne a b = false <-> a = b.
Proof.
  unfold str_ne. rewrite negb_false_iff. apply String.eqb_eq.
Qed.

Lemma append_nonempty (a b : string) : a <> EmptyString -> a +:+ b <> EmptyString.
Proof.
  destruct a as [|c a]; [congruence | discriminate].
Qed.

(** ** Running effectful computations *)

Lemma bind_inv {W E A B} (m : M W E A) (k : A -> M W E B) w b w2 t :
  bind m k w = (b, w2, t) ->
  exists a w1 t1 t2, m w = (a, w1, t1) /\ k a w1 = (b, w2, t2) /\ t = t1 ++ t2.
Proof.
  unfold bind. destruct (m w) as [[a w1] t1].
  destruct (k a w1) as [[b' w2'] t2] eqn:Hk.
  intros [= <- <- <-]. exists a, w1, t1, t2. auto.
Qed.

Lemma bind_run {W E A B} (m : M W E A) (k : A -> M W E B) w a w1 t1 :
  m w = (a, w1, t1) ->
  bind m k w = (let '(b, w2, t2) := k a w1 in (b, w2, t1 ++ t2)).
Proof.
  intros Hm. unfold bind. rewrite Hm. reflexivity.
Qed.

Lemma call_inv {W E A} (f : W -> A * W) (ev : A -> E) w r w' t :
  call f ev w = (r, w', t) -> f w = (r, w') /\ t = [ev r].
Proof.
  unfold call. destruct (f w) as [r0 w0]. intros [= <- <- <-]. auto.
Qed.

Lemma call_run {W E A} (f : W -> A * W) (ev : A -> E) w r w' :
  f w = (r, w') -> call f ev w = (r, w', [ev r]).
Proof.
  intros Hf. unfold call. rewrite Hf. reflexivity.
Qed.

Lemma when_inv {W E} (b : bool) (e : E) (w : W) r w' t :
  when b (emit e) w = (r, w', t) -> w' = w /\ t = (if b then [e] else []).
Proof.
  destruct b; cbn; intros [= <- <- <-]; auto.
Qed.

(** Inversion of a run, one bind at a time. *)
Ltac inv_bind H :=
  let a := fresh "a" in
  let w := fresh "w" in
  let t1 := fresh "tr" in
  let t2 := fresh "tr" in
  let Hm := fresh "Hm" in
  apply bind_inv in H; destruct H as (a & w & t1 & t2 & Hm & H & ->).

Tactic Notation "inv_bind_as" hyp(H) ident(a) ident(w) ident(t1) ident(t2) ident(Hm) :=
  apply bind_inv in H; destruct H as (a & w & t1 & t2 & Hm & H & ->).

Ltac inv_ret H := cbv [ret emit] in H; simplify_eq H; intros; subst.

(** ** The inactivity classifier *)
Section ClassifierFacts.
Context `{GoLib}.

Lemma IsInactiveAt_disabled lastLogin inactiveDays now :
  inactiveDays <= 0 -> IsInactiveAt lastLogin inactiveDays now = false.
Proof.
  intros Hle. unfold IsInactiveAt.
  destruct (Z.leb_spec inactiveDays 0); [reflexivity | lia].
Qed.

Lemma IsInactiveAt_enabled lastLogin inactiveDays now :
  0 < inactiveDays ->
  IsInactiveAt lastLogin inactiveDays now =
    match lastLogin with
    | None => true
    | Some t => Time_Before t (Time_AddDays now (- inactiveDays))
    end.
Proof.
  intros Hlt. unfold IsInactiveAt.
  destruct (Z.leb_spec inactiveDays 0); [lia | reflexivity].
Qed.

(** C2. For every optional last login, threshold and reference time, the
    classifier answers true exactly when the threshold is positive and the
    login is absent or strictly before the reference time moved back by the
    threshold in days; it answers false for every threshold that is zero
    or negative, and false for a login exactly at that cutoff. *)
Theorem C2_IsInactiveAt_spec (lastLogin : option Time) (thresholdDays : Z)
    (now : Time) :
  (IsInactiveAt lastLogin thresholdDays now = true <->
     0 < thresholdDays /\
     (lastLogin = None \/
      exists t, lastLogin = Some t /\
                Time_Before t (Time_AddDays now (- thresholdDays)) = true))
  /\ (thresholdDays <= 0 -> IsInactiveAt lastLogin thresholdDays now = false)
  /\ IsInactiveAt (Some (Time_AddDays now (- thresholdDays))) thresholdDays now
     = false.
Proof.
  split; [| split].
  - destruct (Z.lt_ge_cases 0 thresholdDays) as [Hpos | Hle].
    + rewrite IsInactiveAt_enabled by assumption.
      destruct lastLogin as [t |].
      * split.
        -- intros Hb. split; [assumption |]. right. exists t. auto.
        -- intros [_ [Hnone | (t' & Heq & Hb)]]; [discriminate |].
           injection Heq as ->. assumption.
      * split; [intros _; auto | reflexivity].
    + rewrite IsInactiveAt_disabled by assumption.
      split; [discriminate | intros [Hpos _]; lia].
  - apply IsInactiveAt_disabled.
  - destruct (Z.lt_ge_cases 0 thresholdDays) as [Hpos | Hle].
    + rewrite IsInactiveAt_enabled by assumption. apply Time_Before_irrefl.
    + apply IsInactiveAt_disabled. assumption.
Qed.
End ClassifierFacts.

(** ** Counting *)

Lemma countIf_nil {A} (p : A -> bool) : countIf p [] = 0.
Proof. reflexivity. Qed.

Lemma countIf_cons {A} (p : A -> bool) x l :
  countIf p (x :: l) = (if p x then 1 else 0) + countIf p l.
Proof.
  unfold countIf. simpl. destruct (p x); simpl length; lia.
Qed.

Lemma countIf_nonneg {A} (p : A -> bool) l : 0 <= countIf p l.
Proof. unfold countIf. lia. Qed.

Lemma omap_cons {A B} (f : A -> option B) (x : A) (l : list A) :
  omap f (x :: l) = match f x with Some y => y :: omap f l | None => omap f l end.
Proof. reflexivity. Qed.

Section SummaryFacts.
Context `{GoLib}.

(** Every record is in exactly one bucket. *)
Lemma one_bucket (g : GuestRecord.t Time) :
  Z.b2z (isFailed g) + Z.b2z (isDeactivated g) + Z.b2z (isInactive g)
  + Z.b2z (isActive g) = 1.
Proof.
  unfold isFailed, isDeactivated, isInactive, isActive, str_ne.
  destruct (String.eqb (GuestRecord.Error g) EmptyString),
    (GuestRecord.Active g), (GuestRecord.Inactive g); reflexivity.
Qed.

Lemma buckets_partition (gs : list (GuestRecord.t Time)) :
  Z.of_nat (length gs) =
    countIf isActive gs + countIf isInactive gs + countIf isDeactivated gs
    + countIf isFailed gs.
Proof.
  induction gs as [| g gs IH]; [reflexivity |].
  rewrite !countIf_cons. pose proof (one_bucket g) as Hone.
  simpl length. rewrite Nat2Z.inj_succ.
  destruct (isFailed g), (isDeactivated g), (isInactive g), (isActive g);
    simpl in Hone; lia.
Qed.

(** The summary loop adds the sizes of three buckets to three counters and
    leaves the other two as they are. *)
Lemma summaryLoop_spec (gs : list (GuestRecord.t Time)) (s : AuditSummary.t) :
  summaryLoop gs s =
    {| AuditSummary.TotalGuests := AuditSummary.TotalGuests s;
       AuditSummary.ActiveGuests := AuditSummary.ActiveGuests s + countIf isActive gs;
       AuditSummary.InactiveGuests :=
         AuditSummary.InactiveGuests s + countIf isInactive gs;
       AuditSummary.DeactivatedGuests :=
         AuditSummary.DeactivatedGuests s + countIf isDeactivated gs;
       AuditSummary.FailedLookups := AuditSummary.FailedLookups s |}.
Proof.
  revert s. induction gs as [| g gs IH]; intros s.
  - simpl. rewrite !countIf_nil, !Z.add_0_r. destruct s; reflexivity.
  - simpl. rewrite !countIf_cons.
    unfold isActive at 1, isInactive at 1, isDeactivated at 1, str_ne.
    destruct (String.eqb (GuestRecord.Error g) EmptyString),
      (GuestRecord.Active g), (GuestRecord.Inactive g);
      simpl; rewrite IH; simpl; f_equal; lia.
Qed.

(** The guest loop appends the records of its outcomes and counts its
    failures; the exit code turns to partial failure at the first one. *)
Lemma fold_applyOutcome (os : list (User.t * GuestOutcome Time))
    (result : AuditResult.t Time) (exitCode : Z) :
  let st := fold_left applyOutcome os (result, exitCode) in
  AuditResult.Guests (fst st) = AuditResult.Guests result ++ omap outcomeRecord os
  /\ AuditSummary.FailedLookups (AuditResult.Summary (fst st))
     = AuditSummary.FailedLookups (AuditResult.Summary result) + countIf isFailure os
  /\ AuditSummary.ActiveGuests (AuditResult.Summary (fst st))
     = AuditSummary.ActiveGuests (AuditResult.Summary result)
  /\ AuditSummary.InactiveGuests (AuditResult.Summary (fst st))
     = AuditSummary.InactiveGuests (AuditResult.Summary result)
  /\ AuditSummary.DeactivatedGuests (AuditResult.Summary (fst st))
     = AuditSummary.DeactivatedGuests (AuditResult.Summary result)
  /\ AuditResult.InactiveDays (fst st) = AuditResult.InactiveDays result
  /\ snd st = (if countIf isFailure os =? 0 then exitCode else ExitPartialFailure).
Proof.
  revert result exitCode. induction os as [| [u o] os IH]; intros result exitCode.
  - simpl. rewrite app_nil_r, countIf_nil, Z.add_0_r. auto 10.
  - cbn [fold_left]. rewrite countIf_cons.
    pose proof (countIf_nonneg isFailure os) as Hnn.
    rewrite omap_cons.
    destruct o as [| e | r]; cbn [applyOutcome isFailure outcomeRecord].
    + specialize (IH result exitCode). cbv zeta in IH. apply IH.
    + specialize (IH (appendGuest (incFailedLookups result) (stubRecord u e))
                    ExitPartialFailure).
      cbv zeta in IH. destruct IH as (Hg & Hf & Ha & Hi & Hd & Hdays & Hcode).
      cbv zeta. rewrite Hg, Hf, Ha, Hi, Hd, Hdays, Hcode. simpl.
      rewrite <- app_assoc. repeat split; try reflexivity; try lia.
      destruct (countIf isFailure os =? 0) eqn:Hz;
        destruct (1 + countIf isFailure os =? 0) eqn:Hz'; try reflexivity; lia.
    + specialize (IH (appendGuest result r) exitCode).
      cbv zeta in IH. destruct IH as (Hg & Hf & Ha & Hi & Hd & Hdays & Hcode).
      cbv zeta. rewrite Hg, Hf, Ha, Hi, Hd, Hdays, Hcode. simpl.
      rewrite <- app_assoc. repeat split; reflexivity.
Qed.

(** In a run, the records with an error are the stubs of the failures. *)
Lemma LoopRun_failed_records filterTeamID inactiveDays us tr os :
  LoopRun filterTeamID inactiveDays us tr os ->
  countIf isFailed (omap outcomeRecord os) = countIf isFailure os.
Proof.
  induction 1 as [| u us tr1 tr2 o os Hspec Hloop IH]; [reflexivity |].
  rewrite countIf_cons, omap_cons.
  destruct o as [| e | r]; cbn [outcomeRecord isFailure outcomeSpec] in *.
  - exact IH.
  - rewrite countIf_cons, IH. destruct Hspec as [_ [Hne _]].
    apply str_ne_true in Hne. unfold isFailed. simpl. rewrite Hne. reflexivity.
  - rewrite countIf_cons, IH. destruct Hspec as (_ & ? & ? & _ & Herr & _).
    unfold isFailed. rewrite Herr. reflexivity.
Qed.
End SummaryFacts.

(** ** The pipeline, guest by guest *)
Section PipelineFacts.
Context `{GoLib} {W : Type} `{!Clock Time W}.

Implicit Types (client : MattermostClient Time W) (u : User.t) (w : W).
Implicit Types (tr : list (Event Time)).

Lemma filterTeams_spec filterTeamID teams teamInfos :
  filterTeams filterTeamID teams teamInfos =
    teamInfos ++ map toTeamInfo (List.filter (inScope filterTeamID) teams).
Proof.
  revert teamInfos. induction teams as [| t teams IH]; intros teamInfos; simpl.
  - symmetry. apply app_nil_r.
  - unfold inScope at 1, str_ne.
    destruct (String.eqb filterTeamID EmptyString); simpl.
    + rewrite IH, <- app_assoc. reflexivity.
    + destruct (String.eqb (Team.Id t) filterTeamID); simpl.
      * rewrite IH, <- app_assoc. reflexivity.
      * apply IH.
Qed.

Lemma filterTeams_nil filterTeamID teams :
  filterTeams filterTeamID teams [] =
    map toTeamInfo (List.filter (inScope filterTeamID) teams).
Proof.
  apply filterTeams_spec.
Qed.

(** The channel loop: only channel calls; no failure when it succeeds, and
    exactly one, the last call, when it fails. *)
Lemma channelsLoop_inv client u teamInfos channels teamIDs w r w' tr :
  channelsLoop client u teamInfos channels teamIDs w = (r, w', tr) ->
  listingCalls tr = [] /\
  match r with
  | inl (_, teamIDs') =>
      List.filter failed tr = []
      /\ teamIDs' = teamIDs ++ map TeamInfo.ID teamInfos
  | inr e =>
      e <> EmptyString
      /\ exists teamID e0,
           List.filter failed tr = [GotChannels teamID (User.Id u) (inr e0)]
  end.
Proof.
  revert channels teamIDs w tr.
  induction teamInfos as [| ti teamInfos IH]; intros channels teamIDs w tr Hrun.
  - simpl in Hrun. inv_ret Hrun. simpl. rewrite app_nil_r. auto.
  - simpl in Hrun. inv_bind Hrun. apply call_inv in Hm as [Hcall ->].
    destruct a as [chs | err].
    + apply IH in Hrun as [Hlist Hrun]. split; [exact Hlist |].
      destruct r as [[channels' teamIDs'] | e].
      * destruct Hrun as [Hnone ->]. simpl. split; [exact Hnone |].
        rewrite <- app_assoc. reflexivity.
      * exact Hrun.
    + inv_ret Hrun. split; [reflexivity |].
      split; [apply append_nonempty; discriminate |].
      simpl. eauto.
Qed.

(** [IsInactive] is [IsInactiveAt] at the time the clock shows, and says
    nothing to the transcript. *)
Lemma IsInactive_inv lastLogin inactiveDays w b w' tr :
  IsInactive lastLogin inactiveDays w = (b, w', tr) ->
  tr = [] /\ exists n, b = IsInactiveAt lastLogin inactiveDays n.
Proof.
  unfold IsInactive, IsInactiveAt.
  destruct (inactiveDays <=? 0).
  - intros Hrun. pose (n := fst (time_Now w)). inv_ret Hrun.
    split; [reflexivity | exists n; reflexivity].
  - destruct lastLogin as [t |].
    + intros Hrun. inv_bind Hrun. unfold now in Hm.
      destruct (time_Now w) as [n wn]. injection Hm as <- <- <-.
      inv_ret Hrun. split; [reflexivity | exists n; reflexivity].
    + intros Hrun. pose (n := fst (time_Now w)). inv_ret Hrun.
      split; [reflexivity | exists n; reflexivity].
Qed.

Lemma listingCalls_app tr1 tr2 :
  listingCalls (tr1 ++ tr2) = listingCalls tr1 ++ listingCalls tr2.
Proof. apply omap_app. Qed.

Lemma listingCalls_when (verbose : bool) d w x w' tr :
  when verbose (emit (Stderr d)) w = (x, w', tr) -> listingCalls tr = [].
Proof.
  intros Hrun. apply when_inv in Hrun as [_ ->]. destruct verbose; reflexivity.
Qed.

(** [processGuest] lists no guest. *)
Lemma processGuest_no_listing client u filterTeamID inactiveDays verbose w out w' tr :
  processGuest client u filterTeamID inactiveDays verbose w = (out, w', tr) ->
  listingCalls tr = [].
Proof.
  unfold processGuest. intros Hrun.
  inv_bind_as Hrun rt w1 tr1 tr2 Hcall. apply call_inv in Hcall as [_ ->].
  rewrite listingCalls_app.
  assert (Htr2 : listingCalls tr2 = []); [| rewrite Htr2; destruct rt; reflexivity].
  destruct rt as [teams | e]; [| inv_ret Hrun; reflexivity].
  destruct (str_ne filterTeamID EmptyString && _); [inv_ret Hrun; reflexivity |].
  inv_bind_as Hrun cr w2 tr3 tr4 Hch. apply channelsLoop_inv in Hch as [Hl3 _].
  rewrite listingCalls_app, Hl3. simpl.
  destruct cr as [[channels teamIDs] | e]; [| inv_ret Hrun; reflexivity].
  inv_bind_as Hrun lastPost w3 tr5 tr6 Hlp.
  inv_bind_as Hrun inactive w4 tr7 tr8 Hin.
  apply IsInactive_inv in Hin as [-> _]. inv_ret Hrun.
  rewrite app_nil_r. destruct (0 <? Z.of_nat (length teamIDs)).
  - inv_bind_as Hlp lr w5 tr9 tr10 Hcall. apply call_inv in Hcall as [_ ->].
    destruct lr as [lp | e].
    + inv_ret Hlp. reflexivity.
    + inv_bind_as Hlp x w6 tr11 tr12 Hw. apply listingCalls_when in Hw.
      inv_ret Hlp. rewrite !listingCalls_app, Hw. reflexivity.
  - inv_ret Hlp. reflexivity.
Qed.

Lemma length_zero_iff {A} (l : list A) : (Z.of_nat (length l) =? 0) = true <-> l = [].
Proof.
  rewrite Z.eqb_eq. destruct l; simpl; split; intros; try reflexivity; try lia.
  discriminate.
Qed.

(** What [processGuest] can do, read off its transcript: the team call
    comes first; then an error, a skip, a failed channel call, or a record,
    with at most the last-post call failed. *)
Lemma processGuest_inv client u filterTeamID inactiveDays verbose w rec err w' tr :
  processGuest client u filterTeamID inactiveDays verbose w = ((rec, err), w', tr) ->
  exists rt w1 tr1,
    GetTeamsForUser client (User.Id u) w = (rt, w1)
    /\ tr = GotTeamsForUser (User.Id u) rt :: tr1
    /\ listingCalls tr1 = []
    /\ match rt with
       | inr e =>
           rec = None /\ err = Some ("failed to get teams: " +:+ e)
           /\ tr1 = [] /\ w' = w1
       | inl teams =>
           let teamInfos := map toTeamInfo (List.filter (inScope filterTeamID) teams) in
           (filterTeamID <> EmptyString /\ teamInfos = []
            /\ rec = None /\ err = None /\ tr1 = [] /\ w' = w1)
           \/ ((filterTeamID = EmptyString \/ teamInfos <> [])
               /\ ((exists e teamID e0,
                      rec = None /\ err = Some e /\ e <> EmptyString
                      /\ List.filter failed tr1
                         = [GotChannels teamID (User.Id u) (inr e0)])
                   \/ (exists r,
                         rec = Some r /\ err = None
                         /\ GuestRecord.Error r = EmptyString
                         /\ GuestRecord.Teams r = teamInfos
                         /\ recordOf u r
                         /\ GuestRecord.CreatedAt r = MillisToTime (User.CreateAt u)
                         /\ GuestRecord.LastLogin r = MillisToTime (User.LastActivityAt u)
                         /\ (exists n, GuestRecord.Inactive r
                                       = IsInactiveAt (GuestRecord.LastLogin r) inactiveDays n)
                         /\ (List.filter failed tr1 = []
                             \/ exists e0,
                                 List.filter failed tr1
                                 = [GotLastPostDate (User.Id u) (User.Username u)
                                      (map TeamInfo.ID teamInfos) (inr e0)]
                                 /\ GuestRecord.LastPost r = None
                                 /\ teamInfos <> []))))
       end.
Proof.
  intros Hrun. pose proof (processGuest_no_listing _ _ _ _ _ _ _ _ _ Hrun) as Hlist.
  unfold processGuest in Hrun. inv_bind Hrun.
  apply call_inv in Hm as [Hcall ->].
  exists a, w0, tr1. split; [exact Hcall |]. split; [reflexivity |].
  split; [destruct a; exact Hlist |]. clear Hlist.
  destruct a as [teams | e].
  - rewrite filterTeams_nil in Hrun. cbv zeta.
    set (teamInfos := map toTeamInfo (List.filter (inScope filterTeamID) teams)) in *.
    destruct (str_ne filterTeamID EmptyString
              && (Z.of_nat (length teamInfos) =? 0)) eqn:Hskip.
    + inv_ret Hrun. left. apply andb_true_iff in Hskip as [Hf Hz].
      apply str_ne_true in Hf. apply length_zero_iff in Hz. auto 10.
    + right. split.
      { apply andb_false_iff in Hskip as [Hf | Hz].
        - left. apply str_ne_false in Hf. exact Hf.
        - right. intros Hnil. apply length_zero_iff in Hnil. congruence. }
      inv_bind Hrun. apply channelsLoop_inv in Hm as [_ Hm].
      destruct a as [[channels teamIDs] | e].
      * destruct Hm as [Hnone HteamIDs]. simpl in HteamIDs. subst teamIDs.
        right. inv_bind Hrun. inv_bind Hrun.
        apply IsInactive_inv in Hm0 as [-> (n & Hn)]. inv_ret Hrun.
        eexists. split; [reflexivity |]. split; [reflexivity |]. simpl.
        split; [reflexivity |]. split; [reflexivity |].
        split; [repeat split |]. split; [reflexivity |]. split; [reflexivity |].
        split; [exists n; reflexivity |].
        rewrite app_nil_r, List.filter_app, Hnone. simpl.
        clear Hnone. destruct (0 <? Z.of_nat (length (map TeamInfo.ID teamInfos))) eqn:Hlen.
        -- inv_bind Hm. apply call_inv in Hm0 as [Hlp ->].
           destruct a0 as [lastPost | e0].
           ++ inv_ret Hm. simpl. left. reflexivity.
           ++ inv_bind Hm. apply when_inv in Hm0 as [-> ->]. inv_ret Hm.
              right. exists e0. split.
              ** simpl. destruct verbose; reflexivity.
              ** split; [reflexivity |]. intros Hnil. rewrite Hnil in Hlen.
                 simpl in Hlen. discriminate.
        -- inv_ret Hm. left. reflexivity.
      * destruct Hm as [Hne (teamID & e0 & Hfail)]. inv_ret Hrun.
        left. exists e, teamID, e0. rewrite app_nil_r. auto.
  - inv_ret Hrun. auto.
Qed.

(** One turn of the guest loop: an outcome, applied. *)
Lemma guestStep_inv client filterTeamID inactiveDays verbose u st w st' w' tr :
  guestStep client filterTeamID inactiveDays verbose u st w = (st', w', tr) ->
  exists o,
    st' = applyOutcome st (u, o)
    /\ outcomeSpec filterTeamID inactiveDays u tr o.
Proof.
  unfold guestStep, outcomeSpec. destruct st as [result exitCode]. intros Hrun.
  inv_bind_as Hrun out wp trp trx Hproc. destruct out as [rec err].
  apply processGuest_inv in Hproc as (rt & wt & trt & Hcall & -> & Hlist & Hcases).
  inv_bind_as Hrun x wd trd try Hdiag. destruct x as [[rec' result'] exitCode'].
  assert (Hd : listingCalls trd = [] /\ List.filter failed trd = []).
  { destruct err as [e |]; [| inv_ret Hdiag; auto].
    inv_bind_as Hdiag y wy try1 try2 Hw. apply when_inv in Hw as [_ ->].
    inv_ret Hdiag. destruct verbose; auto. }
  destruct Hd as [Hdl Hdf].
  assert (Htry : try = []) by (destruct rec'; inv_ret Hrun; reflexivity).
  subst try. rewrite app_nil_r.
  assert (Hl : listingCalls ((GotTeamsForUser (User.Id u) rt :: trt) ++ trd) = []).
  { rewrite listingCalls_app, Hdl, app_nil_r. destruct rt; exact Hlist. }
  destruct rt as [teams | e0].
  - cbv zeta in Hcases.
    destruct Hcases as [(Hf & Hnil & -> & -> & -> & ->) | [Hscope [Hfail | Hkept]]].
    + inv_ret Hdiag. inv_ret Hrun. exists Skipped. split; [reflexivity |].
      split; [reflexivity |]. split; [exact Hf |]. exists teams.
      split; [reflexivity |]. apply map_eq_nil in Hnil. exact Hnil.
    + destruct Hfail as (e & teamID & e1 & -> & -> & Hne & Hfail).
      inv_bind_as Hdiag y wy try1 try2 Hw. inv_ret Hdiag. inv_ret Hrun.
      exists (FailedWith e). split; [reflexivity |]. split; [exact Hl |].
      split; [exact Hne |].
      eexists (inl teams), _. split; [reflexivity |].
      exists teamID, e1. rewrite List.filter_app, Hfail, Hdf. reflexivity.
    + destruct Hkept as (r & -> & -> & Herr & Hteams & Hrec & Hc & Hll & Hi & Hlp).
      inv_ret Hdiag. inv_ret Hrun. exists (Kept r). split; [reflexivity |].
      split; [exact Hl |].
      exists teams, trt. rewrite !app_nil_r, Hteams.
      split; [reflexivity |]. split; [exact Herr |]. split; [reflexivity |].
      split; [exact Hscope |]. split; [exact Hrec |]. split; [exact Hc |].
      split; [exact Hll |]. split; [exact Hi |]. exact Hlp.
  - destruct Hcases as (-> & -> & -> & ->).
    inv_bind_as Hdiag y wy try1 try2 Hw. inv_ret Hdiag. inv_ret Hrun.
    exists (FailedWith ("failed to get teams: " +:+ e0)). split; [reflexivity |].
    split; [exact Hl |].
    split; [apply append_nonempty; discriminate |].
    eexists (inr e0), _. split; [reflexivity |].
    split; [reflexivity |]. exact Hdf.
Qed.

(** The guest loop: the outcomes of the guests, applied in order. *)
Lemma guestsLoop_inv client filterTeamID inactiveDays verbose allGuests st w st' w' tr :
  guestsLoop client filterTeamID inactiveDays verbose allGuests st w = (st', w', tr) ->
  exists os,
    LoopRun filterTeamID inactiveDays allGuests tr os
    /\ st' = fold_left applyOutcome os st.
Proof.
  revert st w tr. induction allGuests as [| u us IH]; intros st w tr Hrun.
  - simpl in Hrun. inv_ret Hrun. exists []. split; [constructor | reflexivity].
  - simpl in Hrun. inv_bind Hrun.
    apply guestStep_inv in Hm as (o & -> & Hspec).
    apply IH in Hrun as (os & Hloop & ->).
    exists ((u, o) :: os). split; [constructor; assumption | reflexivity].
Qed.

(** The pagination loop: full pages, then nothing more (the bound of the
    model), an error, or a short page. *)
Lemma fetchGuests_inv fuel client page perPage allGuests w l w' tr :
  fetchGuests fuel client page perPage allGuests w = (l, w', tr) ->
  exists full,
    Forall (fun p => perPage <= Z.of_nat (length p)) full
    /\ match l with
       | OutOfFuel => tr = pageEvents page perPage full /\ length full = fuel
       | ListingFailed e =>
           tr = pageEvents page perPage full
                ++ [GotGuestUsers (page + Z.of_nat (length full)) perPage (inr e);
                    Stderr (LogError e)]
       | Listed all =>
           exists p,
             Z.of_nat (length p) < perPage
             /\ all = allGuests ++ concat full ++ p
             /\ tr = pageEvents page perPage full
                     ++ [GotGuestUsers (page + Z.of_nat (length full)) perPage (inl p)]
       end.
Proof.
  revert page allGuests w tr.
  induction fuel as [| fuel IH]; intros page allGuests w tr Hrun.
  - simpl in Hrun. inv_ret Hrun. exists []. split; [constructor | auto].
  - simpl in Hrun. inv_bind Hrun. apply call_inv in Hm as [Hcall ->].
    destruct a as [users | err].
    + destruct (Z.ltb_spec (Z.of_nat (length users)) perPage) as [Hshort | Hfull].
      * inv_ret Hrun. exists []. split; [constructor |].
        exists users. split; [exact Hshort |]. simpl.
        rewrite Z.add_0_r. auto.
      * apply IH in Hrun as (full & Hall & Hl).
        exists (users :: full). split; [constructor; assumption |].
        replace (page + Z.of_nat (length (users :: full)))
          with (page + 1 + Z.of_nat (length full)) by (simpl length; lia).
        destruct l as [| e | all].
        -- destruct Hl as [-> <-]. auto.
        -- rewrite Hl. reflexivity.
        -- destruct Hl as (p & Hp & -> & ->). exists p.
           split; [exact Hp |]. simpl. rewrite <- !app_assoc. auto.
    + inv_bind Hrun. inv_ret Hm. inv_ret Hrun. exists []. split; [constructor |].
      simpl. rewrite Z.add_0_r. reflexivity.
Qed.

Lemma resolveTeamFilter_inv client teamFilter verbose w r w' tr :
  resolveTeamFilter client teamFilter verbose w = (r, w', tr) ->
  (teamFilter = EmptyString /\ r = inl (EmptyString, EmptyString)
   /\ tr = [] /\ w' = w)
  \/ (teamFilter <> EmptyString
      /\ exists rt,
           GetTeamByName client teamFilter w = (rt, w')
           /\ match rt with
              | inr e =>
                  r = inr ExitConfigError
                  /\ tr = [GotTeamByName teamFilter (inr e); Stderr (LogError e)]
              | inl team =>
                  r = inl (Team.Id team, Team.DisplayName team)
                  /\ tr = GotTeamByName teamFilter (inl team)
                          :: verbosely verbose
                               (LogScoping (Team.DisplayName team) (Team.Id team))
              end).
Proof.
  unfold resolveTeamFilter. destruct (str_ne teamFilter EmptyString) eqn:Hf.
  - apply str_ne_true in Hf. intros Hrun. right. split; [exact Hf |].
    inv_bind Hrun. apply call_inv in Hm as [Hcall ->].
    destruct a as [team | e].
    + inv_bind Hrun. apply when_inv in Hm as [-> ->]. inv_ret Hrun.
      exists (inl team). split; [exact Hcall |]. split; [reflexivity |].
      simpl. rewrite app_nil_r. reflexivity.
    + inv_bind Hrun. inv_ret Hm. inv_ret Hrun.
      exists (inr e). split; [exact Hcall |]. auto.
  - apply str_ne_false in Hf. intros Hrun. inv_ret Hrun. left. auto.
Qed.

(** A run of [RunAudit], taken apart: the filter, the pages, the guests. *)
Lemma RunAudit_inv fuel client teamFilter inactiveDays verbose w out w' tr :
  RunAudit fuel client teamFilter inactiveDays verbose w = (out, w', tr) ->
  exists r w1 trR,
    resolveTeamFilter client teamFilter verbose w = (r, w1, trR)
    /\ match r with
       | inr code => out = Some (None, code) /\ tr = trR /\ w' = w1
       | inl (filterTeamID, _) =>
           exists l w2 trP,
             fetchGuests fuel client 0 200 [] w1 = (l, w2, trP)
             /\ match l with
                | OutOfFuel =>
                    out = None
                    /\ tr = trR ++ verbosely verbose LogRetrieving ++ trP
                | ListingFailed _ =>
                    out = Some (None, ExitAPIError)
                    /\ tr = trR ++ verbosely verbose LogRetrieving ++ trP
                | Listed allGuests =>
                    exists os trG,
                      LoopRun filterTeamID inactiveDays allGuests trG os
                      /\ (let st := fold_left applyOutcome os
                                      (emptyResult inactiveDays, ExitSuccess) in
                          out = Some (Some (summarise (fst st)), snd st))
                      /\ tr = trR ++ verbosely verbose LogRetrieving ++ trP
                              ++ verbosely verbose
                                   (LogFound (Z.of_nat (length allGuests)))
                              ++ trG
                end
       end.
Proof.
  unfold RunAudit. intros Hrun. inv_bind_as Hrun r w1 trR trx Hres.
  exists r, w1, trR. split; [exact Hres |].
  destruct r as [[filterTeamID filterTeamName] | code].
  - inv_bind_as Hrun x1 w2 d1 trx1 Hd1. apply when_inv in Hd1 as [-> ->].
    inv_bind_as Hrun l w3 trP trx2 Hfetch. exists l, w3, trP.
    split; [exact Hfetch |].
    destruct l as [| e | allGuests].
    + inv_ret Hrun. rewrite app_nil_r. auto.
    + inv_ret Hrun. rewrite app_nil_r. auto.
    + inv_bind_as Hrun x2 w4 d2 trx3 Hd2. apply when_inv in Hd2 as [-> ->].
      inv_bind_as Hrun st w5 trG trx4 Hloop. destruct st as [result exitCode].
      apply guestsLoop_inv in Hloop as (os & Hloop & Hst).
      inv_ret Hrun. exists os, trG. split; [exact Hloop |].
      unfold emptyResult. rewrite <- Hst. simpl.
      split; [reflexivity |]. rewrite app_nil_r. reflexivity.
  - inv_ret Hrun. rewrite app_nil_r. auto.
Qed.

(** ** Failures in a transcript *)

Lemma verbosely_not_failed verbose d :
  List.filter failed (verbosely verbose d) = [].
Proof. destruct verbose; reflexivity. Qed.

Lemma pageEvents_not_failed page perPage full :
  List.filter failed (pageEvents page perPage full) = [].
Proof.
  revert page. induction full as [| q full IH]; intros page; simpl; auto.
Qed.

Lemma In_failed (e : Event Time) tr :
  In e tr -> failed e = true -> In e (List.filter failed tr).
Proof. intros Hin Hf. apply filter_In. auto. Qed.

(** The failures of one guest: none when skipped, the team call or a
    channel call when failed, at most the last-post call when kept. *)
Lemma outcomeSpec_failures filterTeamID inactiveDays u tr o :
  outcomeSpec filterTeamID inactiveDays u tr o ->
  match o with
  | Skipped => List.filter failed tr = []
  | FailedWith e =>
      (exists e0, e = "failed to get teams: " +:+ e0
                  /\ List.filter failed tr = [GotTeamsForUser (User.Id u) (inr e0)])
      \/ (exists teamID e0,
            List.filter failed tr = [GotChannels teamID (User.Id u) (inr e0)])
  | Kept r =>
      List.filter failed tr = []
      \/ exists e0,
           List.filter failed tr
           = [GotLastPostDate (User.Id u) (User.Username u)
                (map TeamInfo.ID (GuestRecord.Teams r)) (inr e0)]
           /\ GuestRecord.LastPost r = None /\ GuestRecord.Teams r <> []
  end.
Proof.
  unfold outcomeSpec. destruct o as [| e | r].
  - intros (_ & _ & teams & -> & _). reflexivity.
  - intros (_ & _ & rt & tr1 & -> & Hrt). destruct rt as [teams | e0].
    + right. simpl. exact Hrt.
    + left. destruct Hrt as [-> Hnone]. exists e0. simpl. rewrite Hnone. auto.
  - intros (_ & teams & tr1 & -> & _ & _ & _ & _ & _ & _ & _ & Hlp). simpl. exact Hlp.
Qed.

Lemma LoopRun_no_listing_failure filterTeamID inactiveDays us tr os :
  LoopRun filterTeamID inactiveDays us tr os ->
  Forall (fun e => isListing e = false) (List.filter failed tr).
Proof.
  induction 1 as [| u us tr1 tr2 o os Hspec Hloop IH]; [constructor |].
  rewrite List.filter_app. apply Forall_app. split; [| exact IH].
  apply outcomeSpec_failures in Hspec. destruct o as [| e | r].
  - rewrite Hspec. constructor.
  - destruct Hspec as [(e0 & _ & ->) | (teamID & e0 & ->)]; repeat constructor.
  - destruct Hspec as [-> | (e0 & -> & _)]; repeat constructor.
Qed.

(** ** The guests listed and the records kept *)

Lemma listingCalls_verbosely verbose d : listingCalls (verbosely verbose d) = [].
Proof. destruct verbose; reflexivity. Qed.

Lemma listingCalls_pageEvents page perPage full :
  listingCalls (pageEvents page perPage full) = pageCalls page perPage full.
Proof.
  revert page. induction full as [| q full IH]; intros page; [reflexivity |].
  cbn [pageEvents pageCalls]. unfold listingCalls. rewrite omap_cons.
  f_equal. apply IH.
Qed.

Lemma LoopRun_listingCalls filterTeamID inactiveDays us tr os :
  LoopRun filterTeamID inactiveDays us tr os -> listingCalls tr = [].
Proof.
  induction 1 as [| u us tr1 tr2 o os Hspec Hloop IH]; [reflexivity |].
  rewrite listingCalls_app, IH. destruct Hspec as [-> _]. reflexivity.
Qed.

(** Page [i] is asked for with index [page + i] and the same page size. *)
Lemma pageCalls_index page perPage full :
  map fst (pageCalls page perPage full) =
    map (fun i => (page + Z.of_nat i, perPage)) (seq 0 (length full)).
Proof.
  revert page. induction full as [| q full IH]; intros page; [reflexivity |].
  simpl. rewrite Z.add_0_r. f_equal. rewrite IH, <- seq_shift, map_map.
  apply map_ext. intros i. f_equal. lia.
Qed.

Lemma pageCalls_answers page perPage full :
  map snd (pageCalls page perPage full) = map inl full.
Proof.
  revert page. induction full as [| q full IH]; intros page; [reflexivity |].
  simpl. f_equal. apply IH.
Qed.

Lemma pageCalls_length page perPage full :
  length (pageCalls page perPage full) = length full.
Proof.
  revert page. induction full as [| q full IH]; intros page; [reflexivity |].
  simpl. f_equal. apply IH.
Qed.

Lemma listedUsers_pages page perPage full n p :
  concat (omap answeredUsers (pageCalls page perPage full ++ [(n, perPage, inl p)]))
  = concat full ++ p.
Proof.
  revert page. induction full as [| q full IH]; intros page.
  - cbn. apply app_nil_r.
  - cbn [pageCalls app]. rewrite omap_cons. cbn [answeredUsers concat].
    rewrite IH, app_assoc. reflexivity.
Qed.

(** Without a filter no guest is skipped: one record per guest, in order. *)
Lemma LoopRun_no_filter_records inactiveDays us tr os :
  LoopRun EmptyString inactiveDays us tr os ->
  Forall2 recordOf us (omap outcomeRecord os).
Proof.
  induction 1 as [| u us tr1 tr2 o os Hspec Hloop IH]; [constructor |].
  rewrite omap_cons. destruct Hspec as [_ Hspec].
  destruct o as [| e | r]; cbn [outcomeRecord].
  - destruct Hspec as [Hf _]. congruence.
  - constructor; [repeat split | exact IH].
  - constructor; [| exact IH].
    destruct Hspec as (teams & tr0 & _ & _ & _ & _ & Hrec & _). exact Hrec.
Qed.

(** With or without a filter, the records follow the order of the guests. *)
Lemma LoopRun_records_in_order filterTeamID inactiveDays us tr os :
  LoopRun filterTeamID inactiveDays us tr os ->
  exists kept, sublist kept us /\ Forall2 recordOf kept (omap outcomeRecord os).
Proof.
  induction 1 as [| u us tr1 tr2 o os Hspec Hloop IH].
  - exists []. split; constructor.
  - destruct IH as (kept & Hsub & Hrec). rewrite omap_cons.
    destruct Hspec as [_ Hspec]. destruct o as [| e | r]; cbn [outcomeRecord].
    + exists kept. split; [constructor; exact Hsub | exact Hrec].
    + exists (u :: kept). split; [constructor; exact Hsub |].
      constructor; [repeat split | exact Hrec].
    + exists (u :: kept). split; [constructor; exact Hsub |].
      constructor; [| exact Hrec].
      destruct Hspec as (teams & tr0 & _ & _ & _ & _ & Hr & _). exact Hr.
Qed.

Lemma stubRecord_isStubOf u e : e <> EmptyString -> isStubOf u (stubRecord u e).
Proof.
  intros Hne. unfold isStubOf, recordOf. simpl. auto 12.
Qed.

(** A run that produced a result went through the three stages. *)
Lemma RunAudit_result_inv fuel client teamFilter inactiveDays verbose w
    result exitCode w' tr :
  RunAudit fuel client teamFilter inactiveDays verbose w
    = (Some (Some result, exitCode), w', tr) ->
  exists filterTeamID trR full p os trG,
    (teamFilter = EmptyString /\ filterTeamID = EmptyString /\ trR = []
     \/ teamFilter <> EmptyString
        /\ exists team w1,
             GetTeamByName client teamFilter w = (inl team, w1)
             /\ filterTeamID = Team.Id team
             /\ trR = GotTeamByName teamFilter (inl team)
                      :: verbosely verbose
                           (LogScoping (Team.DisplayName team) (Team.Id team)))
    /\ Forall (fun q => 200 <= Z.of_nat (length q)) full
    /\ Z.of_nat (length p) < 200
    /\ LoopRun filterTeamID inactiveDays (concat full ++ p) trG os
    /\ result = summarise (fst (fold_left applyOutcome os
                                  (emptyResult inactiveDays, ExitSuccess)))
    /\ exitCode = snd (fold_left applyOutcome os
                         (emptyResult inactiveDays, ExitSuccess))
    /\ tr = trR ++ verbosely verbose LogRetrieving
            ++ (pageEvents 0 200 full
                ++ [GotGuestUsers (Z.of_nat (length full)) 200 (inl p)])
            ++ verbosely verbose
                 (LogFound (Z.of_nat (length (concat full ++ p))))
            ++ trG
    /\ listingCalls tr
       = pageCalls 0 200 full ++ [(Z.of_nat (length full), 200, inl p)]
    /\ listedUsers tr = concat full ++ p
    /\ List.filter failed tr = List.filter failed trG.
Proof.
  intros Hrun. apply RunAudit_inv in Hrun as (r & w1 & trR & Hres & Hr).
  apply resolveTeamFilter_inv in Hres.
  destruct r as [[filterTeamID filterTeamName] | code].
  - destruct Hr as (l & w2 & trP & Hfetch & Hl).
    apply fetchGuests_inv in Hfetch as (full & Hfull & Hpages).
    destruct l as [| e | allGuests]; [destruct Hl; discriminate .. |].
    destruct Hl as (os & trG & Hloop & Hout & ->).
    destruct Hpages as (p & Hp & -> & ->). simpl in Hloop.
    cbv zeta in Hout. injection Hout as -> ->.
    rewrite Z.add_0_l. change ([] ++ concat full ++ p) with (concat full ++ p).
    exists filterTeamID, trR, full, p, os, trG.
    assert (HR : (teamFilter = EmptyString /\ filterTeamID = EmptyString /\ trR = []
                  \/ teamFilter <> EmptyString
                     /\ exists team w1,
                          GetTeamByName client teamFilter w = (inl team, w1)
                          /\ filterTeamID = Team.Id team
                          /\ trR = GotTeamByName teamFilter (inl team)
                                   :: verbosely verbose
                                        (LogScoping (Team.DisplayName team)
                                           (Team.Id team)))).
    { destruct Hres as [(-> & [= <- <-] & -> & ->) | (Hf & rt & Hcall & Hrt)].
      - left. auto.
      - right. split; [exact Hf |]. destruct rt as [team | e].
        + destruct Hrt as [[= -> ->] ->]. eauto.
        + destruct Hrt as [[=] _]. }
    assert (HlR : listingCalls trR = [] /\ List.filter failed trR = []).
    { destruct HR as [(_ & _ & ->) | (_ & team & w0 & _ & _ & ->)]; [auto |].
      split.
      - unfold listingCalls. rewrite omap_cons. apply listingCalls_verbosely.
      - cbn [List.filter failed]. apply verbosely_not_failed. }
    destruct HlR as [HlR HfR].
    assert (Hcalls :
      listingCalls
        (trR ++ verbosely verbose LogRetrieving
         ++ (pageEvents 0 200 full
             ++ [GotGuestUsers (Z.of_nat (length full)) 200 (inl p)])
         ++ verbosely verbose (LogFound (Z.of_nat (length (concat full ++ p))))
         ++ trG)
      = pageCalls 0 200 full ++ [(Z.of_nat (length full), 200, inl p)]).
    { rewrite !listingCalls_app, HlR, !listingCalls_verbosely,
        listingCalls_pageEvents, (LoopRun_listingCalls _ _ _ _ _ Hloop).
      simpl. rewrite app_nil_r. reflexivity. }
    split; [exact HR |].
    split; [exact Hfull |]. split; [exact Hp |]. split; [exact Hloop |].
    split; [reflexivity |]. split; [reflexivity |]. split; [reflexivity |].
    split; [exact Hcalls |]. split.
    + unfold listedUsers. rewrite Hcalls. apply listedUsers_pages.
    + rewrite !List.filter_app, HfR, !verbosely_not_failed, pageEvents_not_failed.
      reflexivity.
  - destruct Hr as ([=] & _).
Qed.

(** A run that returned ended in one of three ways. *)
Lemma RunAudit_Some_inv fuel client teamFilter inactiveDays verbose w out w' tr :
  RunAudit fuel client teamFilter inactiveDays verbose w = (Some out, w', tr) ->
  (teamFilter <> EmptyString
   /\ exists e, out = (None, ExitConfigError)
                /\ tr = [GotTeamByName teamFilter (inr e); Stderr (LogError e)])
  \/ (exists full e,
        Forall (fun q => 200 <= Z.of_nat (length q)) full
        /\ out = (None, ExitAPIError)
        /\ listingCalls tr
           = pageCalls 0 200 full ++ [(Z.of_nat (length full), 200, inr e)]
        /\ List.filter failed tr
           = [GotGuestUsers (Z.of_nat (length full)) 200 (inr e)])
  \/ (exists result exitCode, out = (Some result, exitCode)).
Proof.
  intros Hrun. apply RunAudit_inv in Hrun as (r & w1 & trR & Hres & Hr).
  apply resolveTeamFilter_inv in Hres.
  destruct r as [[filterTeamID filterTeamName] | code].
  - destruct Hr as (l & w2 & trP & Hfetch & Hl).
    apply fetchGuests_inv in Hfetch as (full & Hfull & Hpages).
    destruct l as [| e | allGuests].
    + destruct Hl as [[=] _].
    + right. left. destruct Hl as [[= <-] ->]. subst trP.
      exists full, e. split; [exact Hfull |]. split; [reflexivity |].
      assert (HlR : listingCalls trR = [] /\ List.filter failed trR = []).
      { destruct Hres as [(_ & _ & -> & _) | (_ & rt & _ & Hrt)]; [auto |].
        destruct rt as [team | e1]; destruct Hrt as [Heq ->]; [| discriminate].
        split.
        - unfold listingCalls. rewrite omap_cons. apply listingCalls_verbosely.
        - cbn [List.filter failed]. apply verbosely_not_failed. }
      destruct HlR as [HlR HfR]. rewrite Z.add_0_l.
      rewrite !listingCalls_app, !List.filter_app, HlR, HfR,
        listingCalls_verbosely, verbosely_not_failed, listingCalls_pageEvents,
        pageEvents_not_failed.
      split; reflexivity.
    + right. right. destruct Hl as (os & trG & _ & Hout & _).
      cbv zeta in Hout. injection Hout as ->. eauto.
  - left. destruct Hr as ([= ->] & -> & _).
    destruct Hres as [(_ & [=] & _) | (Hf & rt & _ & Hrt)].
    split; [exact Hf |]. destruct rt as [team | e]; destruct Hrt as [Heq ->].
    + discriminate.
    + injection Heq as ->. eauto.
Qed.

(** ** The bound of the model

    The model of a run stops without an answer only after as many full
    pages as it has fuel; with more fuel it returns what it returned. *)

Lemma RunAudit_None_inv fuel client teamFilter inactiveDays verbose w w' tr :
  RunAudit fuel client teamFilter inactiveDays verbose w = (None, w', tr) ->
  exists full,
    length full = fuel
    /\ Forall (fun q => 200 <= Z.of_nat (length q)) full
    /\ List.filter isListing tr = pageEvents 0 200 full.
Proof.
  intros Hrun. apply RunAudit_inv in Hrun as (r & w1 & trR & Hres & Hr).
  apply resolveTeamFilter_inv in Hres.
  destruct r as [[filterTeamID filterTeamName] | code]; [| destruct Hr as [[=] _]].
  destruct Hr as (l & w2 & trP & Hfetch & Hl).
  apply fetchGuests_inv in Hfetch as (full & Hfull & Hpages).
  destruct l as [| e | allGuests].
  - destruct Hl as [_ ->]. destruct Hpages as [-> Hlen].
    exists full. split; [exact Hlen |]. split; [exact Hfull |].
    assert (HR : List.filter isListing trR = []).
    { destruct Hres as [(_ & _ & -> & _) | (_ & rt & _ & Hrt)]; [reflexivity |].
      destruct rt as [team | e]; destruct Hrt as [_ ->]; [| reflexivity].
      destruct verbose; reflexivity. }
    rewrite !List.filter_app, HR. simpl.
    replace (List.filter isListing (verbosely verbose LogRetrieving))
      with (@nil (Event Time)) by (destruct verbose; reflexivity).
    simpl. clear. generalize 0. induction full as [| q full IH]; intros page.
    + reflexivity.
    + simpl. f_equal. apply IH.
  - destruct Hl as [[=] _].
  - destruct Hl as (os & trG & _ & Hout & _). discriminate.
Qed.

Lemma fetchGuests_S fuel client page perPage allGuests :
  fetchGuests (S fuel) client page perPage allGuests =
    (do r <- call (GetGuestUsers client page perPage) (GotGuestUsers page perPage);
     match r with
     | inr err => emit (Stderr (LogError err));; ret (ListingFailed err)
     | inl users =>
         if Z.of_nat (length users) <? perPage then ret (Listed (allGuests ++ users))
         else fetchGuests fuel client (page + 1) perPage (allGuests ++ users)
     end).
Proof. reflexivity. Qed.

Lemma fetchGuests_fuel_mono fuel client page perPage allGuests w l w' tr :
  fetchGuests fuel client page perPage allGuests w = (l, w', tr) ->
  l <> OutOfFuel ->
  fetchGuests (S fuel) client page perPage allGuests w = (l, w', tr).
Proof.
  revert page allGuests w tr.
  induction fuel as [| fuel IH]; intros page allGuests w tr Hrun Hl.
  - simpl in Hrun. inv_ret Hrun. congruence.
  - rewrite fetchGuests_S in Hrun. rewrite fetchGuests_S.
    unfold bind at 1 in Hrun. unfold bind at 1.
    destruct (call (GetGuestUsers client page perPage) (GotGuestUsers page perPage) w)
      as [[r w1] t1].
    destruct r as [users | err]; [| exact Hrun].
    destruct (Z.of_nat (length users) <? perPage); [exact Hrun |].
    destruct (fetchGuests fuel client (page + 1) perPage (allGuests ++ users) w1)
      as [[l2 w2] t2] eqn:Hrec.
    injection Hrun as <- <- <-.
    rewrite (IH _ _ _ _ Hrec Hl). reflexivity.
Qed.

Lemma RunAudit_fuel_mono fuel client teamFilter inactiveDays verbose w out w' tr :
  RunAudit fuel client teamFilter inactiveDays verbose w = (Some out, w', tr) ->
  RunAudit (S fuel) client teamFilter inactiveDays verbose w = (Some out, w', tr).
Proof.
  intros Hrun. pose proof Hrun as Hinv.
  apply RunAudit_inv in Hinv as (r & w1 & trR & Hres & Hr).
  unfold RunAudit in Hrun |- *.
  rewrite (bind_run _ _ _ _ _ _ Hres) in Hrun. rewrite (bind_run _ _ _ _ _ _ Hres).
  destruct r as [[filterTeamID filterTeamName] | code]; [| exact Hrun].
  destruct Hr as (l & w2 & trP & Hfetch & Hl).
  assert (Hne : l <> OutOfFuel).
  { intros ->. destruct Hl as [[=] _]. }
  pose proof (fetchGuests_fuel_mono _ _ _ _ _ _ _ _ _ Hfetch Hne) as Hfetch'.
  assert (Hwhen : when (W:=W) verbose (emit (Stderr LogRetrieving)) w1
                  = (tt, w1, verbosely verbose LogRetrieving))
    by (destruct verbose; reflexivity).
  rewrite (bind_run _ _ _ _ _ _ Hwhen) in Hrun. rewrite (bind_run _ _ _ _ _ _ Hwhen).
  rewrite (bind_run _ _ _ _ _ _ Hfetch) in Hrun. rewrite (bind_run _ _ _ _ _ _ Hfetch').
  exact Hrun.
Qed.

(** The mock answers page [page] with the next 200 guests, or fewer at
    the end. *)
Lemma mock_page (m : mockClient Time) page :
  guestsErr m = None ->
  0 <= page ->
  mock_GetGuestUsers m page 200
  = inl (take 200 (drop (Z.to_nat (200 * page)) (guests m))).
Proof.
  intros Herr Hpage. unfold mock_GetGuestUsers. rewrite Herr.
  replace (page * 200) with (200 * page) by lia.
  destruct (Z.leb_spec (Z.of_nat (length (guests m))) (200 * page)) as [Hle | Hgt].
  - rewrite drop_ge by lia. reflexivity.
  - f_equal. unfold slice.
    destruct (Z.ltb_spec (Z.of_nat (length (guests m))) (200 * page + 200))
      as [Hshort | Hfull].
    + rewrite !take_ge; [reflexivity | rewrite length_drop; lia ..].
    + f_equal. lia.
Qed.

(** Against the mock the pagination ends: fuel for one page more than the
    full pages of the source is enough, and all its guests are listed. *)
Lemma mock_fetch_all (m : mockClient Time) n page w :
  guestsErr m = None ->
  0 <= page ->
  Z.of_nat (length (guests m)) < 200 * (page + Z.of_nat n + 1) ->
  exists tr,
    fetchGuests (S n) (mockAsClient m) page 200
      (take (Z.to_nat (200 * page)) (guests m)) w
    = (Listed (guests m), w, tr).
Proof.
  intros Herr. revert page. induction n as [| n IH]; intros page Hpage Hlen.
  - rewrite fetchGuests_S. unfold bind at 1, call at 1.
    cbn [GetGuestUsers mockAsClient]. rewrite (mock_page m page Herr Hpage).
    rewrite take_ge by (rewrite length_drop; lia).
    rewrite length_drop.
    destruct (Z.ltb_spec (Z.of_nat (length (guests m) - Z.to_nat (200 * page))) 200);
      [| lia].
    unfold ret. rewrite take_drop. eauto.
  - rewrite fetchGuests_S. unfold bind at 1, call at 1.
    cbn [GetGuestUsers mockAsClient]. rewrite (mock_page m page Herr Hpage).
    rewrite length_take, length_drop.
    destruct (Z.ltb_spec
                (Z.of_nat (200 `min` (length (guests m) - Z.to_nat (200 * page))))
                200) as [Hshort | Hfull].
    + rewrite (take_ge (drop _ _)) by (rewrite length_drop; lia).
      unfold ret. rewrite take_drop. eauto.
    + rewrite take_take_drop.
      replace (Z.to_nat (200 * page) + 200)%nat with (Z.to_nat (200 * (page + 1)))
        by lia.
      destruct (IH (page + 1)) as (tr & Htr); [lia | lia |].
      rewrite Htr. eauto.
Qed.

(** Against the mock, a run with enough fuel returns. *)
Lemma RunAudit_mock_returns (m : mockClient Time) fuel teamFilter inactiveDays
    verbose w :
  guestsErr m = None ->
  Z.of_nat (length (guests m)) < 200 * Z.of_nat fuel ->
  exists out w' tr,
    RunAudit fuel (mockAsClient m) teamFilter inactiveDays verbose w
    = (Some out, w', tr).
Proof.
  intros Herr Hlen.
  destruct (RunAudit fuel (mockAsClient m) teamFilter inactiveDays verbose w)
    as [[[out |] w'] tr] eqn:Hrun; [eauto |].
  exfalso. apply RunAudit_inv in Hrun as (r & w1 & trR & _ & Hr).
  destruct r as [[filterTeamID filterTeamName] | code]; [| destruct Hr as [[=] _]].
  destruct Hr as (l & w2 & trP & Hfetch & Hl).
  destruct fuel as [| n]; [lia |].
  destruct (mock_fetch_all m n 0 w1 Herr) as (tr0 & Hall); [lia | lia |].
  change (take (Z.to_nat (200 * 0)) (guests m)) with (@nil User.t) in Hall.
  rewrite Hall in Hfetch. injection Hfetch as <- <- <-.
  destruct Hl as (os & trG & _ & [=] & _).
Qed.

(** ** Fatal errors *)

(** C4. Whenever the team filter is not empty and the lookup of the team
    by name fails, whatever the failure, the run returns no result and the
    configuration-error code, and its transcript is the lookup and the error
    message: the guest-listing operation is never called. *)
Theorem C4_team_lookup_failure fuel client teamFilter inactiveDays verbose w err w1 :
  teamFilter <> EmptyString ->
  GetTeamByName client teamFilter w = (inr err, w1) ->
  let tr := [GotTeamByName teamFilter (inr err); Stderr (LogError err)] in
  RunAudit fuel client teamFilter inactiveDays verbose w
    = (Some (None, ExitConfigError), w1, tr)
  /\ listingCalls tr = [].
Proof.
  intros Hf Hcall. split; [| reflexivity].
  unfold RunAudit, resolveTeamFilter. apply str_ne_true in Hf. rewrite Hf.
  unfold bind at 1. unfold bind at 1. rewrite (call_run _ _ _ _ _ Hcall).
  reflexivity.
Qed.

(** C5. Whenever a call of the guest-listing operation fails in a run, the
    run returns no result and the API-error code, and stops there: the
    failed call and its error message end the transcript; the users of the
    pages fetched before are in no result. *)
Theorem C5_listing_failure_aborts fuel client teamFilter inactiveDays verbose w
    out w' tr page perPage err :
  RunAudit fuel client teamFilter inactiveDays verbose w = (out, w', tr) ->
  In (GotGuestUsers page perPage (inr err)) tr ->
  out = Some (None, ExitAPIError)
  /\ exists tr0,
       tr = tr0 ++ [GotGuestUsers page perPage (inr err); Stderr (LogError err)].
Proof.
  intros Hrun Hin. apply In_failed in Hin; [| reflexivity].
  apply RunAudit_inv in Hrun as (r & w1 & trR & Hres & Hr).
  apply resolveTeamFilter_inv in Hres.
  assert (HtrR : ~ In (GotGuestUsers page perPage (inr err)) (List.filter failed trR)).
  { destruct Hres as [(_ & _ & -> & _) | (_ & rt & _ & Hrt)]; [simpl; tauto |].
    destruct rt as [team | e]; destruct Hrt as [_ ->]; simpl.
    - rewrite verbosely_not_failed. simpl. tauto.
    - intros [[=] | []]. }
  destruct r as [[filterTeamID filterTeamName] | code].
  - destruct Hr as (l & w2 & trP & Hfetch & Hl).
    apply fetchGuests_inv in Hfetch as (full & Hfull & Hpages).
    destruct l as [| e | allGuests].
    + destruct Hl as [-> ->]. destruct Hpages as [-> _]. exfalso.
      rewrite !List.filter_app, verbosely_not_failed, pageEvents_not_failed in Hin.
      rewrite app_nil_r in Hin. contradiction.
    + destruct Hl as [-> ->]. split; [reflexivity |]. rewrite Hpages in *.
      rewrite !List.filter_app, verbosely_not_failed, pageEvents_not_failed in Hin.
      simpl in Hin. apply in_app_or in Hin as [Hin | [[= <- <- <-] | []]];
        [contradiction |].
      eexists. rewrite !app_assoc. reflexivity.
    + exfalso. destruct Hl as (os & trG & Hloop & _ & ->).
      destruct Hpages as (p & _ & _ & ->).
      rewrite !List.filter_app, !verbosely_not_failed, pageEvents_not_failed in Hin.
      simpl in Hin. apply in_app_or in Hin as [Hin | Hin]; [contradiction |].
      apply LoopRun_no_listing_failure in Hloop.
      rewrite Forall_forall in Hloop. apply list_elem_of_In in Hin.
      apply Hloop in Hin. discriminate.
  - exfalso. destruct Hr as (_ & -> & _). contradiction.
Qed.

(** ** Pagination *)

(** The calls of a run that listed guests are numbered from zero, with
    page size 200. *)
Lemma calls_index full (x : list User.t + error) :
  let calls := pageCalls 0 200 full ++ [(Z.of_nat (length full), 200, x)] in
  map fst calls = map (fun i => (Z.of_nat i, 200)) (seq 0 (length calls))
  /\ map snd calls = map inl full ++ [x].
Proof.
  cbv zeta. rewrite !map_app, length_app, pageCalls_length, pageCalls_index,
    pageCalls_answers.
  split; [| reflexivity].
  rewrite Nat.add_1_r, seq_S, map_app. reflexivity.
Qed.

(** The mock with 250 guests: a full page, then a page of 50. *)
Lemma mock_fetch_250 (m : mockClient Time) fuel w :
  guestsErr m = None ->
  length (guests m) = 250%nat ->
  fetchGuests (S (S fuel)) (mockAsClient m) 0 200 [] w
  = (Listed (guests m), w,
     [GotGuestUsers 0 200 (inl (take 200 (guests m)));
      GotGuestUsers 1 200 (inl (drop 200 (guests m)))]).
Proof.
  intros Herr Hlen.
  assert (H0 : mock_GetGuestUsers m 0 200 = inl (take 200 (guests m))).
  { unfold mock_GetGuestUsers. rewrite Herr, Hlen. reflexivity. }
  assert (H1 : mock_GetGuestUsers m 1 200 = inl (drop 200 (guests m))).
  { unfold mock_GetGuestUsers. rewrite Herr, Hlen. simpl. f_equal.
    unfold slice. simpl. apply take_ge. rewrite length_drop, Hlen. lia. }
  cbn [fetchGuests]. unfold bind at 1, call at 1.
  cbn [GetGuestUsers mockAsClient]. rewrite H0.
  rewrite length_take, Hlen.
  change (Z.of_nat (200 `min` 250) <? 200) with false. cbv iota.
  change (0 + 1) with 1.
  unfold bind at 1, call at 1. cbn [GetGuestUsers mockAsClient]. rewrite H1.
  rewrite length_drop, Hlen.
  change (Z.of_nat (250 - 200) <? 200) with true. cbv iota.
  unfold ret. rewrite app_nil_l, take_drop. reflexivity.
Qed.

(** C7. The guests are fetched page by page: in every run that returns,
    the listing calls are numbered 0, 1, 2, ... with page size 200; all
    but the last returned at least 200 users, and the last failed or
    returned fewer than 200 (none, for instance).  After a short last page
    the users of all pages, in order, are the guests of the run, and the
    records of the result follow that order (without a filter there is one
    record per guest).  A mock source of exactly 250 guests is read in
    exactly two calls, pages 0 and 1, and the result has the 250 records in
    the order of the source. *)
Theorem C7_pagination :
  (forall fuel client teamFilter inactiveDays verbose w out w' tr,
     RunAudit fuel client teamFilter inactiveDays verbose w = (Some out, w', tr) ->
     let calls := listingCalls tr in
     map fst calls = map (fun i => (Z.of_nat i, 200)) (seq 0 (length calls))
     /\ exists full,
          Forall (fun q => 200 <= Z.of_nat (length q)) full
          /\ ((calls = [] /\ out = (None, ExitConfigError))
              \/ (exists e,
                    map snd calls = map inl full ++ [inr e]
                    /\ out = (None, ExitAPIError))
              \/ (exists p result exitCode kept,
                    Z.of_nat (length p) < 200
                    /\ map snd calls = map inl full ++ [inl p]
                    /\ out = (Some result, exitCode)
                    /\ listedUsers tr = concat full ++ p
                    /\ sublist kept (listedUsers tr)
                    /\ Forall2 recordOf kept (AuditResult.Guests result)
                    /\ (teamFilter = EmptyString -> kept = listedUsers tr))))
  /\ (forall (m : mockClient Time) fuel inactiveDays verbose w,
        guestsErr m = None ->
        length (guests m) = 250%nat ->
        (2 <= fuel)%nat ->
        exists result exitCode w' tr,
          RunAudit fuel (mockAsClient m) EmptyString inactiveDays verbose w
          = (Some (Some result, exitCode), w', tr)
          /\ listingCalls tr
             = [(0, 200, inl (take 200 (guests m)));
                (1, 200, inl (drop 200 (guests m)))]
          /\ listedUsers tr = guests m
          /\ Forall2 recordOf (guests m) (AuditResult.Guests result)
          /\ length (AuditResult.Guests result) = 250%nat).
Proof.
  split.
  - intros fuel client teamFilter inactiveDays verbose w out w' tr Hrun.
    destruct (RunAudit_Some_inv _ _ _ _ _ _ _ _ _ Hrun)
      as [(Hf & e & -> & ->) | [(full & e & Hfull & -> & Hcalls & _)
                               | (result & exitCode & ->)]].
    + split; [reflexivity |]. exists []. split; [constructor |]. left. auto.
    + cbv zeta. rewrite Hcalls. destruct (calls_index full (inr e)) as [Hi Ha].
      split; [exact Hi |]. exists full. split; [exact Hfull |].
      right. left. exists e. auto.
    + apply RunAudit_result_inv in Hrun
        as (filterTeamID & trR & full & p & os & trG & Hfilter & Hfull & Hp & Hloop
            & -> & _ & _ & Hcalls & Hlisted & _).
      cbv zeta. rewrite Hcalls. destruct (calls_index full (inl p)) as [Hi Ha].
      split; [exact Hi |]. exists full. split; [exact Hfull |]. right. right.
      pose proof (fold_applyOutcome os (emptyResult inactiveDays) ExitSuccess) as Hfold.
      cbv zeta in Hfold. destruct Hfold as (Hg & _). simpl in Hg.
      set (res := summarise (fst (fold_left applyOutcome os
                                     (emptyResult inactiveDays, ExitSuccess)))).
      assert (HG : AuditResult.Guests res = omap outcomeRecord os) by exact Hg.
      rewrite Hlisted.
      destruct (decide (teamFilter = EmptyString)) as [Hnof | Hf].
      * exists p, res, exitCode, (concat full ++ p). rewrite HG.
        destruct Hfilter as [(_ & -> & _) | (Hf & _)]; [| congruence].
        apply LoopRun_no_filter_records in Hloop. auto 10.
      * destruct (LoopRun_records_in_order _ _ _ _ _ Hloop) as (kept & Hsub & Hrec).
        exists p, res, exitCode, kept. rewrite HG.
        split; [exact Hp |]. split; [exact Ha |].
        split; [reflexivity |]. split; [reflexivity |]. split; [exact Hsub |].
        split; [exact Hrec |]. intros Hnof. congruence.
  - intros m fuel inactiveDays verbose w Herr Hlen Hfuel.
    destruct fuel as [| [| fuel]]; [lia | lia |].
    destruct (RunAudit (S (S fuel)) (mockAsClient m) EmptyString inactiveDays
                verbose w) as [[out w'] tr] eqn:Hrun.
    pose proof Hrun as Hinv.
    apply RunAudit_inv in Hinv as (r & w1 & trR & Hres & Hr).
    cbv in Hres. injection Hres as <- <- <-.
    destruct Hr as (l & w2 & trP & Hfetch & Hl).
    rewrite (mock_fetch_250 m fuel w Herr Hlen) in Hfetch.
    injection Hfetch as <- <- <-.
    destruct Hl as (os & trG & Hloop & Hout & Htr). cbv zeta in Hout. subst out.
    eexists _, _, w', tr. split; [reflexivity |].
    pose proof (fold_applyOutcome os (emptyResult inactiveDays) ExitSuccess) as Hfold.
    cbv zeta in Hfold. destruct Hfold as (Hg & _). simpl in Hg.
    pose proof (LoopRun_listingCalls _ _ _ _ _ Hloop) as HlG.
    assert (Hcalls : listingCalls tr
                     = [(0, 200, inl (take 200 (guests m)));
                        (1, 200, inl (drop 200 (guests m)))]).
    { rewrite Htr, !listingCalls_app, !listingCalls_verbosely, HlG. reflexivity. }
    split; [exact Hcalls |]. split.
    + unfold listedUsers. rewrite Hcalls. cbn. rewrite app_nil_r. apply take_drop.
    + unfold summarise. cbn [AuditResult.Guests]. rewrite Hg.
      apply LoopRun_no_filter_records in Hloop.
      split; [exact Hloop |]. apply Forall2_length in Hloop. congruence.
Qed.

(** ** The summary *)

(** C1. After every run that produces a result, the total equals the sum
    of the four other counters; the total is the number of records, the
    failed counter the number of records with an error, and the three other
    counters the numbers of error-free records that are deactivated, that
    are enabled and inactive, and that are enabled and not inactive; every
    record is in exactly one of the four buckets. *)
Theorem C1_summary_invariant fuel client teamFilter inactiveDays verbose w
    result exitCode w' tr :
  RunAudit fuel client teamFilter inactiveDays verbose w
    = (Some (Some result, exitCode), w', tr) ->
  let s := AuditResult.Summary result in
  let gs := AuditResult.Guests result in
  AuditSummary.TotalGuests s
    = AuditSummary.ActiveGuests s + AuditSummary.InactiveGuests s
      + AuditSummary.DeactivatedGuests s + AuditSummary.FailedLookups s
  /\ AuditSummary.TotalGuests s = Z.of_nat (length gs)
  /\ AuditSummary.FailedLookups s = countIf isFailed gs
  /\ AuditSummary.DeactivatedGuests s = countIf isDeactivated gs
  /\ AuditSummary.InactiveGuests s = countIf isInactive gs
  /\ AuditSummary.ActiveGuests s = countIf isActive gs
  /\ Forall (fun g => Z.b2z (isFailed g) + Z.b2z (isDeactivated g)
                      + Z.b2z (isInactive g) + Z.b2z (isActive g) = 1) gs.
Proof.
  intros Hrun.
  apply RunAudit_result_inv in Hrun
    as (filterTeamID & trR & full & p & os & trG & _ & _ & _ & Hloop & -> & _).
  pose proof (fold_applyOutcome os (emptyResult inactiveDays) ExitSuccess) as Hfold.
  cbv zeta in Hfold. destruct Hfold as (Hg & Hf & Ha & Hi & Hd & _ & _).
  set (st := fold_left applyOutcome os (emptyResult inactiveDays, ExitSuccess)) in *.
  cbv zeta. unfold summarise. cbn [AuditResult.Summary AuditResult.Guests].
  rewrite summaryLoop_spec.
  cbn [AuditSummary.TotalGuests AuditSummary.ActiveGuests
         AuditSummary.InactiveGuests AuditSummary.DeactivatedGuests
         AuditSummary.FailedLookups].
  rewrite Hf, Ha, Hi, Hd. simpl in Hg. cbn.
  rewrite <- (LoopRun_failed_records _ _ _ _ _ Hloop), <- Hg.
  pose proof (buckets_partition (AuditResult.Guests (fst st))) as Hpart.
  repeat split; try lia.
  apply Forall_forall. intros g _. apply one_bucket.
Qed.

(** ** One guest fails *)

Lemma filter_app_unit {A} (f : A -> bool) (a b : list A) (x : A) :
  List.filter f (a ++ b) = [x] ->
  (List.filter f a = [x] /\ List.filter f b = [])
  \/ (List.filter f a = [] /\ List.filter f b = [x]).
Proof.
  rewrite List.filter_app. intros Heq.
  apply app_eq_unit in Heq as [[-> ->] | [-> ->]]; auto.
Qed.

(** Without a filter and without a failed call, every guest is kept. *)
Lemma LoopRun_no_failure inactiveDays us tr os :
  LoopRun EmptyString inactiveDays us tr os ->
  List.filter failed tr = [] ->
  Forall2 keptOf us (omap outcomeRecord os) /\ countIf isFailure os = 0.
Proof.
  induction 1 as [| u us tr1 tr2 o os Hspec Hloop IH].
  - intros _. split; [constructor | reflexivity].
  - rewrite List.filter_app. intros Hnone.
    apply app_eq_nil in Hnone as [Hn1 Hn2].
    destruct (IH Hn2) as [Hkept Hcount].
    pose proof (outcomeSpec_failures _ _ _ _ _ Hspec) as Hfail.
    rewrite omap_cons, countIf_cons. destruct Hspec as [_ Hspec].
    destruct o as [| e | r]; cbn [outcomeRecord isFailure].
    + destruct Hspec as [Hf _]. congruence.
    + rewrite Hn1 in Hfail.
      destruct Hfail as [(? & _ & [=]) | (? & ? & [=])].
    + split; [| exact Hcount]. constructor; [| exact Hkept].
      destruct Hspec as (teams & tr0 & _ & Herr & _ & _ & Hrec & _).
      split; assumption.
Qed.

(** Without a filter, when the failed team call of one guest is the only
    failed call: that guest gets the stub, every other guest is kept. *)
Lemma LoopRun_one_team_failure inactiveDays us tr os userID e0 :
  LoopRun EmptyString inactiveDays us tr os ->
  List.filter failed tr = [GotTeamsForUser userID (inr e0)] ->
  exists us1 u us2 gs1 gs2,
    us = us1 ++ u :: us2
    /\ User.Id u = userID
    /\ omap outcomeRecord os
       = gs1 ++ stubRecord u ("failed to get teams: " +:+ e0) :: gs2
    /\ Forall2 keptOf us1 gs1
    /\ Forall2 keptOf us2 gs2
    /\ countIf isFailure os = 1.
Proof.
  induction 1 as [| u us tr1 tr2 o os Hspec Hloop IH]; [discriminate |].
  intros Hone. apply filter_app_unit in Hone as [[H1 H2] | [H1 H2]].
  - apply (LoopRun_no_failure _ _ _ _ Hloop) in H2 as [Hkept Hcount].
    pose proof (outcomeSpec_failures _ _ _ _ _ Hspec) as Hfail.
    rewrite H1 in Hfail. destruct o as [| e | r].
    + discriminate.
    + destruct Hfail as [(e1 & -> & [= -> ->]) | (? & ? & [=])].
      exists [], u, us, [], (omap outcomeRecord os).
      rewrite omap_cons, countIf_cons, Hcount. simpl.
      repeat split; try constructor; assumption.
    + destruct Hfail as [[=] | (? & [=] & _)].
  - destruct (IH H2) as (us1 & v & us2 & gs1 & gs2 & -> & Hid & Hrecs & Hk1 & Hk2 & Hc).
    pose proof (outcomeSpec_failures _ _ _ _ _ Hspec) as Hfail.
    rewrite H1 in Hfail. destruct Hspec as [_ Hspec]. destruct o as [| e | r].
    + destruct Hspec as [Hf _]. congruence.
    + destruct Hfail as [(? & _ & [=]) | (? & ? & [=])].
    + destruct Hspec as (teams & tr0 & _ & Herr & _ & _ & Hrec & _).
      exists (u :: us1), v, us2, (r :: gs1), gs2.
      rewrite omap_cons, countIf_cons, Hrecs, Hc. simpl.
      repeat split; try assumption. constructor; [split; assumption | exact Hk1].
Qed.

(** C3. In every run without a team filter in which the only failed call
    is the team call of one guest: the result has one record per guest
    listed, in the order of the pages; the record of that guest is the stub
    (identity, display name, email, creation time and enabled flag, no team,
    no channel, no date, not inactive) with a non-empty error, every other
    record is free of error; the failed counter is 1 and the exit code is
    the partial-failure code. *)
Theorem C3_one_team_fetch_failure fuel client inactiveDays verbose w out w' tr
    userID e0 :
  RunAudit fuel client EmptyString inactiveDays verbose w = (Some out, w', tr) ->
  List.filter failed tr = [GotTeamsForUser userID (inr e0)] ->
  exists result us1 u us2 gs1 g gs2,
    out = (Some result, ExitPartialFailure)
    /\ listedUsers tr = us1 ++ u :: us2
    /\ User.Id u = userID
    /\ AuditResult.Guests result = gs1 ++ g :: gs2
    /\ Forall2 keptOf us1 gs1
    /\ Forall2 keptOf us2 gs2
    /\ isStubOf u g
    /\ length (AuditResult.Guests result) = length (listedUsers tr)
    /\ AuditSummary.FailedLookups (AuditResult.Summary result) = 1.
Proof.
  intros Hrun Hone.
  destruct (RunAudit_Some_inv _ _ _ _ _ _ _ _ _ Hrun)
    as [(Hf & _) | [(full & e & _ & _ & _ & Hfail) | (result & exitCode & ->)]].
  - congruence.
  - rewrite Hfail in Hone. discriminate.
  - apply RunAudit_result_inv in Hrun
      as (filterTeamID & trR & full & p & os & trG & Hfilter & _ & _ & Hloop
          & -> & -> & _ & _ & Hlisted & Hfailed).
    destruct Hfilter as [(_ & -> & _) | (Hf & _)]; [| congruence].
    rewrite Hfailed in Hone. rewrite Hlisted.
    destruct (LoopRun_one_team_failure _ _ _ _ _ _ Hloop Hone)
      as (us1 & u & us2 & gs1 & gs2 & Hus & Hid & Hrecs & Hk1 & Hk2 & Hcount).
    pose proof (fold_applyOutcome os (emptyResult inactiveDays) ExitSuccess) as Hfold.
    cbv zeta in Hfold. destruct Hfold as (Hg & Hfl & _ & _ & _ & _ & Hcode).
    simpl in Hg. rewrite Hrecs in Hg. rewrite Hcount in Hfl, Hcode.
    exists (summarise (fst (fold_left applyOutcome os
                              (emptyResult inactiveDays, ExitSuccess)))),
      us1, u, us2, gs1, (stubRecord u ("failed to get teams: " +:+ e0)), gs2.
    rewrite Hcode. split; [reflexivity |]. split; [exact Hus |].
    split; [exact Hid |]. unfold summarise. cbn [AuditResult.Guests AuditResult.Summary].
    rewrite summaryLoop_spec. cbn [AuditSummary.FailedLookups].
    split; [exact Hg |]. split; [exact Hk1 |]. split; [exact Hk2 |].
    split; [apply stubRecord_isStubOf, append_nonempty; discriminate |].
    split; [| exact Hfl].
    rewrite Hg, Hus, !length_app. simpl.
    apply Forall2_length in Hk1, Hk2. lia.
Qed.

(** ** The turn of a guest, call by call *)

(** The channel loop, call by call: it asks for the channels of the teams
    in order and stops at the first failure. *)
Lemma channelsLoop_shape client u teamInfos channels teamIDs w r w' tr :
  channelsLoop client u teamInfos channels teamIDs w = (r, w', tr) ->
  exists answered,
    match r with
    | inl (channels', teamIDs') =>
        map fst answered = teamInfos
        /\ tr = channelEvents (User.Id u) answered
        /\ channels' = channels ++ channelInfos answered
        /\ teamIDs' = teamIDs ++ map TeamInfo.ID teamInfos
    | inr e =>
        exists ti rest e0,
          teamInfos = map fst answered ++ ti :: rest
          /\ tr = channelEvents (User.Id u) answered
                  ++ [GotChannels (TeamInfo.ID ti) (User.Id u) (inr e0)]
          /\ e = "failed to get channels for team "
                 +:+ strconv_Quote (TeamInfo.DisplayName ti) +:+ ": " +:+ e0
    end.
Proof.
  revert channels teamIDs w tr.
  induction teamInfos as [| ti teamInfos IH]; intros channels teamIDs w tr Hrun.
  - simpl in Hrun. inv_ret Hrun. exists []. cbn. rewrite !app_nil_r. auto.
  - simpl in Hrun. inv_bind_as Hrun a w1 tr1 tr2 Hcall.
    apply call_inv in Hcall as [Hcall ->].
    destruct a as [chs | err].
    + apply IH in Hrun as (answered & Hshape).
      exists ((ti, chs) :: answered).
      destruct r as [[channels' teamIDs'] | e].
      * destruct Hshape as (Hfst & -> & -> & ->). cbn.
        rewrite Hfst, <- !app_assoc. auto.
      * destruct Hshape as (tj & rest & e0 & -> & -> & ->).
        exists tj, rest, e0. cbn. auto.
    + inv_ret Hrun. exists []. exists ti, teamInfos, err. cbn. auto.
Qed.

(** The transcript of [processGuest], exactly: the team call; then nothing
    more for an error or a skip; else the channel calls of the teams in
    scope, in order, up to the first failure; and after the last of them,
    when there is a team in scope, the one last-post call. *)
Lemma processGuest_shape client u filterTeamID inactiveDays verbose w rec err w' tr :
  processGuest client u filterTeamID inactiveDays verbose w = ((rec, err), w', tr) ->
  exists rt w1,
    GetTeamsForUser client (User.Id u) w = (rt, w1)
    /\ match rt with
       | inr e0 =>
           rec = None /\ err = Some ("failed to get teams: " +:+ e0)
           /\ tr = [GotTeamsForUser (User.Id u) (inr e0)]
       | inl teams =>
           let teamInfos := map toTeamInfo (List.filter (inScope filterTeamID) teams) in
           (filterTeamID <> EmptyString /\ teamInfos = []
            /\ rec = None /\ err = None
            /\ tr = [GotTeamsForUser (User.Id u) (inl teams)])
           \/ ((filterTeamID = EmptyString \/ teamInfos <> [])
               /\ exists answered,
                    (exists ti rest e0,
                       teamInfos = map fst answered ++ ti :: rest
                       /\ rec = None
                       /\ err = Some ("failed to get channels for team "
                                        +:+ strconv_Quote (TeamInfo.DisplayName ti)
                                        +:+ ": " +:+ e0)
                       /\ tr = GotTeamsForUser (User.Id u) (inl teams)
                               :: channelEvents (User.Id u) answered
                               ++ [GotChannels (TeamInfo.ID ti) (User.Id u) (inr e0)])
                    \/ (map fst answered = teamInfos
                        /\ exists r lp,
                             rec = Some r /\ err = None
                             /\ GuestRecord.Teams r = teamInfos
                             /\ GuestRecord.Channels r = channelInfos answered
                             /\ tr = GotTeamsForUser (User.Id u) (inl teams)
                                     :: channelEvents (User.Id u) answered ++ lp
                             /\ ((teamInfos = [] /\ lp = []
                                  /\ GuestRecord.LastPost r = None)
                                 \/ (teamInfos <> []
                                     /\ exists lr,
                                          lp = GotLastPostDate (User.Id u)
                                                 (User.Username u)
                                                 (map TeamInfo.ID teamInfos) lr
                                               :: match lr with
                                                  | inl _ => []
                                                  | inr e =>
                                                      verbosely verbose
                                                        (LogLastPostFailed
                                                           (User.Username u) e)
                                                  end
                                          /\ GuestRecord.LastPost r
                                             = match lr with
                                               | inl t => t
                                               | inr _ => None
                                               end))))
       end.
Proof.
  unfold processGuest. intros Hrun.
  inv_bind_as Hrun rt w1 tr1 tr2 Hcall. apply call_inv in Hcall as [Hcall ->].
  exists rt, w1. split; [exact Hcall |].
  destruct rt as [teams | e0]; [| inv_ret Hrun; auto].
  rewrite filterTeams_nil in Hrun. cbv zeta.
  set (teamInfos := map toTeamInfo (List.filter (inScope filterTeamID) teams)) in *.
  destruct (str_ne filterTeamID EmptyString
            && (Z.of_nat (length teamInfos) =? 0)) eqn:Hskip.
  - inv_ret Hrun. left. apply andb_true_iff in Hskip as [Hf Hz].
    apply str_ne_true in Hf. apply length_zero_iff in Hz. auto 10.
  - right. split.
    { apply andb_false_iff in Hskip as [Hf | Hz].
      - left. apply str_ne_false in Hf. exact Hf.
      - right. intros Hnil. apply length_zero_iff in Hnil. congruence. }
    inv_bind_as Hrun cr w2 tr3 tr4 Hch.
    apply channelsLoop_shape in Hch as (answered & Hshape). exists answered.
    destruct cr as [[channels teamIDs] | e].
    + destruct Hshape as (Hfst & -> & -> & ->). right. split; [exact Hfst |].
      inv_bind_as Hrun lastPost w3 tr5 tr6 Hlp.
      inv_bind_as Hrun inactive w4 tr7 tr8 Hin.
      apply IsInactive_inv in Hin as [-> _]. inv_ret Hrun.
      exists {| GuestRecord.Username := User.Username u;
                GuestRecord.DisplayName :=
                  BuildDisplayName (User.FirstName u) (User.LastName u);
                GuestRecord.Email := User.Email u;
                GuestRecord.CreatedAt := MillisToTime (User.CreateAt u);
                GuestRecord.LastLogin := MillisToTime (User.LastActivityAt u);
                GuestRecord.LastPost := lastPost;
                GuestRecord.Teams := teamInfos;
                GuestRecord.Channels := [] ++ channelInfos answered;
                GuestRecord.Active := User.DeleteAt u =? 0;
                GuestRecord.Inactive := inactive;
                GuestRecord.Error := EmptyString |}, tr5.
      split; [reflexivity |]. split; [reflexivity |]. split; [reflexivity |].
      split; [reflexivity |]. split; [rewrite !app_nil_r; reflexivity |].
      cbn [GuestRecord.LastPost].
      change ([] ++ map TeamInfo.ID teamInfos) with (map TeamInfo.ID teamInfos) in Hlp.
      destruct (0 <? Z.of_nat (length (map TeamInfo.ID teamInfos))) eqn:Hlen.
      * right. split.
        { intros Hnil. rewrite Hnil in Hlen. discriminate. }
        inv_bind_as Hlp lr w5 tr9 tr10 Hcall2.
        apply call_inv in Hcall2 as [_ ->]. exists lr.
        destruct lr as [t | e].
        -- inv_ret Hlp. auto.
        -- inv_bind_as Hlp x w6 tr11 tr12 Hw. apply when_inv in Hw as [_ ->].
           inv_ret Hlp. rewrite app_nil_r. auto.
      * left. inv_ret Hlp. split; [| auto].
        destruct teamInfos; [reflexivity | discriminate].
    + destruct Hshape as (ti & rest & e0 & Hsplit & -> & ->). inv_ret Hrun.
      left. exists ti, rest, e0. rewrite !app_nil_r. auto.
Qed.


(** A turn of the guest loop is [processGuest], the warning for an error
    when verbose, and the update of the result. *)
Lemma guestStep_unfold client filterTeamID inactiveDays verbose u result exitCode
    w st' w' tr :
  guestStep client filterTeamID inactiveDays verbose u (result, exitCode) w
    = (st', w', tr) ->
  exists rec err trp,
    processGuest client u filterTeamID inactiveDays verbose w = ((rec, err), w', trp)
    /\ match err with
       | Some e =>
           tr = trp ++ verbosely verbose (LogGuestFailed (User.Username u) e)
           /\ st' = (appendGuest (incFailedLookups result) (stubRecord u e),
                     ExitPartialFailure)
       | None =>
           tr = trp
           /\ st' = match rec with
                    | Some r => (appendGuest result r, exitCode)
                    | None => (result, exitCode)
                    end
       end.
Proof.
  unfold guestStep. intros Hrun.
  inv_bind_as Hrun out wp trp trx Hproc. destruct out as [rec err].
  exists rec, err, trp.
  inv_bind_as Hrun x wd trd try Hdiag. destruct x as [[rec' result'] exitCode'].
  destruct err as [e |].
  - inv_bind_as Hdiag y wy try1 try2 Hw. apply when_inv in Hw as [-> ->].
    inv_ret Hdiag. inv_ret Hrun. rewrite !app_nil_r.
    split; [exact Hproc |]. split; [| reflexivity].
    destruct verbose; reflexivity.
  - inv_ret Hdiag. destruct rec' as [r |]; inv_ret Hrun; rewrite !app_nil_r; auto.
Qed.

(** The stages of a run that produced a result, with the worlds between
    them. *)
Lemma RunAudit_stages fuel client teamFilter inactiveDays verbose w result exitCode
    w' tr :
  RunAudit fuel client teamFilter inactiveDays verbose w
    = (Some (Some result, exitCode), w', tr) ->
  exists filterTeamID filterTeamName w1 trR allGuests w2 trP st trG,
    resolveTeamFilter client teamFilter verbose w
      = (inl (filterTeamID, filterTeamName), w1, trR)
    /\ fetchGuests fuel client 0 200 [] w1 = (Listed allGuests, w2, trP)
    /\ guestsLoop client filterTeamID inactiveDays verbose allGuests
         (emptyResult inactiveDays, ExitSuccess) w2 = (st, w', trG)
    /\ result = summarise (fst st)
    /\ exitCode = snd st
    /\ tr = trR ++ verbosely verbose LogRetrieving ++ trP
            ++ verbosely verbose (LogFound (Z.of_nat (length allGuests))) ++ trG.
Proof.
  unfold RunAudit. intros Hrun. inv_bind_as Hrun r w1 trR trx Hres.
  destruct r as [[filterTeamID filterTeamName] | code]; [| inv_ret Hrun].
  inv_bind_as Hrun x1 w2 d1 trx1 Hd1. apply when_inv in Hd1 as [-> ->].
  inv_bind_as Hrun l w3 trP trx2 Hfetch.
  destruct l as [| e | allGuests]; [inv_ret Hrun | inv_ret Hrun |].
  inv_bind_as Hrun x2 w4 d2 trx3 Hd2. apply when_inv in Hd2 as [-> ->].
  inv_bind_as Hrun st w5 trG trx4 Hloop. destruct st as [res code].
  cbv [ret] in Hrun. injection Hrun as <- <- <- <-.
  exists filterTeamID, filterTeamName, w1, trR, allGuests, w3, trP, (res, code), trG.
  rewrite app_nil_r. auto 10.
Qed.

(** The record of a guest who is kept, field by field: the identity of the
    guest, the teams in scope, the channels the channel calls returned, in
    order, and the last post the last-post call returned, none if it failed
    or was not made. *)
Lemma processGuest_kept_record client u filterTeamID inactiveDays verbose w r err
    w' tr :
  processGuest client u filterTeamID inactiveDays verbose w = ((Some r, err), w', tr) ->
  exists teams answered lp lastPost n,
    err = None
    /\ tr = GotTeamsForUser (User.Id u) (inl teams)
            :: channelEvents (User.Id u) answered ++ lp
    /\ map fst answered = map toTeamInfo (List.filter (inScope filterTeamID) teams)
    /\ r = {| GuestRecord.Username := User.Username u;
              GuestRecord.DisplayName :=
                BuildDisplayName (User.FirstName u) (User.LastName u);
              GuestRecord.Email := User.Email u;
              GuestRecord.CreatedAt := MillisToTime (User.CreateAt u);
              GuestRecord.LastLogin := MillisToTime (User.LastActivityAt u);
              GuestRecord.LastPost := lastPost;
              GuestRecord.Teams := map fst answered;
              GuestRecord.Channels := channelInfos answered;
              GuestRecord.Active := User.DeleteAt u =? 0;
              GuestRecord.Inactive :=
                IsInactiveAt (MillisToTime (User.LastActivityAt u)) inactiveDays n;
              GuestRecord.Error := EmptyString |}
    /\ ((answered = [] /\ lp = [] /\ lastPost = None)
        \/ (answered <> []
            /\ exists lr,
                 lp = GotLastPostDate (User.Id u) (User.Username u)
                        (map TeamInfo.ID (map fst answered)) lr
                      :: match lr with
                         | inl _ => []
                         | inr e =>
                             verbosely verbose
                               (LogLastPostFailed (User.Username u) e)
                         end
                 /\ lastPost = match lr with
                               | inl t => t
                               | inr _ => None
                               end)).
Proof.
  intros Hproc. pose proof Hproc as Hinv.
  apply processGuest_shape in Hproc as (rt & w1 & Hcall & Hshape).
  apply processGuest_inv in Hinv as (rt' & w1' & tr1 & Hcall' & _ & _ & Hcase).
  rewrite Hcall in Hcall'. injection Hcall' as <- <-.
  destruct rt as [teams | e0]; [| destruct Hshape as ([=] & _)].
  cbv zeta in Hshape, Hcase.
  destruct Hshape as [(_ & _ & [=] & _) | (_ & answered & [Hfail | Hkept])].
  { destruct Hfail as (ti & rest & e0 & _ & [=] & _). }
  destruct Hkept as (Hans & r0 & lp & [= <-] & -> & Hteams & Hch & -> & Hlp).
  destruct Hcase as [(_ & _ & [=] & _) | (_ & [Hfail | Hkept])].
  { destruct Hfail as (e & t & e1 & [=] & _). }
  destruct Hkept as (r1 & [= <-] & _ & Herr & _ & (Hu & Hd & He & Ha) & Hc & Hl
                     & (n & Hi) & _).
  exists teams, answered, lp, (GuestRecord.LastPost r), n.
  split; [reflexivity |]. split; [reflexivity |]. split; [exact Hans |].
  split.
  - rewrite <- Hans in Hteams. rewrite Hl in Hi.
    destruct r. simpl in *. subst. reflexivity.
  - rewrite Hans.
    destruct Hlp as [(Hnil & -> & Hnone) | (Hne & lr & -> & Hpost)].
    + left. rewrite Hnil in Hans. destruct answered; [auto | discriminate Hans].
    + right. split; [intros ->; apply Hne; symmetry; exact Hans |].
      exists lr. auto.
Qed.

(** The loop over the guests only adds records. *)
Lemma guestsLoop_keeps client filterTeamID inactiveDays verbose allGuests st w st' w'
    tr g :
  guestsLoop client filterTeamID inactiveDays verbose allGuests st w = (st', w', tr) ->
  In g (AuditResult.Guests (fst st)) -> In g (AuditResult.Guests (fst st')).
Proof.
  revert st w tr. induction allGuests as [| u us IH]; intros st w tr Hrun Hin.
  - simpl in Hrun. inv_ret Hrun. exact Hin.
  - simpl in Hrun. inv_bind_as Hrun st1 w1 tr1 tr2 Hstep.
    apply (IH _ _ _ Hrun). destruct st as [result exitCode].
    apply guestStep_unfold in Hstep as (rec & err & trp & _ & Hcase).
    destruct err as [e |].
    + destruct Hcase as [_ ->]. simpl. apply in_or_app. auto.
    + destruct Hcase as [_ ->]. destruct rec as [r |]; [| exact Hin].
      simpl. apply in_or_app. auto.
Qed.

(** Every event of the loop over the guests belongs to the turn of a guest
    of the list, and what that turn leaves in the result stays there. *)
Lemma guestsLoop_event client filterTeamID inactiveDays verbose allGuests st w st' w'
    tr e :
  guestsLoop client filterTeamID inactiveDays verbose allGuests st w = (st', w', tr) ->
  In e tr ->
  exists u result exitCode wu stu wu' tru,
    In u allGuests
    /\ guestStep client filterTeamID inactiveDays verbose u (result, exitCode) wu
       = (stu, wu', tru)
    /\ In e tru
    /\ (forall e', In e' tru -> In e' tr)
    /\ (forall g, In g (AuditResult.Guests (fst stu)) ->
                  In g (AuditResult.Guests (fst st')))
    /\ (snd stu = ExitPartialFailure -> snd st' = ExitPartialFailure).
Proof.
  revert st w tr. induction allGuests as [| u us IH]; intros st w tr Hrun Hin.
  - simpl in Hrun. inv_ret Hrun. destruct Hin.
  - simpl in Hrun. inv_bind_as Hrun st1 w1 tr1 tr2 Hstep.
    apply in_app_or in Hin as [Hin | Hin].
    + destruct st as [result exitCode].
      exists u, result, exitCode, w, st1, w1, tr1.
      split; [left; reflexivity |]. split; [exact Hstep |]. split; [exact Hin |].
      split; [intros e' He'; apply in_or_app; auto |].
      split; [intros g Hg; eapply guestsLoop_keeps; eauto |].
      intros Hcode. apply guestsLoop_inv in Hrun as (os & _ & ->).
      destruct st1 as [r1 c1]. simpl in Hcode. subst c1.
      clear. revert r1. induction os as [| [u0 o] os IHos]; intros r1; [reflexivity |].
      simpl. destruct o as [| e | r]; apply IHos.
    + destruct (IH _ _ _ Hrun Hin)
        as (u0 & result & exitCode & wu & stu & wu' & tru & Hu & Hs & He & Htr & Hg & Hc).
      exists u0, result, exitCode, wu, stu, wu', tru.
      split; [right; exact Hu |]. split; [exact Hs |]. split; [exact He |].
      split; [intros e' He'; apply in_or_app; auto |]. split; assumption.
Qed.

(** ** The last post *)

(** When only last-post calls fail, no guest fails. *)
Lemma LoopRun_only_last_post_failures filterTeamID inactiveDays us tr os :
  LoopRun filterTeamID inactiveDays us tr os ->
  Forall (fun e => isLastPost e = true) (List.filter failed tr) ->
  countIf isFailure os = 0
  /\ Forall (fun g => GuestRecord.Error g = EmptyString) (omap outcomeRecord os).
Proof.
  induction 1 as [| u us tr1 tr2 o os Hspec Hloop IH].
  - intros _. split; [reflexivity | constructor].
  - rewrite List.filter_app. intros Hall. apply Forall_app in Hall as [H1 H2].
    destruct (IH H2) as [Hcount Herrs].
    pose proof (outcomeSpec_failures _ _ _ _ _ Hspec) as Hfail.
    rewrite omap_cons, countIf_cons. destruct Hspec as [_ Hspec].
    destruct o as [| e | r]; cbn [outcomeRecord isFailure].
    + auto.
    + exfalso. destruct Hfail as [(e0 & _ & Heq) | (teamID & e0 & Heq)];
        rewrite Heq in H1; inversion H1; discriminate.
    + split; [exact Hcount |]. constructor; [| exact Herrs].
      destruct Hspec as (teams & tr0 & _ & Herr & _). exact Herr.
Qed.

Lemma filter_none {A} (p : A -> bool) (l : list A) :
  Forall (fun x => p x = false) l -> List.filter p l = [].
Proof.
  induction 1 as [| x l Hx Hl IH]; [reflexivity |].
  simpl. rewrite Hx. exact IH.
Qed.

Lemma channelEvents_not_failed userID answered :
  List.filter failed (channelEvents (Time := Time) userID answered) = [].
Proof.
  apply filter_none. apply List.Forall_forall. intros e He.
  apply in_map_iff in He as (a & <- & _). reflexivity.
Qed.

Lemma channelEvents_not_last_post userID answered :
  List.filter isLastPost (channelEvents (Time := Time) userID answered) = [].
Proof.
  apply filter_none. apply List.Forall_forall. intros e He.
  apply in_map_iff in He as (a & <- & _). reflexivity.
Qed.

Lemma pageEvents_listing page perPage full :
  Forall (fun e : Event Time =>
            isGuestCall e = false /\ isTeamLookup e = false)
    (pageEvents page perPage full).
Proof.
  revert page. induction full as [| q full IH]; intros page; [constructor |].
  simpl. constructor; [auto | apply IH].
Qed.

Lemma verbosely_quiet verbose d :
  Forall (fun e : Event Time =>
            isGuestCall e = false /\ isTeamLookup e = false)
    (verbosely verbose d).
Proof. destruct verbose; repeat constructor. Qed.

(** A run with a result: the team of the filter, the guests listed, and the
    loop over them. *)
Lemma RunAudit_loop fuel client teamFilter inactiveDays verbose w result exitCode
    w' tr :
  RunAudit fuel client teamFilter inactiveDays verbose w
    = (Some (Some result, exitCode), w', tr) ->
  exists filterTeamID trA w2 st trG,
    ((teamFilter = EmptyString /\ filterTeamID = EmptyString)
     \/ (teamFilter <> EmptyString
         /\ exists team w1,
              GetTeamByName client teamFilter w = (inl team, w1)
              /\ filterTeamID = Team.Id team))
    /\ tr = trA ++ trG
    /\ Forall (fun e => isGuestCall e = false /\ isTeamLookup e = false
                        \/ exists r, e = GotTeamByName teamFilter r) trA
    /\ guestsLoop client filterTeamID inactiveDays verbose (listedUsers tr)
         (emptyResult inactiveDays, ExitSuccess) w2 = (st, w', trG)
    /\ AuditResult.Guests result = AuditResult.Guests (fst st)
    /\ AuditSummary.FailedLookups (AuditResult.Summary result)
       = AuditSummary.FailedLookups (AuditResult.Summary (fst st))
    /\ exitCode = snd st.
Proof.
  intros Hrun.
  apply RunAudit_stages in Hrun
    as (fid & fname & w1 & trR & allGuests & w2 & trP & st & trG & Hres & Hfetch
        & Hloop & -> & -> & ->).
  exists fid, (trR ++ verbosely verbose LogRetrieving ++ trP
               ++ verbosely verbose (LogFound (Z.of_nat (length allGuests)))),
    w2, st, trG.
  apply resolveTeamFilter_inv in Hres.
  assert (HlR : listingCalls trR = []).
  { destruct Hres as [(_ & _ & -> & _) | (_ & rt & _ & Hrt)]; [reflexivity |].
    destruct rt as [team | e]; destruct Hrt as [_ ->]; [| reflexivity].
    destruct verbose; reflexivity. }
  assert (Hlisted : listedUsers
                      (trR ++ verbosely verbose LogRetrieving ++ trP
                       ++ verbosely verbose (LogFound (Z.of_nat (length allGuests)))
                       ++ trG) = allGuests).
  { pose proof Hloop as Hos. apply guestsLoop_inv in Hos as (os & Hos & _).
    apply LoopRun_listingCalls in Hos.
    apply fetchGuests_inv in Hfetch as (full & _ & p & _ & Hall & ->).
    unfold listedUsers.
    rewrite !listingCalls_app, HlR, !listingCalls_verbosely, Hos,
      listingCalls_pageEvents.
    cbn [app]. rewrite app_nil_r.
    change (listingCalls [GotGuestUsers (0 + Z.of_nat (length full)) 200 (inl p)])
      with [(0 + Z.of_nat (length full), 200%Z, @inl (list User.t) error p)].
    rewrite listedUsers_pages. symmetry. exact Hall. }
  split.
  { destruct Hres as [(Hf & [= Hfid _] & _) | (Hf & rt & Hcall & Hrt)]; [auto |].
    right. split; [exact Hf |].
    destruct rt as [team | e]; destruct Hrt as [[=] _]. subst fid. eauto. }
  split; [rewrite <- !app_assoc; reflexivity |].
  split.
  { apply Forall_app. split.
    - destruct Hres as [(_ & _ & -> & _) | (_ & rt & _ & Hrt)]; [constructor |].
      destruct rt as [team | e]; destruct Hrt as [_ ->].
      + constructor; [eauto |]. destruct verbose; repeat constructor; auto.
      + constructor; [eauto |]. repeat constructor; auto.
    - assert (Hq : Forall (fun e : Event Time =>
                             isGuestCall e = false /\ isTeamLookup e = false)
                     (verbosely verbose LogRetrieving ++ trP
                      ++ verbosely verbose (LogFound (Z.of_nat (length allGuests))))).
      { apply Forall_app. split; [apply verbosely_quiet |].
        apply Forall_app. split; [| apply verbosely_quiet].
        apply fetchGuests_inv in Hfetch as (full & _ & p & _ & _ & ->).
        apply Forall_app. split; [apply pageEvents_listing | repeat constructor]. }
      eapply Forall_impl; [exact Hq |]. intros e He. left. exact He. }
  split; [rewrite Hlisted; exact Hloop |].
  unfold summarise. cbn [AuditResult.Guests AuditResult.Summary].
  rewrite summaryLoop_spec. cbn [AuditSummary.FailedLookups].
  split; [reflexivity |]. split; reflexivity.
Qed.

(** C8. A failed last-post call is not fatal.  In the turn of the guest
    loop in which it happens, the call is the one for the guest of the turn
    and for all the teams in scope, of which there is at least one; it comes
    after the team call and one successful channel call per team in scope,
    and it is the last call of the turn.  The record of the guest is
    appended, complete: the identity of the guest, the teams in scope, the
    channels those channel calls returned, in order, the inactivity flag,
    no last-post date and no error; and neither the failed counter nor the
    exit code changes.  A run in which only last-post calls fail ends with a
    result, the success code, a failed counter of zero and no error on any
    record; and in every run with a result, each failed last-post call
    leaves that complete record of a listed guest in the result. *)
Theorem C8_last_post_failure_nonfatal :
  (forall client filterTeamID inactiveDays verbose u result exitCode w st' w' tr
          userID username teamIDs e0,
     guestStep client filterTeamID inactiveDays verbose u (result, exitCode) w
       = (st', w', tr) ->
     In (GotLastPostDate userID username teamIDs (inr e0)) tr ->
     exists r teams answered n,
       st' = (appendGuest result r, exitCode)
       /\ keptOf u r
       /\ GuestRecord.LastPost r = None
       /\ GuestRecord.Teams r <> []
       /\ teamIDs = map TeamInfo.ID (GuestRecord.Teams r)
       /\ AuditSummary.FailedLookups (AuditResult.Summary (fst st'))
          = AuditSummary.FailedLookups (AuditResult.Summary result)
       /\ userID = User.Id u
       /\ username = User.Username u
       /\ tr = GotTeamsForUser (User.Id u) (inl teams)
               :: channelEvents (User.Id u) answered
               ++ GotLastPostDate (User.Id u) (User.Username u) teamIDs (inr e0)
                  :: verbosely verbose (LogLastPostFailed (User.Username u) e0)
       /\ map fst answered = map toTeamInfo (List.filter (inScope filterTeamID) teams)
       /\ r = completeRecord u (map fst answered) (channelInfos answered) None
                (IsInactiveAt (MillisToTime (User.LastActivityAt u)) inactiveDays n))
  /\ (forall fuel client teamFilter inactiveDays verbose w out w' tr,
        RunAudit fuel client teamFilter inactiveDays verbose w = (Some out, w', tr) ->
        Forall (fun e => isLastPost e = true) (List.filter failed tr) ->
        exists result,
          out = (Some result, ExitSuccess)
          /\ AuditSummary.FailedLookups (AuditResult.Summary result) = 0
          /\ Forall (fun g => GuestRecord.Error g = EmptyString)
               (AuditResult.Guests result))
  /\ (forall fuel client teamFilter inactiveDays verbose w result exitCode w' tr
             userID username teamIDs e0,
        RunAudit fuel client teamFilter inactiveDays verbose w
          = (Some (Some result, exitCode), w', tr) ->
        In (GotLastPostDate userID username teamIDs (inr e0)) tr ->
        exists u r teams answered n,
          In u (listedUsers tr)
          /\ User.Id u = userID
          /\ In r (AuditResult.Guests result)
          /\ In (GotTeamsForUser userID (inl teams)) tr
          /\ Forall (fun a => In (GotChannels (TeamInfo.ID (fst a)) userID
                                    (inl (snd a))) tr) answered
          /\ teamIDs = map TeamInfo.ID (map fst answered)
          /\ answered <> []
          /\ r = completeRecord u (map fst answered) (channelInfos answered) None
                   (IsInactiveAt (MillisToTime (User.LastActivityAt u))
                      inactiveDays n)).
Proof.
  assert (Hstep : forall client filterTeamID inactiveDays verbose u result exitCode w
                         st' w' tr userID username teamIDs e0,
             guestStep client filterTeamID inactiveDays verbose u (result, exitCode) w
               = (st', w', tr) ->
             In (GotLastPostDate userID username teamIDs (inr e0)) tr ->
             exists teams answered n,
               st' = (appendGuest result
                        (completeRecord u (map fst answered) (channelInfos answered)
                           None
                           (IsInactiveAt (MillisToTime (User.LastActivityAt u))
                              inactiveDays n)), exitCode)
               /\ answered <> []
               /\ teamIDs = map TeamInfo.ID (map fst answered)
               /\ userID = User.Id u
               /\ username = User.Username u
               /\ tr = GotTeamsForUser (User.Id u) (inl teams)
                       :: channelEvents (User.Id u) answered
                       ++ GotLastPostDate (User.Id u) (User.Username u) teamIDs
                            (inr e0)
                          :: verbosely verbose
                               (LogLastPostFailed (User.Username u) e0)
               /\ map fst answered
                  = map toTeamInfo (List.filter (inScope filterTeamID) teams)).
  { intros client filterTeamID inactiveDays verbose u result exitCode w st' w' tr
      userID username teamIDs e0 Hrun Hin.
    apply guestStep_unfold in Hrun as (rec & err & trp & Hproc & Hcase).
    destruct err as [e |].
    - exfalso. destruct Hcase as [-> _].
      apply in_app_or in Hin as [Hin | Hin];
        [| destruct verbose; [destruct Hin as [[=] | []] | destruct Hin]].
      apply In_failed in Hin; [| reflexivity].
      apply processGuest_shape in Hproc as (rt & w1 & _ & Hshape).
      destruct rt as [teams | e1].
      + cbv zeta in Hshape.
        destruct Hshape as [(_ & _ & _ & [=] & _) | (_ & answered & [Hfail | Hkept])].
        * destruct Hfail as (ti & rest & e1 & _ & _ & _ & ->).
          cbn [List.filter failed] in Hin.
          rewrite List.filter_app, channelEvents_not_failed in Hin.
          destruct Hin as [[=] | []].
        * destruct Hkept as (_ & r & lp & _ & [=] & _).
      + destruct Hshape as (_ & _ & ->). destruct Hin as [[=] | []].
    - destruct Hcase as [-> ->]. destruct rec as [r |].
      + apply processGuest_kept_record in Hproc
          as (teams & answered & lp & lastPost & n & _ & -> & Hans & -> & Hlp).
        destruct Hin as [[=] | Hin].
        apply in_app_or in Hin as [Hin | Hin].
        { apply in_map_iff in Hin as (a & [=] & _). }
        destruct Hlp as [(_ & -> & _) | (Hne & lr & -> & ->)]; [destruct Hin |].
        destruct Hin as [Heq | Hin].
        * injection Heq as <- <- <- ->.
          exists teams, answered, n. auto 10.
        * exfalso. destruct lr as [t | e]; [destruct Hin |].
          destruct verbose; [destruct Hin as [[=] | []] | destruct Hin].
      + exfalso. apply processGuest_shape in Hproc as (rt & w1 & _ & Hshape).
        destruct rt as [teams | e1]; [| destruct Hshape as (_ & [=] & _)].
        cbv zeta in Hshape.
        destruct Hshape as [(_ & _ & _ & _ & ->) | (_ & answered & [Hfail | Hkept])].
        * destruct Hin as [[=] | []].
        * destruct Hfail as (ti & rest & e1 & _ & _ & [=] & _).
        * destruct Hkept as (_ & r & lp & [=] & _). }
  split; [| split].
  - intros client filterTeamID inactiveDays verbose u result exitCode w st' w' tr
      userID username teamIDs e0 Hrun Hin.
    destruct (Hstep _ _ _ _ _ _ _ _ _ _ _ _ _ _ _ Hrun Hin)
      as (teams & answered & n & -> & Hne & -> & -> & -> & -> & Hans).
    eexists _, teams, answered, n. split; [reflexivity |].
    split; [repeat split |]. split; [reflexivity |].
    split; [destruct answered; [contradiction | discriminate] |].
    split; [reflexivity |]. split; [reflexivity |]. auto 10.
  - intros fuel client teamFilter inactiveDays verbose w out w' tr Hrun Hall.
    destruct (RunAudit_Some_inv _ _ _ _ _ _ _ _ _ Hrun)
      as [(_ & e & _ & ->) | [(full & e & _ & _ & _ & Hfail)
                             | (result & exitCode & ->)]].
    + inversion Hall; discriminate.
    + rewrite Hfail in Hall. inversion Hall; discriminate.
    + apply RunAudit_result_inv in Hrun
        as (filterTeamID & trR & full & p & os & trG & _ & _ & _ & Hloop
            & -> & -> & _ & _ & _ & Hfailed).
      rewrite Hfailed in Hall.
      destruct (LoopRun_only_last_post_failures _ _ _ _ _ Hloop Hall)
        as [Hcount Herrs].
      pose proof (fold_applyOutcome os (emptyResult inactiveDays) ExitSuccess) as Hfold.
      cbv zeta in Hfold. destruct Hfold as (Hg & Hfl & _ & _ & _ & _ & Hcode).
      simpl in Hg. rewrite Hcount in Hfl, Hcode. rewrite Hcode.
      eexists. split; [reflexivity |]. unfold summarise.
      cbn [AuditResult.Guests AuditResult.Summary]. rewrite summaryLoop_spec.
      cbn [AuditSummary.FailedLookups]. rewrite Hg. split; [exact Hfl | exact Herrs].
  - intros fuel client teamFilter inactiveDays verbose w result exitCode w' tr
      userID username teamIDs e0 Hrun Hin.
    apply RunAudit_loop in Hrun
      as (fid & trA & w2 & st & trG & Hfid & Htr & HA & Hloop & Hguests & _ & _).
    assert (HinG : In (GotLastPostDate userID username teamIDs (inr e0)) trG).
    { rewrite Htr in Hin. apply in_app_or in Hin as [Hin | Hin]; [| exact Hin].
      exfalso. rewrite List.Forall_forall in HA.
      destruct (HA _ Hin) as [[Hg _] | (r & [=])]. discriminate Hg. }
    destruct (guestsLoop_event _ _ _ _ _ _ _ _ _ _ _ Hloop HinG)
      as (u & res & code & wu & stu & wu' & tru & Hu & Hs & He & Hsub & Hkeep & _).
    destruct (Hstep _ _ _ _ _ _ _ _ _ _ _ _ _ _ _ Hs He)
      as (teams & answered & n & -> & Hne & -> & -> & -> & -> & Hans).
    exists u, (completeRecord u (map fst answered) (channelInfos answered) None
                 (IsInactiveAt (MillisToTime (User.LastActivityAt u)) inactiveDays n)),
      teams, answered, n.
    split; [exact Hu |]. split; [reflexivity |]. split.
    { rewrite Hguests. apply Hkeep. simpl. apply in_or_app. right. left. reflexivity. }
    assert (HsubT : forall e', In e' (GotTeamsForUser (User.Id u) (inl teams)
                                       :: channelEvents (User.Id u) answered
                                       ++ GotLastPostDate (User.Id u) (User.Username u)
                                            (map TeamInfo.ID (map fst answered)) (inr e0)
                                          :: verbosely verbose
                                               (LogLastPostFailed (User.Username u) e0))
                              -> In e' tr).
    { intros e' He'. rewrite Htr. apply in_or_app. right. apply Hsub. exact He'. }
    split; [apply HsubT; left; reflexivity |]. split.
    { apply List.Forall_forall. intros a Ha. apply HsubT. right. apply in_or_app. left.
      unfold channelEvents. apply in_map_iff. exists a. auto. }
    auto.
Qed.

(** ** The team filter and the guests that fail *)

Lemma inScope_filter filterTeamID teams :
  filterTeamID <> EmptyString ->
  List.filter (inScope filterTeamID) teams
  = List.filter (fun t => String.eqb (Team.Id t) filterTeamID) teams.
Proof.
  intros Hf. apply List.filter_ext. intros t. unfold inScope.
  apply String.eqb_neq in Hf. rewrite Hf. reflexivity.
Qed.

(** The turn of a guest whose team call fails, whatever the filter. *)
Lemma guestStep_teams_error client filterTeamID inactiveDays verbose u result
    exitCode w e0 w1 :
  GetTeamsForUser client (User.Id u) w = (inr e0, w1) ->
  guestStep client filterTeamID inactiveDays verbose u (result, exitCode) w
  = ((appendGuest (incFailedLookups result)
        (stubRecord u ("failed to get teams: " +:+ e0)), ExitPartialFailure),
     w1,
     GotTeamsForUser (User.Id u) (inr e0)
     :: verbosely verbose
          (LogGuestFailed (User.Username u) ("failed to get teams: " +:+ e0))).
Proof.
  intros Hcall. unfold guestStep, processGuest.
  unfold bind at 1. unfold bind at 1. rewrite (call_run _ _ _ _ _ Hcall).
  destruct verbose; reflexivity.
Qed.

(** The turn of a guest who has no team in scope: nothing changes. *)
Lemma guestStep_skip client filterTeamID inactiveDays verbose u st w teams w1 :
  filterTeamID <> EmptyString ->
  GetTeamsForUser client (User.Id u) w = (inl teams, w1) ->
  List.filter (fun t => String.eqb (Team.Id t) filterTeamID) teams = [] ->
  guestStep client filterTeamID inactiveDays verbose u st w
  = (st, w1, [GotTeamsForUser (User.Id u) (inl teams)]).
Proof.
  intros Hf Hcall Hnone. unfold guestStep, processGuest. destruct st as [result exitCode].
  unfold bind at 1. unfold bind at 1. rewrite (call_run _ _ _ _ _ Hcall).
  rewrite filterTeams_nil, (inScope_filter _ _ Hf), Hnone.
  apply str_ne_true in Hf. rewrite Hf. reflexivity.
Qed.

(** A failed team call in the guest loop is the failure of a guest. *)
Lemma LoopRun_team_failure filterTeamID inactiveDays us tr os userID e0 :
  LoopRun filterTeamID inactiveDays us tr os ->
  In (GotTeamsForUser userID (inr e0)) tr ->
  exists u,
    In u us /\ User.Id u = userID
    /\ In (u, FailedWith ("failed to get teams: " +:+ e0)) os.
Proof.
  induction 1 as [| u us tr1 tr2 o os Hspec Hloop IH]; [intros [] |].
  intros Hin. apply in_app_or in Hin as [Hin | Hin].
  - apply In_failed in Hin; [| reflexivity].
    pose proof (outcomeSpec_failures _ _ _ _ _ Hspec) as Hfail.
    destruct o as [| e | r].
    + rewrite Hfail in Hin. contradiction.
    + destruct Hfail as [(e1 & -> & Heq) | (teamID & e1 & Heq)];
        rewrite Heq in Hin; destruct Hin as [Hin | []]; [| discriminate].
      injection Hin as Hid ->. exists u. simpl. auto.
    + destruct Hfail as [Heq | (e1 & Heq & _)]; rewrite Heq in Hin;
        [contradiction | destruct Hin as [[=] | []]].
  - destruct (IH Hin) as (v & Hv & Hid & Hos). exists v. simpl. auto.
Qed.

Lemma In_outcomeRecord (os : list (User.t * GuestOutcome Time)) uo g :
  In uo os -> outcomeRecord uo = Some g -> In g (omap outcomeRecord os).
Proof.
  intros Hin Hg. apply list_elem_of_In, list_elem_of_omap.
  exists uo. split; [apply list_elem_of_In; exact Hin | exact Hg].
Qed.

Lemma countIf_pos {A} (p : A -> bool) l x : In x l -> p x = true -> 1 <= countIf p l.
Proof.
  intros Hin Hp. unfold countIf.
  assert (Hf : In x (List.filter p l)) by (apply filter_In; auto).
  destruct (List.filter p l); [contradiction | simpl length; lia].
Qed.

(** C9. The skip of the team filter is never applied to a guest that
    failed.  Whatever the filter, the turn of a guest whose team call fails
    appends the stub of the guest, adds one to the failed counter and sets
    the partial-failure code.  So in a filtered run that produces a result,
    every failed team call leaves the stub of a listed guest in the result,
    counted in the total and in the failed counter.  With the mock whose
    only guest belongs to Engineering alone and whose team call fails, the
    run filtered on Sales returns that guest. *)
Theorem C9_failed_guest_kept_under_filter :
  (forall client filterTeamID inactiveDays verbose u result exitCode w e0 w1,
     GetTeamsForUser client (User.Id u) w = (inr e0, w1) ->
     guestStep client filterTeamID inactiveDays verbose u (result, exitCode) w
     = ((appendGuest (incFailedLookups result)
           (stubRecord u ("failed to get teams: " +:+ e0)), ExitPartialFailure),
        w1,
        GotTeamsForUser (User.Id u) (inr e0)
        :: verbosely verbose
             (LogGuestFailed (User.Username u) ("failed to get teams: " +:+ e0))))
  /\ (forall fuel client teamFilter inactiveDays verbose w result exitCode w' tr
             userID e0,
        teamFilter <> EmptyString ->
        RunAudit fuel client teamFilter inactiveDays verbose w
          = (Some (Some result, exitCode), w', tr) ->
        In (GotTeamsForUser userID (inr e0)) tr ->
        exists u g,
          In u (listedUsers tr) /\ User.Id u = userID
          /\ g = stubRecord u ("failed to get teams: " +:+ e0)
          /\ In g (AuditResult.Guests result)
          /\ isStubOf u g
          /\ exitCode = ExitPartialFailure
          /\ AuditSummary.TotalGuests (AuditResult.Summary result)
             = Z.of_nat (length (AuditResult.Guests result))
          /\ AuditSummary.FailedLookups (AuditResult.Summary result)
             = countIf isFailed (AuditResult.Guests result)
          /\ 1 <= AuditSummary.FailedLookups (AuditResult.Summary result))
  /\ (forall w,
        exists result w' tr u g,
          RunAudit 1 (mockAsClient strangerMock) "Sales" 0 false w
          = (Some (Some result, ExitPartialFailure), w', tr)
          /\ teamByName (@strangerMock Time) !! "Sales" = Some (Team.mk "team2" "Sales")
          /\ guests (@strangerMock Time) = [u]
          /\ teams (@strangerMock Time) !! User.Id u = Some [Team.mk "team1" "Engineering"]
          /\ AuditResult.Guests result = [g]
          /\ isStubOf u g
          /\ AuditSummary.TotalGuests (AuditResult.Summary result) = 1
          /\ AuditSummary.FailedLookups (AuditResult.Summary result) = 1).
Proof.
  split; [| split].
  - intros. apply guestStep_teams_error. assumption.
  - intros fuel client teamFilter inactiveDays verbose w result exitCode w' tr
      userID e0 Hf Hrun Hin.
    apply In_failed in Hin; [| reflexivity].
    apply RunAudit_result_inv in Hrun
      as (filterTeamID & trR & full & p & os & trG & _ & _ & _ & Hloop
          & -> & -> & _ & _ & Hlisted & Hfailed).
    rewrite Hfailed in Hin. apply filter_In in Hin as [Hin _].
    destruct (LoopRun_team_failure _ _ _ _ _ _ _ Hloop Hin) as (u & Hu & Hid & Hos).
    pose proof (fold_applyOutcome os (emptyResult inactiveDays) ExitSuccess) as Hfold.
    cbv zeta in Hfold. destruct Hfold as (Hg & Hfl & _ & _ & _ & _ & Hcode).
    simpl in Hg, Hfl.
    pose proof (countIf_pos isFailure os _ Hos eq_refl) as Hpos.
    exists u, (stubRecord u ("failed to get teams: " +:+ e0)).
    rewrite Hlisted. split; [exact Hu |]. split; [exact Hid |].
    split; [reflexivity |]. unfold summarise.
    cbn [AuditResult.Guests AuditResult.Summary]. rewrite summaryLoop_spec.
    cbn [AuditSummary.FailedLookups AuditSummary.TotalGuests].
    split; [rewrite Hg; apply (In_outcomeRecord os _ _ Hos); reflexivity |].
    split; [apply stubRecord_isStubOf, append_nonempty; discriminate |].
    split; [rewrite Hcode; destruct (Z.eqb_spec (countIf isFailure os) 0);
            [lia | reflexivity] |].
    split; [reflexivity |].
    split; [rewrite Hfl, Hg; symmetry;
            apply (LoopRun_failed_records _ _ _ _ _ Hloop) |].
    rewrite Hfl. exact Hpos.
  - intros w. eexists _, _, _, _, _.
    split; [vm_compute; reflexivity |].
    split; [vm_compute; reflexivity |].
    split; [reflexivity |].
    split; [vm_compute; reflexivity |].
    split; [reflexivity |].
    split; [| split; reflexivity].
    apply stubRecord_isStubOf. discriminate.
Qed.

(** The errors of [processGuest] are never empty. *)
Lemma processGuest_error_nonempty client u filterTeamID inactiveDays verbose w rec
    e w' tr :
  processGuest client u filterTeamID inactiveDays verbose w
    = ((rec, Some e), w', tr) ->
  e <> EmptyString.
Proof.
  intros Hrun. apply processGuest_shape in Hrun as (rt & w1 & _ & Hcase).
  destruct rt as [teams | e0].
  - cbv zeta in Hcase.
    destruct Hcase as [(_ & _ & _ & [=] & _) | (_ & answered & [Hfail | Hkept])].
    + destruct Hfail as (ti & rest & e0 & _ & _ & [= ->] & _).
      apply append_nonempty. discriminate.
    + destruct Hkept as (_ & r & lp & _ & [=] & _).
  - destruct Hcase as (_ & [= ->] & _). apply append_nonempty. discriminate.
Qed.

(** The turn of a guest in which the team call or a channel call fails,
    whatever the filter: the stub of the guest is appended with the error,
    which names the call and, for a channel call, the team, the first team
    in scope whose channels could not be fetched. *)
Lemma guestStep_failure client filterTeamID inactiveDays verbose u result exitCode w
    st' w' tr :
  guestStep client filterTeamID inactiveDays verbose u (result, exitCode) w
    = (st', w', tr) ->
  (exists userID e0, In (GotTeamsForUser userID (inr e0)) tr)
  \/ (exists teamID userID e0, In (GotChannels teamID userID (inr e0)) tr) ->
  exists e,
    e <> EmptyString
    /\ st' = (appendGuest (incFailedLookups result) (stubRecord u e),
              ExitPartialFailure)
    /\ ((exists e0,
           tr = GotTeamsForUser (User.Id u) (inr e0)
                :: verbosely verbose (LogGuestFailed (User.Username u) e)
           /\ e = "failed to get teams: " +:+ e0)
        \/ (exists teams answered ti rest e0,
              tr = GotTeamsForUser (User.Id u) (inl teams)
                   :: channelEvents (User.Id u) answered
                   ++ GotChannels (TeamInfo.ID ti) (User.Id u) (inr e0)
                      :: verbosely verbose (LogGuestFailed (User.Username u) e)
              /\ map toTeamInfo (List.filter (inScope filterTeamID) teams)
                 = map fst answered ++ ti :: rest
              /\ e = "failed to get channels for team "
                     +:+ strconv_Quote (TeamInfo.DisplayName ti) +:+ ": " +:+ e0)).
Proof.
  intros Hrun Hin.
  assert (Hf : exists e, In e tr /\ failed e = true /\ isLastPost e = false).
  { destruct Hin as [(userID & e0 & Hin) | (teamID & userID & e0 & Hin)];
      eexists; (split; [exact Hin | split; reflexivity]). }
  clear Hin. destruct Hf as (ev & Hin & Hfailed & Hnlp).
  apply guestStep_unfold in Hrun as (rec & err & trp & Hproc & Hcase).
  pose proof Hproc as Hproc0.
  apply processGuest_shape in Hproc as (rt & w1 & _ & Hshape).
  destruct err as [e |].
  - destruct Hcase as [-> ->]. exists e.
    split; [exact (processGuest_error_nonempty _ _ _ _ _ _ _ _ _ _ Hproc0) |].
    split; [reflexivity |].
    destruct rt as [teams | e0].
    + cbv zeta in Hshape.
      destruct Hshape as [(_ & _ & _ & [=] & _) | (_ & answered & [Hfail | Hkept])].
      * destruct Hfail as (ti & rest & e0 & Hteams & _ & [= ->] & ->).
        right. exists teams, answered, ti, rest, e0.
        split; [| split; [exact Hteams | reflexivity]].
        cbn [app]. rewrite <- app_assoc. reflexivity.
      * destruct Hkept as (_ & r & lp & _ & [=] & _).
    + destruct Hshape as (_ & [= ->] & ->). left. exists e0. auto.
  - exfalso. destruct Hcase as [-> _].
    apply (In_failed _ _ Hin) in Hfailed.
    destruct rt as [teams | e0]; [| destruct Hshape as (_ & [=] & _)].
    cbv zeta in Hshape.
    destruct Hshape as [(_ & _ & _ & _ & ->) | (_ & answered & [Hfail | Hkept])].
    + destruct Hfailed.
    + destruct Hfail as (ti & rest & e0 & _ & _ & [=] & _).
    + destruct Hkept as (_ & r & lp & _ & _ & _ & _ & -> & Hlp).
      cbn [List.filter failed] in Hfailed.
      rewrite List.filter_app, channelEvents_not_failed in Hfailed.
      destruct Hlp as [(_ & -> & _) | (_ & lr & -> & _)]; [destruct Hfailed |].
      destruct lr as [t | e]; cbn [app List.filter failed] in Hfailed;
        [destruct Hfailed |].
      destruct verbose; cbn [verbosely List.filter failed] in Hfailed;
        (destruct Hfailed as [<- | []]; discriminate Hnlp).
Qed.

(** In a filtered run every record is the stub of a guest that failed or
    the record of a guest whose team call returned a team in scope. *)
Lemma LoopRun_filtered_records filterTeamID inactiveDays us tr os g :
  filterTeamID <> EmptyString ->
  LoopRun filterTeamID inactiveDays us tr os ->
  In g (omap outcomeRecord os) ->
  (exists u, In u us /\ isStubOf u g)
  \/ (exists u teams,
        In u us /\ keptOf u g
        /\ In (GotTeamsForUser (User.Id u) (inl teams)) tr
        /\ GuestRecord.Teams g
           = map toTeamInfo (List.filter (inScope filterTeamID) teams)
        /\ GuestRecord.Teams g <> []).
Proof.
  intros Hf. induction 1 as [| u us tr1 tr2 o os Hspec Hloop IH]; [intros [] |].
  rewrite omap_cons. intros Hin.
  assert (Hrest : In g (omap outcomeRecord os) ->
            (exists u0, In u0 (u :: us) /\ isStubOf u0 g)
            \/ (exists u0 teams,
                  In u0 (u :: us) /\ keptOf u0 g
                  /\ In (GotTeamsForUser (User.Id u0) (inl teams)) (tr1 ++ tr2)
                  /\ GuestRecord.Teams g
                     = map toTeamInfo (List.filter (inScope filterTeamID) teams)
                  /\ GuestRecord.Teams g <> [])).
  { intros Hg. destruct (IH Hg) as [(v & Hv & Hstub) | (v & teams & Hv & Hk & He & Ht)].
    - left. exists v. simpl. auto.
    - right. exists v, teams. rewrite in_app_iff. simpl. tauto. }
  destruct Hspec as [_ Hspec]. destruct o as [| e | r]; cbn [outcomeRecord] in Hin.
  - auto.
  - destruct Hin as [<- | Hin]; [| auto].
    left. exists u. split; [left; reflexivity |].
    apply stubRecord_isStubOf. apply Hspec.
  - destruct Hin as [<- | Hin]; [| auto].
    destruct Hspec as (teams & tr0 & -> & Herr & Hteams & Hscope & Hrec & _).
    right. exists u, teams. split; [left; reflexivity |].
    split; [split; assumption |]. split; [left; reflexivity |].
    split; [exact Hteams |]. destruct Hscope as [Hnof | Hne]; [congruence | exact Hne].
Qed.

(** C6, as the code has it.  With an active team filter (the team found
    has a non-empty identity): the turn of a guest whose team call succeeds
    and returns no team with that identity changes neither the result nor
    the exit code, so the guest gets no record and is counted nowhere; and
    every record of the result either is the stub of a listed guest whose
    processing failed, or is the error-free record of a listed guest whose
    team call returned a team with the identity of the filter, and keeps
    exactly the teams with that identity.  A guest whose team call or
    channel call fails is kept whatever the filter and whatever their
    teams: the turn appends the stub of the guest, adds one to the failed
    counter and sets the partial-failure code; so in every run with a
    result each failed team or channel call leaves the stub of the listed
    guest it was made for in the result. *)
Theorem C6_team_filter :
  (forall client filterTeamID inactiveDays verbose u st w teams w1,
     filterTeamID <> EmptyString ->
     GetTeamsForUser client (User.Id u) w = (inl teams, w1) ->
     List.filter (fun t => String.eqb (Team.Id t) filterTeamID) teams = [] ->
     guestStep client filterTeamID inactiveDays verbose u st w
     = (st, w1, [GotTeamsForUser (User.Id u) (inl teams)]))
  /\ (forall fuel client teamFilter inactiveDays verbose w team w1 result
             exitCode w' tr g,
        teamFilter <> EmptyString ->
        GetTeamByName client teamFilter w = (inl team, w1) ->
        Team.Id team <> EmptyString ->
        RunAudit fuel client teamFilter inactiveDays verbose w
          = (Some (Some result, exitCode), w', tr) ->
        In g (AuditResult.Guests result) ->
        (exists u, In u (listedUsers tr) /\ isStubOf u g)
        \/ (exists u teams,
              In u (listedUsers tr)
              /\ keptOf u g
              /\ In (GotTeamsForUser (User.Id u) (inl teams)) tr
              /\ GuestRecord.Teams g
                 = map toTeamInfo
                     (List.filter (fun t => String.eqb (Team.Id t) (Team.Id team))
                        teams)
              /\ GuestRecord.Teams g <> []
              /\ Forall (fun ti => TeamInfo.ID ti = Team.Id team) (GuestRecord.Teams g)
              /\ exists t, In t teams /\ Team.Id t = Team.Id team))
  /\ (forall client filterTeamID inactiveDays verbose u result exitCode w st' w' tr,
        guestStep client filterTeamID inactiveDays verbose u (result, exitCode) w
          = (st', w', tr) ->
        (exists userID e0, In (GotTeamsForUser userID (inr e0)) tr)
        \/ (exists teamID userID e0, In (GotChannels teamID userID (inr e0)) tr) ->
        exists e,
          st' = (appendGuest (incFailedLookups result) (stubRecord u e),
                 ExitPartialFailure)
          /\ isStubOf u (stubRecord u e)
          /\ AuditResult.Guests (fst st')
             = AuditResult.Guests result ++ [stubRecord u e]
          /\ AuditSummary.FailedLookups (AuditResult.Summary (fst st'))
             = AuditSummary.FailedLookups (AuditResult.Summary result) + 1)
  /\ (forall fuel client teamFilter inactiveDays verbose w result exitCode w' tr
             userID,
        RunAudit fuel client teamFilter inactiveDays verbose w
          = (Some (Some result, exitCode), w', tr) ->
        (exists e0, In (GotTeamsForUser userID (inr e0)) tr)
        \/ (exists teamID e0, In (GotChannels teamID userID (inr e0)) tr) ->
        exists u g,
          In u (listedUsers tr)
          /\ User.Id u = userID
          /\ In g (AuditResult.Guests result)
          /\ isStubOf u g
          /\ exitCode = ExitPartialFailure).
Proof.
  split; [| split; [| split]].
  - intros. apply guestStep_skip; assumption.
  - intros fuel client teamFilter inactiveDays verbose w team w1 result exitCode
      w' tr g Hf Hcall Hid Hrun Hin.
    apply RunAudit_result_inv in Hrun
      as (filterTeamID & trR & full & p & os & trG & Hfilter & _ & _ & Hloop
          & -> & _ & -> & _ & Hlisted & _).
    destruct Hfilter as [(Hnof & _) | (_ & team' & w1' & Hcall' & -> & _)];
      [congruence |].
    rewrite Hcall in Hcall'. injection Hcall' as <- <-.
    pose proof (fold_applyOutcome os (emptyResult inactiveDays) ExitSuccess) as Hfold.
    cbv zeta in Hfold. destruct Hfold as (Hg & _). simpl in Hg.
    unfold summarise in Hin. cbn [AuditResult.Guests] in Hin. rewrite Hg in Hin.
    rewrite Hlisted.
    destruct (LoopRun_filtered_records _ _ _ _ _ _ Hid Hloop Hin)
      as [(u & Hu & Hstub) | (u & teams & Hu & Hk & He & Ht & Hne)].
    + left. eauto.
    + right. exists u, teams. rewrite (inScope_filter _ _ Hid) in Ht.
      split; [exact Hu |]. split; [exact Hk |].
      split; [rewrite !in_app_iff; auto 10 |].
      split; [exact Ht |]. split; [exact Hne |]. split.
      * rewrite Ht. apply Forall_forall. intros ti Hti.
        apply list_elem_of_In, in_map_iff in Hti as (t & <- & Hti).
        apply filter_In in Hti as [_ Heq]. apply String.eqb_eq in Heq. exact Heq.
      * rewrite Ht in Hne.
        destruct (List.filter (fun t => String.eqb (Team.Id t) (Team.Id team)) teams)
          as [| t ts] eqn:Hfl; [simpl in Hne; congruence |].
        assert (Hti : In t (List.filter
                              (fun t => String.eqb (Team.Id t) (Team.Id team)) teams))
          by (rewrite Hfl; left; reflexivity).
        apply filter_In in Hti as [Hti Heq]. apply String.eqb_eq in Heq. eauto.
  - intros client filterTeamID inactiveDays verbose u result exitCode w st' w' tr
      Hrun Hin.
    destruct (guestStep_failure _ _ _ _ _ _ _ _ _ _ _ Hrun Hin) as (e & Hne & -> & _).
    exists e. split; [reflexivity |].
    split; [apply stubRecord_isStubOf; exact Hne |]. split; reflexivity.
  - intros fuel client teamFilter inactiveDays verbose w result exitCode w' tr
      userID Hrun Hin.
    apply RunAudit_loop in Hrun
      as (fid & trA & w2 & st & trG & _ & Htr & HA & Hloop & Hguests & _ & ->).
    assert (HinG : exists ev,
               In ev trG
               /\ ((exists e0, ev = GotTeamsForUser userID (inr e0))
                   \/ (exists teamID e0, ev = GotChannels teamID userID (inr e0)))).
    { rewrite List.Forall_forall in HA.
      destruct Hin as [(e0 & Hin) | (teamID & e0 & Hin)]; rewrite Htr in Hin;
        (apply in_app_or in Hin as [Hin | Hin];
         [exfalso; destruct (HA _ Hin) as [[Hg _] | (r & [=])]; discriminate Hg
         | eexists; split; [exact Hin | eauto]]). }
    destruct HinG as (ev & HinG & Hev).
    destruct (guestsLoop_event _ _ _ _ _ _ _ _ _ _ _ Hloop HinG)
      as (u & res & code & wu & stu & wu' & tru & Hu & Hs & He & _ & Hkeep & Hcode).
    assert (Hfail : (exists userID0 e0, In (GotTeamsForUser userID0 (inr e0)) tru)
                    \/ (exists teamID userID0 e0,
                          In (GotChannels teamID userID0 (inr e0)) tru)).
    { destruct Hev as [(e0 & ->) | (teamID & e0 & ->)]; eauto 6. }
    destruct (guestStep_failure _ _ _ _ _ _ _ _ _ _ _ Hs Hfail)
      as (e & Hne & -> & Hshape).
    exists u, (stubRecord u e). split; [exact Hu |]. split.
    { destruct Hshape as [(e0 & -> & _) | (teams & answered & ti & rest & e0 & -> & _)].
      - destruct Hev as [(e1 & ->) | (teamID & e1 & ->)].
        + destruct He as [[= <- _] | He]; [reflexivity |].
          destruct verbose; [destruct He as [[=] | []] | destruct He].
        + destruct He as [[=] | He].
          destruct verbose; [destruct He as [[=] | []] | destruct He].
      - destruct Hev as [(e1 & ->) | (teamID & e1 & ->)].
        + destruct He as [[=] | He]. apply in_app_or in He as [He | He].
          * apply in_map_iff in He as (a & [=] & _).
          * destruct He as [[=] | He].
            destruct verbose; [destruct He as [[=] | []] | destruct He].
        + destruct He as [[=] | He]. apply in_app_or in He as [He | He].
          * apply in_map_iff in He as (a & [=] & _).
          * destruct He as [[= _ <- _] | He]; [reflexivity |].
            destruct verbose; [destruct He as [[=] | []] | destruct He]. }
    split.
    { rewrite Hguests. apply Hkeep. simpl. apply in_or_app. right. left. reflexivity. }
    split; [apply stubRecord_isStubOf; exact Hne |].
    apply Hcode. reflexivity.
Qed.

End PipelineFacts.

(** ** The output writer *)
Section OutputFacts.
Context {Time W File : Type}.

Implicit Types (env : OutputEnv Time W File) (result : AuditResult.t Time).

(** The writer [WriteOutput] chooses, with what it took to choose it. *)
Lemma WriteOutput_inv env result format outputPath w r w' tr :
  WriteOutput env result format outputPath w = (r, w', tr) ->
  exists wr w1 trw w2,
    render env format wr result w1 = (r, w2)
    /\ ((outputPath = EmptyString /\ wr = Stdout /\ w1 = w /\ trw = [])
        \/ (outputPath <> EmptyString
            /\ exists c, os_Create env outputPath w = (c, w1)
                 /\ match c with
                    | inl f => wr = ToFile f /\ trw = [Created outputPath (inl f)]
                    | inr err =>
                        wr = Stdout
                        /\ trw = [Created outputPath (inr err); Warned outputPath err]
                    end))
    /\ tr = trw ++ Rendered format wr r
                   :: match wr with ToFile f => [Closed f] | Stdout => [] end
    /\ w' = match wr with ToFile f => File_Close env f w2 | Stdout => w2 end.
Proof.
  unfold WriteOutput. intros Hrun.
  inv_bind_as Hrun wr w1 trw trx Hw.
  inv_bind_as Hrun e w2 tre try Hrender. apply call_inv in Hrender as [Hrender ->].
  exists wr, w1, trw, w2.
  assert (Hchoice :
    (outputPath = EmptyString /\ wr = Stdout /\ w1 = w /\ trw = [])
    \/ (outputPath <> EmptyString
        /\ exists c, os_Create env outputPath w = (c, w1)
             /\ match c with
                | inl f => wr = ToFile f /\ trw = [Created outputPath (inl f)]
                | inr err =>
                    wr = Stdout
                    /\ trw = [Created outputPath (inr err); Warned outputPath err]
                end)).
  { destruct (str_ne outputPath EmptyString) eqn:Hp.
    - right. apply str_ne_true in Hp. split; [exact Hp |].
      inv_bind_as Hw c w0 trc trd Hc. apply call_inv in Hc as [Hc ->].
      destruct c as [f | err].
      + inv_ret Hw. exists (inl f). auto.
      + inv_bind_as Hw x w3 tr1 tr2 Hwarn. inv_ret Hwarn. inv_ret Hw.
        exists (inr err). auto.
    - left. apply str_ne_false in Hp. inv_ret Hw. auto. }
  destruct wr as [| f].
  - inv_ret Hrun. auto.
  - inv_bind_as Hrun x w3 tr1 tr2 Hclose. injection Hclose as <- <- <-.
    inv_ret Hrun. auto.
Qed.

(** C10. When the output file cannot be created, [WriteOutput] warns on
    standard error, hands standard output to the renderer of the format and
    returns what that renderer returns; in every case the value returned is
    the answer of the renderer, called on standard output whenever the
    creation of the file failed, so no error comes from that failure. *)
Theorem C10_create_failure_falls_back :
  (forall env result format outputPath w err w1,
     outputPath <> EmptyString ->
     os_Create env outputPath w = (inr err, w1) ->
     WriteOutput env result format outputPath w
     = (fst (render env format Stdout result w1),
        snd (render env format Stdout result w1),
        [Created outputPath (inr err); Warned outputPath err;
         Rendered format Stdout (fst (render env format Stdout result w1))]))
  /\ (forall env result format outputPath w r w' tr,
        WriteOutput env result format outputPath w = (r, w', tr) ->
        exists wr w1,
          r = fst (render env format wr result w1)
          /\ In (Rendered format wr r) tr
          /\ (forall err, In (Created outputPath (inr err)) tr -> wr = Stdout)).
Proof.
  split.
  - intros env result format outputPath w err w1 Hp Hcreate.
    unfold WriteOutput. apply str_ne_true in Hp. rewrite Hp.
    unfold bind, call, emit, ret. rewrite Hcreate.
    destruct (render env format Stdout result w1) as [e w2]. reflexivity.
  - intros env result format outputPath w r w' tr Hrun.
    apply WriteOutput_inv in Hrun as (wr & w1 & trw & w2 & Hrender & Hchoice & -> & _).
    exists wr, w1. rewrite Hrender. split; [reflexivity |].
    split; [apply in_or_app; right; left; reflexivity |].
    intros err Hin.
    destruct Hchoice as [(_ & -> & _) | (_ & c & _ & Hc)]; [reflexivity |].
    destruct c as [f | err']; [| apply Hc].
    destruct Hc as [-> ->]. simpl in Hin.
    destruct Hin as [[=] | [[=] | [[=] | []]]].
Qed.
End OutputFacts.

(** ** The scenarios, checked *)

(** With the library of the examples the cutoff is the reference time less
    86400 seconds per day of the threshold. *)
Lemma IsInactiveAt_utc (t : Z) (thresholdDays now : Z) :
  @IsInactiveAt utcLib (Some t) thresholdDays now = true
  <-> 0 < thresholdDays /\ t < now - thresholdDays * 86400000000000.
Proof.
  unfold IsInactiveAt. cbn [Time_Before Time_AddDays utcLib].
  destruct (Z.leb_spec thresholdDays 0) as [Hle | Hpos].
  - split; [discriminate | lia].
  - rewrite Z.ltb_lt. lia.
Qed.

(** [TestIsInactive]: one second past the threshold is inactive, the
    threshold itself is not, and a threshold of zero flags nobody. *)
Lemma C2_witness :
  @IsInactiveAt utcLib (Some (testNow - 30 * 86400000000000 - 1000000000)) 30 testNow
    = true
  /\ @IsInactiveAt utcLib (Some (testNow - 30 * 86400000000000)) 30 testNow = false
  /\ @IsInactiveAt utcLib None 0 testNow = false.
Proof.
  split; [| split].
  - apply (proj1 (@C2_IsInactiveAt_spec utcLib
                    (Some (testNow - 30 * 86400000000000 - 1000000000)) 30 testNow)).
    split; [reflexivity |]. right. eexists. split; reflexivity.
  - exact (proj2 (proj2 (@C2_IsInactiveAt_spec utcLib None 30 testNow))).
  - apply (proj1 (proj2 (@C2_IsInactiveAt_spec utcLib None 0 testNow))). lia.
Defined.

(** [TestRunAudit_PartialFailure], with a threshold of 30 days. *)
Lemma C1_witness :
  exists result exitCode w' tr,
    runMock 5 partialFailureMock EmptyString 30 false testNow
    = (Some (Some result, exitCode), w', tr)
    /\ AuditSummary.TotalGuests (AuditResult.Summary result) = 2
    /\ AuditSummary.FailedLookups (AuditResult.Summary result) = 1
    /\ AuditSummary.TotalGuests (AuditResult.Summary result)
       = AuditSummary.ActiveGuests (AuditResult.Summary result)
         + AuditSummary.InactiveGuests (AuditResult.Summary result)
         + AuditSummary.DeactivatedGuests (AuditResult.Summary result)
         + AuditSummary.FailedLookups (AuditResult.Summary result).
Proof.
  do 4 eexists. split; [vm_compute; reflexivity |].
  split; [reflexivity |]. split; [reflexivity |].
  edestruct (@C1_summary_invariant utcLib Z stoppedClock 5
               (mockZ partialFailureMock) EmptyString 30 false testNow)
    as [Hsum _]; [vm_compute; reflexivity | exact Hsum].
Defined.

(** [TestRunAudit_PartialFailure]: two guests, the second one fails. *)
Lemma C3_witness :
  exists out w' tr,
    runMock 5 partialFailureMock EmptyString 0 false testNow = (Some out, w', tr)
    /\ List.filter failed tr
       = [GotTeamsForUser "user2" (inr "error: API request failed (HTTP 500)")]
    /\ exists result us1 u us2 gs1 g gs2,
         out = (Some result, ExitPartialFailure)
         /\ listedUsers tr = us1 ++ u :: us2
         /\ User.Id u = "user2"
         /\ AuditResult.Guests result = gs1 ++ g :: gs2
         /\ Forall2 (@keptOf utcLib) us1 gs1
         /\ Forall2 (@keptOf utcLib) us2 gs2
         /\ @isStubOf utcLib u g
         /\ length (AuditResult.Guests result) = length (listedUsers tr)
         /\ AuditSummary.FailedLookups (AuditResult.Summary result) = 1.
Proof.
  do 3 eexists. split; [vm_compute; reflexivity |].
  split; [vm_compute; reflexivity |].
  eapply (@C3_one_team_fetch_failure utcLib Z stoppedClock 5
            (mockZ partialFailureMock) 0 false testNow).
  - vm_compute. reflexivity.
  - vm_compute. reflexivity.
Defined.

(** [TestRunAudit_TeamFilterNotFound]. *)
Lemma C4_witness :
  exists err,
    runMock 5 noTeamMock "NonExistent" 0 false testNow
    = (Some (None, ExitConfigError), testNow,
       [GotTeamByName "NonExistent" (inr err); Stderr (LogError err)])
    /\ listingCalls
         [GotTeamByName "NonExistent" (inr err); @Stderr Z (LogError err)] = [].
Proof.
  eexists.
  eapply (@C4_team_lookup_failure utcLib Z stoppedClock 5 (mockZ noTeamMock)
            "NonExistent" 0 false testNow).
  - apply str_ne_true. reflexivity.
  - vm_compute. reflexivity.
Defined.

(** A full page of 200 guests, then a failure: nothing is returned. *)
Lemma C5_witness :
  exists w' tr,
    @RunAudit utcLib Z stoppedClock 5 flakyClient EmptyString 0 false testNow
    = (Some (None, ExitAPIError), w', tr)
    /\ length (listedUsers tr) = 200%nat
    /\ exists err tr0,
         tr = tr0 ++ [GotGuestUsers 1 200 (inr err); Stderr (LogError err)].
Proof.
  do 2 eexists. split; [vm_compute; reflexivity |].
  split; [vm_compute; reflexivity |]. eexists.
  edestruct (@C5_listing_failure_aborts utcLib Z stoppedClock 5 flakyClient
               EmptyString 0 false testNow)
    as [_ Htr]; [vm_compute; reflexivity | right; left; reflexivity | exact Htr].
Defined.

(** [TestRunAudit_TeamFilter]: the guest outside Sales is skipped, the
    guest inside is kept with Sales as the only team.  And the guest whose
    channel call fails, and the one whose team call fails in a run filtered
    on a team that is not theirs, are kept as stubs. *)
Lemma C6_witness :
  (let st := (@emptyResult utcLib 0, ExitSuccess) in
   @guestStep utcLib Z stoppedClock (mockZ teamFilterMock) "team2" 0 false jane st
     testNow
   = (st, testNow, [GotTeamsForUser "user1" (inl [Team.mk "team1" "Engineering"])]))
  /\ (exists result exitCode w' tr g,
        runMock 5 teamFilterMock "Sales" 0 false testNow
        = (Some (Some result, exitCode), w', tr)
        /\ AuditResult.Guests result = [g]
        /\ GuestRecord.Username g = "bob.smith"
        /\ GuestRecord.Teams g = [TeamInfo.mk "team2" "Sales"]
        /\ ((exists u, In u (listedUsers tr) /\ @isStubOf utcLib u g)
            \/ (exists u teams,
                  In u (listedUsers tr)
                  /\ @keptOf utcLib u g
                  /\ In (GotTeamsForUser (User.Id u) (inl teams)) tr
                  /\ GuestRecord.Teams g
                     = map toTeamInfo
                         (List.filter (fun t => String.eqb (Team.Id t) "team2") teams)
                  /\ GuestRecord.Teams g <> []
                  /\ Forall (fun ti => TeamInfo.ID ti = "team2") (GuestRecord.Teams g)
                  /\ exists t, In t teams /\ Team.Id t = "team2")))
  /\ (exists e st' w' tr,
        @guestStep utcLib Z stoppedClock (mockZ channelFailureMock) "team2" 0 false
          jane (@emptyResult utcLib 0, ExitSuccess) testNow = (st', w', tr)
        /\ st' = (appendGuest (incFailedLookups (@emptyResult utcLib 0))
                    (stubRecord jane e), ExitPartialFailure)
        /\ @isStubOf utcLib jane (stubRecord jane e))
  /\ (exists result exitCode w' tr u g,
        runMock 1 strangerMock "Sales" 0 false testNow
        = (Some (Some result, exitCode), w', tr)
        /\ In u (listedUsers tr)
        /\ User.Id u = "user1"
        /\ In g (AuditResult.Guests result)
        /\ @isStubOf utcLib u g
        /\ exitCode = ExitPartialFailure).
Proof.
  split; [| split; [| split]].
  - eapply (proj1 (@C6_team_filter utcLib Z stoppedClock)).
    + apply str_ne_true. reflexivity.
    + vm_compute. reflexivity.
    + reflexivity.
  - do 5 eexists. split; [vm_compute; reflexivity |].
    split; [reflexivity |]. split; [reflexivity |]. split; [reflexivity |].
    eapply (proj1 (proj2 (@C6_team_filter utcLib Z stoppedClock)) 5%nat
              (mockZ teamFilterMock) "Sales" 0 false testNow (Team.mk "team2" "Sales")).
    + apply str_ne_true. reflexivity.
    + vm_compute. reflexivity.
    + apply str_ne_true. reflexivity.
    + vm_compute. reflexivity.
    + left. reflexivity.
  - edestruct (proj1 (proj2 (proj2 (@C6_team_filter utcLib Z stoppedClock)))
                 (mockZ channelFailureMock) "team2" 0 false jane
                 (@emptyResult utcLib 0) ExitSuccess testNow)
      as (e & Hst & Hstub & _).
    + vm_compute. reflexivity.
    + right. do 3 eexists. right. left. reflexivity.
    + exists e. do 3 eexists. split; [vm_compute; reflexivity |].
      split; [exact Hst | exact Hstub].
  - edestruct (proj2 (proj2 (proj2 (@C6_team_filter utcLib Z stoppedClock))) 1%nat
                 (mockZ strangerMock) "Sales" 0 false testNow)
      as (u & g & Hu & Hid & Hg & Hstub & Hcode).
    + vm_compute. reflexivity.
    + left. eexists. do 2 right. left. reflexivity.
    + do 4 eexists. exists u, g. split; [reflexivity |]. auto.
Defined.

(** C6 as stated does not hold, in two ways.  The filter read as a promise
    about membership fails on the mock whose only guest belongs to
    Engineering alone and whose team call fails: the run filtered on Sales
    returns that guest, as a stub.  And it fails when the team found has an
    empty identity, which is how the program writes that there is no
    filter: against the mock whose team Sales has an empty identity the run
    filtered on Sales returns the error-free record of the guest of
    Engineering, with Engineering as its team. *)
Lemma C6_counterexample :
  ~ (forall result exitCode w' tr,
       runMock 1 strangerMock "Sales" 0 false testNow
       = (Some (Some result, exitCode), w', tr) ->
       @onlyMembers utcLib strangerMock "team2" result)
  /\ (teamByName emptyIdMock !! "Sales" = Some (Team.mk EmptyString "Sales")
      /\ exists result exitCode w' tr g,
           runMock 1 emptyIdMock "Sales" 0 false testNow
           = (Some (Some result, exitCode), w', tr)
           /\ AuditResult.Guests result = [g]
           /\ GuestRecord.Username g = "jane.doe"
           /\ GuestRecord.Error g = EmptyString
           /\ GuestRecord.Teams g = [TeamInfo.mk "team1" "Engineering"]
           /\ ~ @onlyMembers utcLib emptyIdMock EmptyString result
           /\ ~ ((exists u, In u (listedUsers tr) /\ @isStubOf utcLib u g)
                 \/ exists t, In t (default [] (teams emptyIdMock !! "user1"))
                              /\ Team.Id t = EmptyString)).
Proof.
  split.
  - intros Hall.
    assert (Hrun : exists result exitCode w' tr g,
              runMock 1 strangerMock "Sales" 0 false testNow
              = (Some (Some result, exitCode), w', tr)
              /\ AuditResult.Guests result = [g]
              /\ GuestRecord.Username g = "jane.doe").
    { do 5 eexists. split; [vm_compute; reflexivity |]. split; reflexivity. }
    destruct Hrun as (result & exitCode & w' & tr & g & Hrun & Hg & Hname).
    specialize (Hall _ _ _ _ Hrun g). rewrite Hg in Hall.
    destruct (Hall (or_introl eq_refl)) as (u & t & Hu & _ & Ht & Hid).
    destruct Hu as [<- | []]. vm_compute in Ht.
    destruct Ht as [<- | []]. discriminate Hid.
  - split; [reflexivity |].
    do 5 eexists. split; [vm_compute; reflexivity |].
    split; [reflexivity |]. split; [reflexivity |]. split; [reflexivity |].
    split; [reflexivity |]. split.
    + intros Hall. destruct (Hall _ (or_introl eq_refl)) as (u & t & Hu & _ & Ht & Hid).
      destruct Hu as [<- | []]. vm_compute in Ht.
      destruct Ht as [<- | []]. discriminate Hid.
    + intros [(u & _ & Hstub) | (t & Ht & Hid)].
      * destruct Hstub as (_ & _ & _ & _ & _ & _ & _ & Herr). apply Herr. reflexivity.
      * vm_compute in Ht. destruct Ht as [<- | []]. discriminate Hid.
Qed.

(** [TestRunAudit_Pagination]: 250 guests in two calls; and the run that
    stops at the second call. *)
Lemma C7_witness :
  (exists result exitCode w' tr,
     runMock 5 paginationMock EmptyString 0 false testNow
     = (Some (Some result, exitCode), w', tr)
     /\ listingCalls tr
        = [(0, 200, inl (take 200 (guests paginationMock)));
           (1, 200, inl (drop 200 (guests paginationMock)))]
     /\ listedUsers tr = guests paginationMock
     /\ Forall2 recordOf (guests paginationMock) (AuditResult.Guests result)
     /\ length (AuditResult.Guests result) = 250%nat)
  /\ exists out w' tr,
       @RunAudit utcLib Z stoppedClock 5 flakyClient EmptyString 0 false testNow
       = (Some out, w', tr)
       /\ map fst (listingCalls tr) = [(0, 200); (1, 200)].
Proof.
  split.
  - apply (proj2 (@C7_pagination utcLib Z stoppedClock) paginationMock 5%nat 0 false
             testNow).
    + reflexivity.
    + vm_compute. reflexivity.
    + lia.
  - do 3 eexists. split; [vm_compute; reflexivity |].
    edestruct (proj1 (@C7_pagination utcLib Z stoppedClock) 5%nat flakyClient
                 EmptyString 0 false testNow) as [Hindex _];
      [vm_compute; reflexivity | exact Hindex].
Defined.

(** The estimation of the last post fails for the only guest: the record
    is complete but for the date, with the team and the channel of the
    guest, and the run succeeds with that record. *)
Lemma C8_witness :
  (exists r e0,
     @guestStep utcLib Z stoppedClock (mockZ lastPostFailureMock) EmptyString 30
       true jane (@emptyResult utcLib 30, ExitSuccess) testNow
     = ((appendGuest (@emptyResult utcLib 30) r, ExitSuccess), testNow,
        [GotTeamsForUser "user1" (inl [Team.mk "team1" "Engineering"]);
         GotChannels "team1" "user1" (inl [Channel.mk "ch1" "General"]);
         GotLastPostDate "user1" "jane.doe" ["team1"] (inr e0);
         Stderr (LogLastPostFailed "jane.doe" e0)])
     /\ GuestRecord.LastPost r = None
     /\ GuestRecord.Error r = EmptyString
     /\ GuestRecord.Teams r = [TeamInfo.mk "team1" "Engineering"]
     /\ GuestRecord.Channels r = [ChannelInfo.mk "Engineering" "General"])
  /\ (exists result,
        fst (fst (runMock 5 lastPostFailureMock EmptyString 30 true testNow))
        = Some (Some result, ExitSuccess)
        /\ AuditSummary.FailedLookups (AuditResult.Summary result) = 0
        /\ Forall (fun g => GuestRecord.Error g = EmptyString)
             (AuditResult.Guests result))
  /\ exists result w' tr r,
       runMock 5 lastPostFailureMock EmptyString 30 true testNow
       = (Some (Some result, ExitSuccess), w', tr)
       /\ In r (AuditResult.Guests result)
       /\ GuestRecord.Username r = "jane.doe"
       /\ GuestRecord.LastPost r = None
       /\ GuestRecord.Channels r = [ChannelInfo.mk "Engineering" "General"].
Proof.
  split; [| split].
  - edestruct (proj1 (@C8_last_post_failure_nonfatal utcLib Z stoppedClock)
                 (mockZ lastPostFailureMock) EmptyString 30 true jane
                 (@emptyResult utcLib 30) ExitSuccess testNow)
      as (r & teams & answered & n & Hst & [_ Herr] & Hlp & _ & _ & _ & _ & _ & Htr
          & _ & Hr).
    + vm_compute. reflexivity.
    + right. right. left. reflexivity.
    + injection Hst as <-. do 2 eexists. split; [reflexivity |].
      split; [exact Hlp |]. split; [exact Herr |]. split; reflexivity.
  - edestruct (proj1 (proj2 (@C8_last_post_failure_nonfatal utcLib Z stoppedClock))
                 5%nat (mockZ lastPostFailureMock) EmptyString 30 true testNow)
      as (result & Hout & Hfl & Herrs).
    + vm_compute. reflexivity.
    + vm_compute. repeat constructor.
    + exists result. injection Hout as <-. split; [reflexivity |].
      split; [exact Hfl | exact Herrs].
  - edestruct (proj2 (proj2 (@C8_last_post_failure_nonfatal utcLib Z stoppedClock))
                 5%nat (mockZ lastPostFailureMock) EmptyString 30 true testNow)
      as (u & r & teams & answered & n & _ & _ & Hin & _ & _ & _ & _ & Hr).
    + vm_compute. reflexivity.
    + do 5 right. left. reflexivity.
    + do 3 eexists. exists r. split; [reflexivity |]. split; [exact Hin |].
      destruct Hin as [<- | []]. repeat split.
Defined.

(** The run filtered on Sales against the mock whose only guest belongs to
    Engineering alone and whose team call fails. *)
Lemma C9_witness :
  (@guestStep utcLib Z stoppedClock (mockZ strangerMock) "team2" 0 false jane
     (@emptyResult utcLib 0, ExitSuccess) testNow
   = ((appendGuest (incFailedLookups (@emptyResult utcLib 0))
         (@stubRecord utcLib jane
            "failed to get teams: error: API request failed (HTTP 500)"),
       ExitPartialFailure),
      testNow,
      [GotTeamsForUser "user1" (inr "error: API request failed (HTTP 500)")]))
  /\ exists result w' tr g,
       runMock 1 strangerMock "Sales" 0 false testNow
       = (Some (Some result, ExitPartialFailure), w', tr)
       /\ AuditResult.Guests result = [g]
       /\ GuestRecord.Username g = "jane.doe"
       /\ @isStubOf utcLib jane g
       /\ AuditSummary.TotalGuests (AuditResult.Summary result) = 1
       /\ AuditSummary.FailedLookups (AuditResult.Summary result) = 1.
Proof.
  split.
  - apply (proj1 (@C9_failed_guest_kept_under_filter utcLib Z stoppedClock)
             (mockZ strangerMock) "team2" 0 false jane (@emptyResult utcLib 0)
             ExitSuccess testNow "error: API request failed (HTTP 500)" testNow).
    vm_compute. reflexivity.
  - edestruct (proj1 (proj2 (@C9_failed_guest_kept_under_filter utcLib Z stoppedClock))
                 1%nat (mockZ strangerMock) "Sales" 0 false testNow)
      as (u & g & Hu & Hid & Hg & Hin & Hstub & Hcode & Htotal & Hfailed & _).
    + apply str_ne_true. reflexivity.
    + vm_compute. reflexivity.
    + right. right. left. reflexivity.
    + destruct Hu as [<- | []]. subst g. do 4 eexists.
      split; [vm_compute; reflexivity |]. split; [reflexivity |].
      split; [reflexivity |]. split; [exact Hstub |].
      split; [exact Htotal | exact Hfailed].
Defined.

(** A report for a path that cannot be created goes to standard output, and
    no error is returned. *)
Lemma C10_witness :
  let os := {| stdout := EmptyString; files := [] |} in
  let err := "open /nonexistent/report.csv: no such file or directory" in
  WriteOutput testEnv (@emptyResult utcLib 0) "csv" "/nonexistent/report.csv" os
  = (None, {| stdout := "csv 0"; files := [] |},
     [Created "/nonexistent/report.csv" (inr err);
      Warned "/nonexistent/report.csv" err;
      Rendered "csv" Stdout None])
  /\ exists wr w1,
       None = fst (render testEnv "csv" wr (@emptyResult utcLib 0) w1)
       /\ wr = Stdout.
Proof.
  intros os err. split.
  - apply (proj1 (@C10_create_failure_falls_back Z TestOS string) testEnv
             (@emptyResult utcLib 0) "csv" "/nonexistent/report.csv" os err os).
    + apply str_ne_true. reflexivity.
    + reflexivity.
  - edestruct (proj2 (@C10_create_failure_falls_back Z TestOS string) testEnv
                 (@emptyResult utcLib 0) "csv" "/nonexistent/report.csv" os)
      as (wr & w1 & Hr & _ & Hstd).
    + vm_compute. reflexivity.
    + exists wr, w1. split; [exact Hr |]. apply (Hstd err). left. reflexivity.
Defined.

(** * More of the pipeline *)

Section GuestShape.
Context `{GoLib} {W : Type} `{!Clock Time W}.

Implicit Types (client : MattermostClient Time W) (u : User.t) (w : W).
Implicit Types (tr : list (Event Time)).

(** A property of records that every stub and every record of
    [processGuest] has is a property of every record of the guest loop. *)
Lemma guestsLoop_Forall (P : GuestRecord.t Time -> Prop) client filterTeamID
    inactiveDays verbose allGuests st w st' w' tr :
  (forall u e, e <> EmptyString -> P (stubRecord u e)) ->
  (forall u w0 r w1 tr0,
     processGuest client u filterTeamID inactiveDays verbose w0
       = ((Some r, None), w1, tr0) -> P r) ->
  guestsLoop client filterTeamID inactiveDays verbose allGuests st w = (st', w', tr) ->
  Forall P (AuditResult.Guests (fst st)) ->
  Forall P (AuditResult.Guests (fst st')).
Proof.
  intros Hstub Hrec. revert st w tr.
  induction allGuests as [| u us IH]; intros st w tr Hrun Hst.
  - simpl in Hrun. inv_ret Hrun. exact Hst.
  - simpl in Hrun. inv_bind_as Hrun st1 w1 tr1 tr2 Hstep.
    apply (IH _ _ _ Hrun). destruct st as [result exitCode].
    apply guestStep_unfold in Hstep as (rec & err & trp & Hproc & Hcase).
    destruct err as [e |].
    + destruct Hcase as [_ ->]. simpl. apply Forall_app. split; [exact Hst |].
      constructor; [| constructor].
      apply Hstub. eapply processGuest_error_nonempty. exact Hproc.
    + destruct Hcase as [_ ->]. destruct rec as [r |]; [| exact Hst].
      simpl. apply Forall_app. split; [exact Hst |].
      constructor; [eapply Hrec; exact Hproc | constructor].
Qed.

(** The same for a run. *)
Lemma RunAudit_Forall (P : GuestRecord.t Time -> Prop) fuel client teamFilter
    inactiveDays verbose w result exitCode w' tr :
  (forall u e, e <> EmptyString -> P (stubRecord u e)) ->
  (forall filterTeamID u w0 r w1 tr0,
     processGuest client u filterTeamID inactiveDays verbose w0
       = ((Some r, None), w1, tr0) -> P r) ->
  RunAudit fuel client teamFilter inactiveDays verbose w
    = (Some (Some result, exitCode), w', tr) ->
  Forall P (AuditResult.Guests result).
Proof.
  intros Hstub Hrec Hrun.
  apply RunAudit_stages in Hrun
    as (fid & fname & w1 & trR & allGuests & w2 & trP & st & trG & _ & _ & Hloop
        & -> & _).
  unfold summarise. cbn [AuditResult.Guests].
  eapply (guestsLoop_Forall P); [exact Hstub | apply Hrec | exact Hloop |].
  constructor.
Qed.


(** The counters of a result, each as the size of its bucket, and the
    threshold the result carries. *)
Lemma RunAudit_summary_counts fuel client teamFilter inactiveDays verbose w
    result exitCode w' tr :
  RunAudit fuel client teamFilter inactiveDays verbose w
    = (Some (Some result, exitCode), w', tr) ->
  AuditSummary.TotalGuests (AuditResult.Summary result)
    = Z.of_nat (length (AuditResult.Guests result))
  /\ AuditSummary.FailedLookups (AuditResult.Summary result)
     = countIf isFailed (AuditResult.Guests result)
  /\ AuditSummary.DeactivatedGuests (AuditResult.Summary result)
     = countIf isDeactivated (AuditResult.Guests result)
  /\ AuditSummary.InactiveGuests (AuditResult.Summary result)
     = countIf isInactive (AuditResult.Guests result)
  /\ AuditSummary.ActiveGuests (AuditResult.Summary result)
     = countIf isActive (AuditResult.Guests result)
  /\ AuditResult.InactiveDays result = inactiveDays
  /\ exitCode = (if AuditSummary.FailedLookups (AuditResult.Summary result) =? 0
                 then ExitSuccess else ExitPartialFailure).
Proof.
  intros Hrun.
  apply RunAudit_result_inv in Hrun
    as (filterTeamID & trR & full & p & os & trG & _ & _ & _ & Hloop & -> & -> & _).
  pose proof (fold_applyOutcome os (emptyResult inactiveDays) ExitSuccess) as Hfold.
  cbv zeta in Hfold. destruct Hfold as (Hg & Hf & Ha & Hi & Hd & Hdays & Hcode).
  unfold summarise. cbn [AuditResult.Summary AuditResult.Guests
                           AuditResult.InactiveDays].
  rewrite summaryLoop_spec.
  cbn [AuditSummary.TotalGuests AuditSummary.ActiveGuests
         AuditSummary.InactiveGuests AuditSummary.DeactivatedGuests
         AuditSummary.FailedLookups].
  rewrite Hf, Ha, Hi, Hd, Hdays, Hcode. simpl in Hg. cbn.
  rewrite <- (LoopRun_failed_records _ _ _ _ _ Hloop), <- Hg.
  repeat split; reflexivity.
Qed.

(** X1. The exit code of [RunAudit]: success or partial failure with a result,
    decided by the failed counter; configuration or API error without one;
    never any other value. *)
Theorem RunAudit_exit_code fuel client teamFilter inactiveDays verbose w out w' tr :
  RunAudit fuel client teamFilter inactiveDays verbose w = (Some out, w', tr) ->
  (exists result,
     out = (Some result, ExitSuccess)
     /\ AuditSummary.FailedLookups (AuditResult.Summary result) = 0)
  \/ (exists result,
        out = (Some result, ExitPartialFailure)
        /\ 0 < AuditSummary.FailedLookups (AuditResult.Summary result))
  \/ out = (None, ExitConfigError)
  \/ out = (None, ExitAPIError).
Proof.
  intros Hrun.
  destruct (RunAudit_Some_inv _ _ _ _ _ _ _ _ _ Hrun)
    as [(_ & e & -> & _) | [(full & e & _ & -> & _) | (result & exitCode & ->)]];
    [auto | auto |].
  destruct (RunAudit_summary_counts _ _ _ _ _ _ _ _ _ _ Hrun)
    as (_ & Hf & _ & _ & _ & _ & Hcode).
  pose proof (countIf_nonneg isFailed (AuditResult.Guests result)) as Hnn.
  destruct (Z.eqb_spec (AuditSummary.FailedLookups (AuditResult.Summary result)) 0)
    as [Hz | Hnz]; subst exitCode.
  - left. eauto.
  - right. left. exists result. split; [reflexivity | lia].
Qed.

Lemma countIf_none {A} (p : A -> bool) (l : list A) :
  Forall (fun x => p x = false) l -> countIf p l = 0.
Proof.
  induction 1 as [| x l Hx Hl IH]; [reflexivity |].
  rewrite countIf_cons, Hx, IH. reflexivity.
Qed.

(** X2. With a threshold of zero or less nobody is flagged: no record is
    inactive and the inactive counter is zero. *)
Theorem threshold_disabled_flags_nobody fuel client teamFilter inactiveDays verbose w
    result exitCode w' tr :
  inactiveDays <= 0 ->
  RunAudit fuel client teamFilter inactiveDays verbose w
    = (Some (Some result, exitCode), w', tr) ->
  Forall (fun g => GuestRecord.Inactive g = false) (AuditResult.Guests result)
  /\ AuditSummary.InactiveGuests (AuditResult.Summary result) = 0
  /\ AuditResult.InactiveDays result = inactiveDays.
Proof.
  intros Hle Hrun.
  assert (Hall : Forall (fun g => GuestRecord.Inactive g = false)
                   (AuditResult.Guests result)).
  { eapply (RunAudit_Forall (fun g => GuestRecord.Inactive g = false));
      [intros u e _; reflexivity | | exact Hrun].
    intros fid u w0 r w1 tr0 Hproc.
    apply processGuest_inv in Hproc as (rt & wt & trt & _ & _ & _ & Hcase).
    destruct rt as [teams | e0]; [| destruct Hcase as ([=] & _)].
    cbv zeta in Hcase.
    destruct Hcase as [(_ & _ & [=] & _) | (_ & [Hfail | Hkept])].
    - destruct Hfail as (e & t & e1 & [=] & _).
    - destruct Hkept as (r' & [= <-] & _ & _ & _ & _ & _ & _ & (n & ->) & _).
      apply IsInactiveAt_disabled. exact Hle. }
  destruct (RunAudit_summary_counts _ _ _ _ _ _ _ _ _ _ Hrun)
    as (_ & _ & _ & Hi & _ & Hdays & _).
  split; [exact Hall |]. split; [| exact Hdays].
  rewrite Hi. apply countIf_none.
  eapply Forall_impl; [exact Hall |].
  intros g Hg. unfold isInactive. rewrite Hg. apply andb_false_r.
Qed.

(** X3. With a positive threshold, every error-free record of a guest who never
    logged in is flagged inactive, whether the account is enabled or not. *)
Theorem never_logged_in_is_flagged fuel client teamFilter inactiveDays verbose w
    result exitCode w' tr :
  0 < inactiveDays ->
  RunAudit fuel client teamFilter inactiveDays verbose w
    = (Some (Some result, exitCode), w', tr) ->
  Forall (fun g =>
            GuestRecord.Error g = EmptyString ->
            GuestRecord.LastLogin g = None ->
            GuestRecord.Inactive g = true)
    (AuditResult.Guests result).
Proof.
  intros Hpos Hrun.
  eapply (RunAudit_Forall
            (fun g => GuestRecord.Error g = EmptyString ->
                      GuestRecord.LastLogin g = None ->
                      GuestRecord.Inactive g = true)); [| | exact Hrun].
  - intros u e Hne Herr. simpl in Herr. congruence.
  - intros fid u w0 r w1 tr0 Hproc _ Hll.
    apply processGuest_inv in Hproc as (rt & wt & trt & _ & _ & _ & Hcase).
    destruct rt as [teams | e0]; [| destruct Hcase as ([=] & _)].
    cbv zeta in Hcase.
    destruct Hcase as [(_ & _ & [=] & _) | (_ & [Hfail | Hkept])].
    + destruct Hfail as (e & t & e1 & [=] & _).
    + destruct Hkept as (r' & [= <-] & _ & _ & _ & _ & _ & _ & (n & ->) & _).
      rewrite Hll. rewrite IsInactiveAt_enabled by exact Hpos. reflexivity.
Qed.


Lemma channelInfos_team_names answered :
  Forall (fun c => In (ChannelInfo.TeamName c)
                     (map TeamInfo.DisplayName (map fst answered)))
    (channelInfos answered).
Proof.
  induction answered as [| a answered IH]; [constructor |].
  unfold channelInfos. cbn [map concat]. apply Forall_app. split.
  - apply List.Forall_forall. intros c Hc. apply in_map_iff in Hc as (ch & <- & _).
    left. reflexivity.
  - eapply Forall_impl; [exact IH |]. intros c Hc. right. exact Hc.
Qed.

(** X4. The records of a result are well formed: every channel is filed under
    the display name of one of the record's teams, and a record without a
    team has no channel and no last post (the last post is only estimated
    when there is a team to search). *)
Theorem records_well_formed fuel client teamFilter inactiveDays verbose w
    result exitCode w' tr :
  RunAudit fuel client teamFilter inactiveDays verbose w
    = (Some (Some result, exitCode), w', tr) ->
  Forall (fun g =>
            Forall (fun c => In (ChannelInfo.TeamName c)
                               (map TeamInfo.DisplayName (GuestRecord.Teams g)))
              (GuestRecord.Channels g)
            /\ (GuestRecord.Teams g = [] ->
                GuestRecord.Channels g = [] /\ GuestRecord.LastPost g = None))
    (AuditResult.Guests result).
Proof.
  intros Hrun.
  eapply (RunAudit_Forall
            (fun g =>
               Forall (fun c => In (ChannelInfo.TeamName c)
                                  (map TeamInfo.DisplayName (GuestRecord.Teams g)))
                 (GuestRecord.Channels g)
               /\ (GuestRecord.Teams g = [] ->
                   GuestRecord.Channels g = [] /\ GuestRecord.LastPost g = None)));
    [| | exact Hrun].
  - intros u e _. split; [constructor | auto].
  - intros fid u w0 r w1 tr0 Hproc.
    apply processGuest_shape in Hproc as (rt & wt & _ & Hcase).
    destruct rt as [teams | e0]; [| destruct Hcase as ([=] & _)].
    cbv zeta in Hcase.
    destruct Hcase as [(_ & _ & [=] & _) | (_ & answered & [Hfail | Hkept])].
    + destruct Hfail as (ti & rest & e0 & _ & [=] & _).
    + destruct Hkept as (Hans & r' & lp & [= <-] & _ & Hteams & Hch & _ & Hlp).
      rewrite Hteams, Hch, <- Hans. split; [apply channelInfos_team_names |].
      intros Hnil. split.
      * destruct answered; [reflexivity | discriminate Hnil].
      * rewrite Hans in Hnil.
        destruct Hlp as [(_ & _ & Hnone) | (Hne & _)]; [exact Hnone | contradiction].
Qed.

Lemma calls_app (tr1 tr2 : list (Event Time)) :
  calls (tr1 ++ tr2) = calls tr1 ++ calls tr2.
Proof. apply omap_app. Qed.

Lemma calls_verbosely verbose d : calls (verbosely verbose d) = [].
Proof. destruct verbose; reflexivity. Qed.

Lemma calls_channelEvents userID answered :
  calls (channelEvents (Time := Time) userID answered)
  = map (fun ti => CallChannels (TeamInfo.ID ti) userID) (map fst answered).
Proof.
  induction answered as [| a answered IH]; [reflexivity |].
  unfold calls, channelEvents. cbn [map]. rewrite omap_cons. cbn [callOf].
  f_equal. exact IH.
Qed.

(** X5. What a guest costs when no call fails: a guest who is kept costs the
    team call, one channel call per team of the record, in the order of the
    record, and one last-post call over those teams if there is any; a guest
    out of scope costs the team call alone. *)
Theorem processGuest_calls client u filterTeamID inactiveDays verbose w rec w' tr :
  processGuest client u filterTeamID inactiveDays verbose w = ((rec, None), w', tr) ->
  match rec with
  | Some r => calls tr = keptCalls u (GuestRecord.Teams r)
  | None => filterTeamID <> EmptyString /\ calls tr = [CallTeamsForUser (User.Id u)]
  end.
Proof.
  intros Hproc.
  apply processGuest_shape in Hproc as (rt & wt & _ & Hcase).
  destruct rt as [teams | e0]; [| destruct Hcase as (_ & [=] & _)].
  cbv zeta in Hcase.
  destruct Hcase as [(Hf & _ & -> & _ & ->) | (_ & answered & [Hfail | Hkept])].
  - split; [exact Hf | reflexivity].
  - destruct Hfail as (ti & rest & e0 & _ & _ & [=] & _).
  - destruct Hkept as (Hans & r & lp & -> & _ & Hteams & _ & -> & Hlp).
    rewrite Hteams. unfold keptCalls.
    change (calls (GotTeamsForUser (User.Id u) (inl teams)
                     :: channelEvents (User.Id u) answered ++ lp))
      with (CallTeamsForUser (User.Id u)
              :: calls (channelEvents (User.Id u) answered ++ lp)).
    rewrite calls_app, calls_channelEvents, Hans. f_equal. f_equal.
    destruct Hlp as [(-> & -> & _) | (Hne & lr & -> & _)]; [reflexivity |].
    change (calls (GotLastPostDate (User.Id u) (User.Username u)
                     (map TeamInfo.ID
                        (map toTeamInfo (List.filter (inScope filterTeamID) teams)))
                     lr
                   :: match lr with
                      | inl _ => []
                      | inr e => verbosely verbose (LogLastPostFailed (User.Username u) e)
                      end))
      with (CallLastPostDate (User.Id u) (User.Username u)
              (map TeamInfo.ID
                 (map toTeamInfo (List.filter (inScope filterTeamID) teams)))
            :: calls match lr with
                     | inl _ => []
                     | inr e => verbosely verbose
                                  (LogLastPostFailed (User.Username u) e)
                     end).
    destruct (map toTeamInfo (List.filter (inScope filterTeamID) teams));
      [contradiction |].
    f_equal. destruct lr; [reflexivity | apply calls_verbosely].
Qed.




(** X6. An error ends the turn of a guest at the call that failed.  Either
    the team call failed: it is the only event and the error names it.  Or
    the team call succeeded and a channel call failed: the turn is the team
    call, one successful channel call for each team in scope before the one
    that failed, in order, and the failed call for that team, and the error
    names that team by the display name the team call returned.  In both
    cases the failed call is the last event and the only failed one, no
    record is built and the last post is never asked for. *)
Theorem processGuest_error_ends_turn client u filterTeamID inactiveDays verbose w
    rec e w' tr :
  processGuest client u filterTeamID inactiveDays verbose w = ((rec, Some e), w', tr) ->
  rec = None
  /\ List.filter isLastPost tr = []
  /\ (exists pre last,
        tr = pre ++ [last] /\ failed last = true /\ List.filter failed pre = [])
  /\ ((exists e0,
         tr = [GotTeamsForUser (User.Id u) (inr e0)]
         /\ e = "failed to get teams: " +:+ e0)
      \/ (exists teams answered ti rest e0 t,
            tr = GotTeamsForUser (User.Id u) (inl teams)
                 :: channelEvents (User.Id u) answered
                 ++ [GotChannels (TeamInfo.ID ti) (User.Id u) (inr e0)]
            /\ map toTeamInfo (List.filter (inScope filterTeamID) teams)
               = map fst answered ++ ti :: rest
            /\ In t teams
            /\ inScope filterTeamID t = true
            /\ ti = toTeamInfo t
            /\ e = "failed to get channels for team "
                   +:+ strconv_Quote (Team.DisplayName t) +:+ ": " +:+ e0)).
Proof.
  intros Hproc.
  apply processGuest_shape in Hproc as (rt & wt & _ & Hcase).
  destruct rt as [teams | e0].
  - cbv zeta in Hcase.
    destruct Hcase as [(_ & _ & _ & [=] & _) | (_ & answered & [Hfail | Hkept])].
    + destruct Hfail as (ti & rest & e0 & Hteams & -> & [= ->] & ->).
      split; [reflexivity |]. split.
      { simpl. rewrite List.filter_app, channelEvents_not_last_post. reflexivity. }
      split.
      { exists (GotTeamsForUser (User.Id u) (inl teams)
                  :: channelEvents (User.Id u) answered),
          (GotChannels (TeamInfo.ID ti) (User.Id u) (inr e0)).
        split; [reflexivity |]. split; [reflexivity |].
        simpl. apply channelEvents_not_failed. }
      right.
      assert (Hti : In ti (map toTeamInfo (List.filter (inScope filterTeamID) teams))).
      { rewrite Hteams. apply in_or_app. right. left. reflexivity. }
      apply in_map_iff in Hti as (t & <- & Ht). apply filter_In in Ht as [Ht Hscope].
      exists teams, answered, (toTeamInfo t), rest, e0, t. auto 10.
    + destruct Hkept as (_ & r & lp & _ & [=] & _).
  - destruct Hcase as (-> & [= ->] & ->).
    split; [reflexivity |]. split; [reflexivity |]. split.
    { exists [], (GotTeamsForUser (User.Id u) (inr e0)). auto. }
    left. exists e0. auto.
Qed.


(** ** The order of the calls of a run *)

Lemma teamCallIDs_app (tr1 tr2 : list (Event Time)) :
  teamCallIDs (tr1 ++ tr2) = teamCallIDs tr1 ++ teamCallIDs tr2.
Proof. apply omap_app. Qed.

Lemma teamCallIDs_none (tr : list (Event Time)) :
  Forall (fun e => teamCallIDs [e] = []) tr -> teamCallIDs tr = [].
Proof.
  induction 1 as [| e tr He Htr IH]; [reflexivity |].
  change (e :: tr) with ([e] ++ tr). rewrite teamCallIDs_app, He, IH. reflexivity.
Qed.

(** The turn of a guest starts with the team call; what follows is a channel
    call, the last-post call or a message. *)
Lemma processGuest_turn client u filterTeamID inactiveDays verbose w out w' tr :
  processGuest client u filterTeamID inactiveDays verbose w = (out, w', tr) ->
  exists rt rest,
    tr = GotTeamsForUser (User.Id u) rt :: rest
    /\ Forall (fun e => isListing e = false /\ isTeamLookup e = false
                        /\ teamCallIDs [e] = []) rest.
Proof.
  intros Hproc. destruct out as [rec err].
  apply processGuest_shape in Hproc as (rt & wt & _ & Hcase).
  exists rt.
  assert (Hch : forall answered,
             Forall (fun e => isListing e = false /\ isTeamLookup e = false
                              /\ teamCallIDs [e] = [])
               (channelEvents (Time := Time) (User.Id u) answered)).
  { intros answered. apply List.Forall_forall. intros e He.
    apply in_map_iff in He as (a & <- & _). auto. }
  destruct rt as [teams | e0]; [| destruct Hcase as (_ & _ & ->); eauto].
  cbv zeta in Hcase.
  destruct Hcase as [(_ & _ & _ & _ & ->) | (_ & answered & [Hfail | Hkept])];
    [eauto | |].
  - destruct Hfail as (ti & rest & e0 & _ & _ & _ & ->).
    eexists. split; [reflexivity |]. apply Forall_app. split; [apply Hch |].
    constructor; [auto | constructor].
  - destruct Hkept as (_ & r & lp & _ & _ & _ & _ & -> & Hlp).
    eexists. split; [reflexivity |]. apply Forall_app. split; [apply Hch |].
    destruct Hlp as [(_ & -> & _) | (_ & lr & -> & _)]; [constructor |].
    constructor; [auto |].
    destruct lr as [t | e]; [constructor |].
    destruct verbose; [| constructor]. constructor; [auto | constructor].
Qed.

(** The loop over the guests asks for the teams of each guest once, in the
    order of the list, and neither lists guests nor looks a team up. *)
Lemma guestsLoop_turns client filterTeamID inactiveDays verbose allGuests st w st' w' tr :
  guestsLoop client filterTeamID inactiveDays verbose allGuests st w = (st', w', tr) ->
  teamCallIDs tr = map User.Id allGuests
  /\ Forall (fun e => isListing e = false /\ isTeamLookup e = false) tr.
Proof.
  revert st w tr. induction allGuests as [| u us IH]; intros st w tr Hrun.
  - simpl in Hrun. inv_ret Hrun. split; [reflexivity | constructor].
  - simpl in Hrun. inv_bind_as Hrun st1 w1 tr1 tr2 Hstep.
    destruct st as [result exitCode].
    apply guestStep_unfold in Hstep as (rec & err & trp & Hproc & Hcase).
    apply processGuest_turn in Hproc as (rt & rest & -> & Hrest).
    apply IH in Hrun as [Hids Hev].
    assert (Htr1 : exists ds,
               tr1 = GotTeamsForUser (User.Id u) rt :: rest ++ map Stderr ds).
    { destruct err as [e |]; destruct Hcase as [-> _].
      - destruct verbose; [eexists [_] | exists []]; reflexivity.
      - exists []. simpl. rewrite app_nil_r. reflexivity. }
    destruct Htr1 as (ds & ->).
    assert (Hds : Forall (fun e : Event Time =>
                            isListing e = false /\ isTeamLookup e = false
                            /\ teamCallIDs [e] = []) (map Stderr ds)).
    { apply List.Forall_forall. intros e He.
      apply in_map_iff in He as (d & <- & _). auto. }
    split.
    + change ((GotTeamsForUser (User.Id u) rt :: rest ++ map Stderr ds) ++ tr2)
        with ([GotTeamsForUser (User.Id u) rt] ++ (rest ++ map Stderr ds) ++ tr2).
      rewrite !teamCallIDs_app, Hids.
      rewrite (teamCallIDs_none rest), (teamCallIDs_none (map Stderr ds)).
      * reflexivity.
      * eapply Forall_impl; [exact Hds |]. intros e (_ & _ & He). exact He.
      * eapply Forall_impl; [exact Hrest |]. intros e (_ & _ & He). exact He.
    + simpl. constructor; [auto |]. rewrite <- app_assoc.
      apply Forall_app. split; [| apply Forall_app; split; [| exact Hev]].
      * eapply Forall_impl; [exact Hrest |]. intros e (? & ? & _). auto.
      * eapply Forall_impl; [exact Hds |]. intros e (? & ? & _). auto.
Qed.



Lemma listingCalls_messages (ds : list Diag) :
  listingCalls (map (@Stderr Time) ds) = [].
Proof. induction ds as [| d ds IH]; [reflexivity | exact IH]. Qed.

(** The stages of any run: the team lookup, the listing, the guests. *)
Lemma RunAudit_trace fuel client teamFilter inactiveDays verbose w out w' tr :
  RunAudit fuel client teamFilter inactiveDays verbose w = (out, w', tr) ->
  exists trR trP trG,
    tr = trR ++ trP ++ trG
    /\ ((teamFilter = EmptyString /\ trR = [])
        \/ (teamFilter <> EmptyString
            /\ exists rt w1 ds,
                 GetTeamByName client teamFilter w = (rt, w1)
                 /\ trR = GotTeamByName teamFilter rt :: map Stderr ds))
    /\ Forall (fun e => isGuestCall e = false /\ isTeamLookup e = false) trP
    /\ Forall (fun e => isListing e = false /\ isTeamLookup e = false) trG
    /\ match out with
       | Some (Some _, _) => teamCallIDs trG = map User.Id (listedUsers (trR ++ trP))
       | _ => trG = []
       end.
Proof.
  unfold RunAudit. intros Hrun. inv_bind_as Hrun r w1 trR trx Hres.
  apply resolveTeamFilter_inv in Hres.
  assert (HR : (teamFilter = EmptyString /\ trR = [])
               \/ (teamFilter <> EmptyString
                   /\ exists rt w1 ds,
                        GetTeamByName client teamFilter w = (rt, w1)
                        /\ trR = GotTeamByName teamFilter rt :: map Stderr ds)).
  { destruct Hres as [(Hf & _ & -> & _) | (Hf & rt & Hcall & Hrt)]; [auto |].
    right. split; [exact Hf |]. exists rt, w1.
    destruct rt as [team | e]; destruct Hrt as [_ ->].
    - destruct verbose; [eexists [_] | exists []]; auto.
    - exists [LogError e]. auto. }
  assert (HlR : listingCalls trR = []).
  { destruct HR as [(_ & ->) | (_ & rt & w0 & ds & _ & ->)]; [reflexivity |].
    exact (listingCalls_messages ds). }
  clear Hres.
  destruct r as [[filterTeamID filterTeamName] | code].
  - inv_bind_as Hrun x1 w2 d1 trx1 Hd1. apply when_inv in Hd1 as [-> Hd1].
    fold (verbosely verbose LogRetrieving) in Hd1. subst d1.
    inv_bind_as Hrun l w3 trF trx2 Hfetch.
    apply fetchGuests_inv in Hfetch as (full & Hfull & Hpages).
    destruct l as [| e | allGuests].
    + cbv [ret] in Hrun. injection Hrun as <- <- <-.
      exists trR, (verbosely verbose LogRetrieving ++ trF), [].
      rewrite !app_nil_r. split; [reflexivity |]. split; [exact HR |].
      destruct Hpages as [-> _].
      split; [| split; [constructor | reflexivity]].
      apply Forall_app. split; [apply verbosely_quiet | apply pageEvents_listing].
    + cbv [ret] in Hrun. injection Hrun as <- <- <-.
      exists trR, (verbosely verbose LogRetrieving ++ trF), [].
      rewrite !app_nil_r. split; [reflexivity |]. split; [exact HR |].
      rewrite Hpages.
      split; [| split; [constructor | reflexivity]].
      apply Forall_app. split; [apply verbosely_quiet |].
      apply Forall_app. split; [apply pageEvents_listing | repeat constructor].
    + inv_bind_as Hrun x2 w4 d2 trx3 Hd2. apply when_inv in Hd2 as [-> Hd2].
      fold (verbosely verbose (LogFound (Z.of_nat (length allGuests))))
        in Hd2. subst d2.
      inv_bind_as Hrun st w5 trG trx4 Hloop. destruct st as [res code].
      cbv [ret] in Hrun. injection Hrun as <- <- <-.
      apply guestsLoop_turns in Hloop as [Hids Hev].
      destruct Hpages as (p & Hp & Hall & ->).
      exists trR,
        (verbosely verbose LogRetrieving
         ++ (pageEvents 0 200 full
             ++ [GotGuestUsers (0 + Z.of_nat (length full)) 200 (inl p)])
         ++ verbosely verbose (LogFound (Z.of_nat (length allGuests)))),
        trG.
      rewrite app_nil_r. split; [rewrite <- !app_assoc; reflexivity |].
      split; [exact HR |]. split; [| split; [exact Hev |]].
      * apply Forall_app. split; [apply verbosely_quiet |].
        apply Forall_app. split; [| apply verbosely_quiet].
        apply Forall_app. split; [apply pageEvents_listing | repeat constructor].
      * rewrite Hids. f_equal. unfold listedUsers.
        rewrite !listingCalls_app, HlR, !listingCalls_verbosely,
          listingCalls_pageEvents.
        cbn [app]. rewrite app_nil_r.
        change (listingCalls [GotGuestUsers (0 + Z.of_nat (length full)) 200 (inl p)])
          with [(0 + Z.of_nat (length full), 200%Z, @inl (list User.t) error p)].
        rewrite listedUsers_pages. exact Hall.
  - cbv [ret] in Hrun. injection Hrun as <- <- <-.
    exists trR, [], []. rewrite !app_nil_r.
    split; [reflexivity |]. split; [exact HR |].
    split; [constructor |]. split; [constructor | reflexivity].
Qed.


Lemma teamCallIDs_no_guest_call (tr : list (Event Time)) :
  Forall (fun e => isGuestCall e = false /\ isTeamLookup e = false) tr ->
  teamCallIDs tr = [].
Proof.
  intros Hall. apply teamCallIDs_none.
  eapply Forall_impl; [exact Hall |].
  intros e [He _]. destruct e; try reflexivity; discriminate He.
Qed.

Lemma listingCalls_no_listing (tr : list (Event Time)) :
  Forall (fun e => isListing e = false /\ isTeamLookup e = false) tr ->
  listingCalls tr = [].
Proof.
  induction 1 as [| e tr [He _] Htr IH]; [reflexivity |].
  unfold listingCalls. rewrite omap_cons.
  destruct e; try exact IH; discriminate He.
Qed.

Lemma lookup_stage_quiet teamFilter rt (ds : list Diag) :
  List.filter isGuestCall (GotTeamByName teamFilter rt :: map (@Stderr Time) ds) = []
  /\ List.filter isTeamLookup (map (@Stderr Time) ds) = []
  /\ teamCallIDs (GotTeamByName teamFilter rt :: map (@Stderr Time) ds) = [].
Proof.
  induction ds as [| d ds (IH1 & IH2 & IH3)]; [repeat split |].
  repeat split; assumption.
Qed.

(** X7. The teams of every listed guest are asked for exactly once, in the order
    of the listing, whatever happens to the guest afterwards. *)
Theorem team_call_once_per_guest fuel client teamFilter inactiveDays verbose w
    result exitCode w' tr :
  RunAudit fuel client teamFilter inactiveDays verbose w
    = (Some (Some result, exitCode), w', tr) ->
  teamCallIDs tr = map User.Id (listedUsers tr).
Proof.
  intros Hrun.
  apply RunAudit_trace in Hrun as (trR & trP & trG & -> & HR & HP & HG & Hids).
  rewrite !teamCallIDs_app, (teamCallIDs_no_guest_call trP HP), Hids.
  assert (HtR : teamCallIDs trR = []).
  { destruct HR as [(_ & ->) | (_ & rt & w1 & ds & _ & ->)]; [reflexivity |].
    apply lookup_stage_quiet. }
  rewrite HtR. cbn [app]. f_equal. unfold listedUsers.
  rewrite (app_assoc trR trP trG), (listingCalls_app (trR ++ trP) trG).
  rewrite (listingCalls_no_listing trG HG), app_nil_r. reflexivity.
Qed.

(** X8. The run is staged: every page of guests is fetched before the first
    call for a guest, and once the guests are worked through nothing is
    listed or looked up any more.  A run that returns no result never gets
    to the guests: it makes no call for any of them. *)
Theorem listing_precedes_guests fuel client teamFilter inactiveDays verbose w
    out w' tr :
  RunAudit fuel client teamFilter inactiveDays verbose w = (out, w', tr) ->
  (exists trA trG,
     tr = trA ++ trG
     /\ List.filter isGuestCall trA = []
     /\ List.filter isListing trG = []
     /\ List.filter isTeamLookup trG = [])
  /\ ((forall result exitCode, out <> Some (Some result, exitCode)) ->
      List.filter isGuestCall tr = []).
Proof.
  intros Hrun.
  apply RunAudit_trace in Hrun as (trR & trP & trG & -> & HR & HP & HG & Hout).
  assert (HA : List.filter isGuestCall (trR ++ trP) = []).
  { rewrite List.filter_app.
    assert (HgR : List.filter isGuestCall trR = []).
    { destruct HR as [(_ & ->) | (_ & rt & w1 & ds & _ & ->)]; [reflexivity |].
      apply lookup_stage_quiet. }
    rewrite HgR. apply filter_none.
    eapply Forall_impl; [exact HP |]. intros e [He _]. exact He. }
  split.
  - exists (trR ++ trP), trG. rewrite <- app_assoc.
    split; [reflexivity |]. split; [exact HA |].
    split; apply filter_none; (eapply Forall_impl; [exact HG |]); intros e [? ?]; auto.
  - intros Hno. rewrite app_assoc, List.filter_app, HA.
    destruct out as [[[result |] exitCode] |]; [| subst trG; reflexivity ..].
    exfalso. exact (Hno result exitCode eq_refl).
Qed.

(** X9. The team is looked up at most once: never without a filter, and with a
    filter by the name given, as the first event of the run, before any
    guest is listed. *)
Theorem team_lookup_once_and_first fuel client teamFilter inactiveDays verbose w
    out w' tr :
  RunAudit fuel client teamFilter inactiveDays verbose w = (out, w', tr) ->
  (teamFilter = EmptyString -> List.filter isTeamLookup tr = [])
  /\ (teamFilter <> EmptyString ->
      exists rt w1 rest,
        GetTeamByName client teamFilter w = (rt, w1)
        /\ tr = GotTeamByName teamFilter rt :: rest
        /\ List.filter isTeamLookup rest = []).
Proof.
  intros Hrun.
  apply RunAudit_trace in Hrun as (trR & trP & trG & -> & HR & HP & HG & _).
  assert (HlP : List.filter isTeamLookup (trP ++ trG) = []).
  { apply filter_none. apply Forall_app. split.
    - eapply Forall_impl; [exact HP |]. intros e [_ He]. exact He.
    - eapply Forall_impl; [exact HG |]. intros e [_ He]. exact He. }
  split.
  - intros Hf. destruct HR as [(_ & ->) | (Hne & _)]; [exact HlP | contradiction].
  - intros Hne. destruct HR as [(Hf & _) | (_ & rt & w1 & ds & Hcall & ->)];
      [contradiction |].
    exists rt, w1, (map Stderr ds ++ trP ++ trG).
    split; [exact Hcall |]. split; [reflexivity |].
    rewrite List.filter_app, HlP, app_nil_r.
    apply (lookup_stage_quiet teamFilter rt ds).
Qed.


(** ** The clock and the classifier *)

(** X10. [IsInactive] is [IsInactiveAt] at the time of the clock; it writes
    nothing, and it reads the clock only for a positive threshold and a
    guest who has logged in. *)
Theorem IsInactive_is_IsInactiveAt_now lastLogin inactiveDays w :
  fst (fst (IsInactive lastLogin inactiveDays w))
    = IsInactiveAt lastLogin inactiveDays (fst (time_Now w))
  /\ snd (IsInactive lastLogin inactiveDays w) = []
  /\ snd (fst (IsInactive lastLogin inactiveDays w))
     = (if (0 <? inactiveDays) && bool_decide (lastLogin <> None)
        then snd (time_Now w) else w).
Proof.
  unfold IsInactive, IsInactiveAt.
  destruct (Z.leb_spec inactiveDays 0) as [Hle | Hgt].
  - destruct (Z.ltb_spec 0 inactiveDays); [lia |]. repeat split.
  - destruct (Z.ltb_spec 0 inactiveDays); [| lia].
    destruct lastLogin as [t |]; [| repeat split].
    unfold bind, now, ret. destruct (time_Now w) as [n w1]. repeat split.
Qed.

(** ** Display names *)

(** X11. [BuildDisplayName] joins the parts that are not empty with one space;
    the name is empty exactly when both parts are. *)
Theorem BuildDisplayName_join firstName lastName :
  BuildDisplayName firstName lastName
    = String.concat " "
        (List.filter (fun s => str_ne s EmptyString) [firstName; lastName])
  /\ (BuildDisplayName firstName lastName = EmptyString
      <-> firstName = EmptyString /\ lastName = EmptyString).
Proof.
  unfold BuildDisplayName.
  destruct firstName as [| a f], lastName as [| b l]; cbn; split;
    try reflexivity; split; try (intros [? ?]); try discriminate; auto.
Qed.


(** ** Pagination against the mock, whatever the number of guests *)

Lemma fetchGuests_fuel_le k fuel client page perPage allGuests w l w' tr :
  fetchGuests fuel client page perPage allGuests w = (l, w', tr) ->
  l <> OutOfFuel ->
  fetchGuests (k + fuel) client page perPage allGuests w = (l, w', tr).
Proof.
  intros Hrun Hl. induction k as [| k IH]; [exact Hrun |].
  apply fetchGuests_fuel_mono; assumption.
Qed.

(** The slice the mock returns for a page. *)
Lemma mock_fetch_calls (m : mockClient Time) n page w :
  guestsErr m = None ->
  0 <= page ->
  200 * (page + Z.of_nat n) <= Z.of_nat (length (guests m))
    < 200 * (page + Z.of_nat n + 1) ->
  exists tr,
    fetchGuests (S n) (mockAsClient m) page 200
      (take (Z.to_nat (200 * page)) (guests m)) w
    = (Listed (guests m), w, tr)
    /\ listingCalls tr
       = map (fun i =>
                (page + Z.of_nat i, 200,
                 inl (take 200 (drop (Z.to_nat (200 * (page + Z.of_nat i)))
                                  (guests m)))))
           (seq 0 (S n)).
Proof.
  intros Herr. revert page. induction n as [| n IH]; intros page Hpage Hlen.
  - rewrite fetchGuests_S. unfold bind at 1, call at 1.
    cbn [GetGuestUsers mockAsClient]. rewrite (mock_page m page Herr Hpage).
    rewrite length_take, length_drop.
    destruct (Z.ltb_spec
                (Z.of_nat (200 `min` (length (guests m) - Z.to_nat (200 * page))))
                200) as [Hshort | Hfull]; [| lia].
    unfold ret. eexists. split.
    + rewrite take_take_drop, take_ge by lia. reflexivity.
    + cbn. rewrite Z.add_0_r. reflexivity.
  - rewrite fetchGuests_S. unfold bind at 1, call at 1.
    cbn [GetGuestUsers mockAsClient]. rewrite (mock_page m page Herr Hpage).
    rewrite length_take, length_drop.
    destruct (Z.ltb_spec
                (Z.of_nat (200 `min` (length (guests m) - Z.to_nat (200 * page))))
                200) as [Hshort | Hfull]; [lia |].
    rewrite take_take_drop.
    replace (Z.to_nat (200 * page) + 200)%nat with (Z.to_nat (200 * (page + 1)))
      by lia.
    destruct (IH (page + 1)) as (tr & Htr & Hcalls); [lia | lia |].
    rewrite Htr. eexists. split; [reflexivity |].
    rewrite (listingCalls_app [_] tr), Hcalls.
    change (seq 0 (S (S n))) with (0%nat :: seq 1 (S n)).
    rewrite <- seq_shift. cbn [map]. rewrite map_map.
    change (listingCalls
              [GotGuestUsers page 200
                 (inl (take 200 (drop (Z.to_nat (200 * page)) (guests m))))])
      with [(page, 200,
             @inl (list User.t) error
               (take 200 (drop (Z.to_nat (200 * page)) (guests m))))].
    cbn [app]. rewrite Z.add_0_r. f_equal. apply map_ext. intros i.
    replace (page + 1 + Z.of_nat i) with (page + Z.of_nat (S i)) by lia.
    reflexivity.
Qed.


(** X12. Against the mock, an unfiltered run with enough fuel returns a result
    and reads the source page by page: with [n] guests it makes
    [n / 200 + 1] listing calls, pages 0, 1, ... in order, each answered
    with the next 200 guests at most; when [n] is a multiple of 200 the
    last page is empty.  The pages put together are the guests of the
    source, and the result has one record per guest. *)
Theorem mock_pagination (m : mockClient Time) fuel inactiveDays verbose w :
  guestsErr m = None ->
  Z.of_nat (length (guests m)) < 200 * Z.of_nat fuel ->
  exists result exitCode w' tr,
    RunAudit fuel (mockAsClient m) EmptyString inactiveDays verbose w
    = (Some (Some result, exitCode), w', tr)
    /\ listingCalls tr
       = map (fun i => (Z.of_nat i, 200,
                        inl (take 200 (drop (200 * i) (guests m)))))
           (seq 0 (S (length (guests m) / 200)))
    /\ listedUsers tr = guests m
    /\ length (AuditResult.Guests result) = length (guests m).
Proof.
  intros Herr Hlen.
  set (n := (length (guests m) / 200)%nat).
  pose proof (Nat.div_mod_eq (length (guests m)) 200) as Hdiv.
  pose proof (Nat.mod_upper_bound (length (guests m)) 200) as Hmod.
  fold n in Hdiv.
  destruct (mock_fetch_calls m n 0 w Herr) as (trF & Hfetch & Hcalls); [lia | lia |].
  change (take (Z.to_nat (200 * 0)) (guests m)) with (@nil User.t) in Hfetch.
  assert (Hfuel : exists k, fuel = (k + S n)%nat) by (exists (fuel - S n)%nat; lia).
  destruct Hfuel as (k & ->).
  apply (fetchGuests_fuel_le k) in Hfetch; [| discriminate].
  destruct (RunAudit (k + S n) (mockAsClient m) EmptyString inactiveDays verbose w)
    as [[out w'] tr] eqn:Hrun.
  pose proof Hrun as Hinv.
  apply RunAudit_inv in Hinv as (r & w1 & trR & Hres & Hr).
  cbv in Hres. injection Hres as <- <- <-.
  destruct Hr as (l & w2 & trP & Hfetch' & Hl).
  rewrite Hfetch in Hfetch'. injection Hfetch' as <- <- <-.
  destruct Hl as (os & trG & Hloop & Hout & Htr). cbv zeta in Hout. subst out.
  eexists _, _, w', tr. split; [reflexivity |].
  pose proof (fold_applyOutcome os (emptyResult inactiveDays) ExitSuccess) as Hfold.
  cbv zeta in Hfold. destruct Hfold as (Hg & _). simpl in Hg.
  pose proof (LoopRun_listingCalls _ _ _ _ _ Hloop) as HlG.
  assert (HcallsT : listingCalls tr
                    = map (fun i => (Z.of_nat i, 200,
                                     inl (take 200 (drop (200 * i) (guests m)))))
                        (seq 0 (S n))).
  { rewrite Htr, !listingCalls_app, !listingCalls_verbosely, HlG, Hcalls.
    cbn [app]. rewrite app_nil_r. apply map_ext. intros i.
    replace (Z.to_nat (200 * (0 + Z.of_nat i))) with (200 * i)%nat by lia.
    rewrite Z.add_0_l. reflexivity. }
  split; [exact HcallsT |]. split.
  - unfold listedUsers. rewrite Htr, !listingCalls_app, !listingCalls_verbosely, HlG.
    cbn [app]. rewrite app_nil_r.
    apply fetchGuests_inv in Hfetch as (full & _ & p & _ & Hall & ->).
    rewrite listingCalls_app, listingCalls_pageEvents.
    change (listingCalls [GotGuestUsers (0 + Z.of_nat (length full)) 200 (inl p)])
      with [(0 + Z.of_nat (length full), 200%Z, @inl (list User.t) error p)].
    rewrite (app_nil_l (pageCalls 0 200 full ++ _)).
    rewrite listedUsers_pages. symmetry. exact Hall.
  - unfold summarise. cbn [AuditResult.Guests]. rewrite Hg.
    apply LoopRun_no_filter_records in Hloop.
    apply Forall2_length in Hloop. symmetry. exact Hloop.
Qed.

End GuestShape.

(** * The renderers *)

Section RenderFacts.
Context `{GoFormat} {W : Type}.

Lemma shownNames_take maxDisplay i channels names :
  Render.shownNames maxDisplay i channels names
  = names ++ map ChannelInfo.ChannelName (take (Z.to_nat (maxDisplay - i)) channels).
Proof.
  revert i names. induction channels as [| ch channels IH]; intros i names.
  - simpl. rewrite take_nil. simpl. rewrite app_nil_r. reflexivity.
  - simpl. destruct (Z.leb_spec maxDisplay i) as [Hle | Hgt].
    + replace (Z.to_nat (maxDisplay - i)) with 0%nat by lia.
      simpl. rewrite app_nil_r. reflexivity.
    + rewrite IH.
      replace (Z.to_nat (maxDisplay - i)) with (S (Z.to_nat (maxDisplay - (i + 1))))
        by lia.
      simpl. rewrite <- app_assoc. reflexivity.
Qed.

(** X13. The channel column of the table shows the names of the first two
    channels, in order, and then only how many more there are: neither the
    names of the other channels nor any team name. *)
Theorem formatChannelNamesTable_shows_two channels :
  Render.formatChannelNamesTable channels
  = match channels with
    | [] => EmptyString
    | [a] => ChannelInfo.ChannelName a
    | [a; b] => ChannelInfo.ChannelName a +:+ ", " +:+ ChannelInfo.ChannelName b
    | a :: b :: rest =>
        (ChannelInfo.ChannelName a +:+ ", " +:+ ChannelInfo.ChannelName b)
        +:+ " (+" +:+ pretty (Z.of_nat (length rest)) +:+ " more)"
    end.
Proof.
  unfold Render.formatChannelNamesTable.
  destruct channels as [| a [| b [| c rest]]]; try reflexivity.
  cbv zeta. rewrite shownNames_take.
  destruct (Z.eqb_spec (Z.of_nat (length (a :: b :: c :: rest))) 0) as [Hz | _];
    [simpl length in Hz; lia |].
  destruct (Z.ltb_spec 2 (Z.of_nat (length (a :: b :: c :: rest)))) as [_ | Hge];
    [| simpl length in Hge; lia].
  replace (Z.of_nat (length (a :: b :: c :: rest)) - 2)
    with (Z.of_nat (length (c :: rest))) by (simpl length; lia).
  reflexivity.
Qed.

(** X14. No renderer shows the error of a record: the table row, the CSV row and
    the JSON record of a guest do not depend on it. *)
Theorem renderers_ignore_error (g : GuestRecord.t Time) (e : error) :
  let g' :=
    {| GuestRecord.Username := GuestRecord.Username g;
       GuestRecord.DisplayName := GuestRecord.DisplayName g;
       GuestRecord.Email := GuestRecord.Email g;
       GuestRecord.CreatedAt := GuestRecord.CreatedAt g;
       GuestRecord.LastLogin := GuestRecord.LastLogin g;
       GuestRecord.LastPost := GuestRecord.LastPost g;
       GuestRecord.Teams := GuestRecord.Teams g;
       GuestRecord.Channels := GuestRecord.Channels g;
       GuestRecord.Active := GuestRecord.Active g;
       GuestRecord.Inactive := GuestRecord.Inactive g;
       GuestRecord.Error := e |} in
  Render.tableLine g' = Render.tableLine g
  /\ Render.csvRow g' = Render.csvRow g
  /\ Render.jsonRecord g' = Render.jsonRecord g.
Proof. destruct g. repeat split. Qed.

Lemma csvRows_inv (env : RenderEnv W) guests w err w' tr :
  Render.csvRows env guests w = (err, w', tr) ->
  match err with
  | None => tr = map (fun r => CsvWrote r None) (map Render.csvRow guests)
  | Some e =>
      exists pre g post,
        guests = pre ++ g :: post
        /\ tr = map (fun r => CsvWrote r None) (map Render.csvRow pre)
                ++ [CsvWrote (Render.csvRow g) (Some e)]
  end.
Proof.
  revert w tr. induction guests as [| g guests IH]; intros w tr Hrun.
  - simpl in Hrun. inv_ret Hrun. reflexivity.
  - simpl in Hrun. inv_bind_as Hrun r w1 tr1 tr2 Hcall.
    apply call_inv in Hcall as [_ ->].
    destruct r as [e |].
    + inv_ret Hrun. exists [], g, guests. auto.
    + apply IH in Hrun. destruct err as [e |].
      * destruct Hrun as (pre & g0 & post & -> & ->).
        exists (g :: pre), g0, post. auto.
      * subst tr2. reflexivity.
Qed.

(** X15. [writeCSV] writes the header and then one row per guest, in order, each
    of ten fields like the header; it stops at the first write that fails
    and returns its error; the writer is flushed last, on success and on
    failure alike. *)
Theorem writeCSV_rows (env : RenderEnv W) (result : AuditResult.t Time) w err w' tr :
  Render.writeCSV env result w = (err, w', tr) ->
  let rows := Render.csvHeader :: map Render.csvRow (AuditResult.Guests result) in
  Forall (fun r => length r = 10%nat) rows
  /\ match err with
     | None => tr = map (fun r => CsvWrote r None) rows ++ [CsvFlushed]
     | Some e =>
         exists pre row post,
           rows = pre ++ row :: post
           /\ tr = map (fun r => CsvWrote r None) pre
                   ++ [CsvWrote row (Some e); CsvFlushed]
     end.
Proof.
  intros Hrun. cbv zeta. split.
  - constructor; [reflexivity |]. apply List.Forall_forall. intros r Hr.
    apply in_map_iff in Hr as (g & <- & _). reflexivity.
  - unfold Render.writeCSV in Hrun.
    inv_bind_as Hrun r w1 tr1 tr2 Hbody.
    inv_bind_as Hrun x w2 tr3 tr4 Hflush.
    injection Hflush as _ _ <-. cbv [ret] in Hrun. injection Hrun as <- _ <-.
    inv_bind_as Hbody r0 w3 tr5 tr6 Hhead. apply call_inv in Hhead as [_ ->].
    destruct r0 as [e |].
    + cbv [ret] in Hbody. injection Hbody as <- _ <-.
      exists [], Render.csvHeader, (map Render.csvRow (AuditResult.Guests result)).
      auto.
    + apply csvRows_inv in Hbody. destruct r as [e |].
      * destruct Hbody as (pre & g & post & Hg & ->).
        exists (Render.csvHeader :: map Render.csvRow pre), (Render.csvRow g),
          (map Render.csvRow post).
        split; [rewrite Hg, map_app; reflexivity |].
        cbn [map app]. rewrite <- !app_assoc. reflexivity.
      * subst tr6. rewrite app_nil_r. reflexivity.
Qed.

Lemma tableRows_inv (env : RenderEnv W) guests w x w' tr :
  Render.tableRows env guests w = (x, w', tr) ->
  tr = map (fun g => TabWrote (Render.tableLine g)) guests.
Proof.
  revert w tr. induction guests as [| g guests IH]; intros w tr Hrun.
  - simpl in Hrun. inv_ret Hrun. reflexivity.
  - simpl in Hrun. inv_bind_as Hrun y w1 tr1 tr2 Hw.
    injection Hw as _ _ <-. apply IH in Hrun as ->. reflexivity.
Qed.

Lemma w_print_inv (env : RenderEnv W) text w x w' tr :
  Render.w_print env text w = (x, w', tr) -> exists e, tr = [Wrote text e].
Proof.
  unfold Render.w_print. intros Hrun.
  inv_bind_as Hrun e w1 tr1 tr2 Hcall. apply call_inv in Hcall as [_ ->].
  inv_ret Hrun. eauto.
Qed.

(** X16. [writeTable] hands the header and one line per guest, in order, to the
    tabwriter and flushes it.  If the flush fails, its error is returned and
    no summary is written.  Otherwise the summary follows on the writer
    itself: an empty line, the total, the non-empty buckets if there is
    any, and the end of the line; whatever these writes report, [writeTable]
    returns no error. *)
Theorem writeTable_trace (env : RenderEnv W) (result : AuditResult.t Time) w err w' tr :
  Render.writeTable env result w = (err, w', tr) ->
  exists summary,
    tr = TabWrote (Render.tableHeader +:+ newline)
         :: map (fun g => TabWrote (Render.tableLine g)) (AuditResult.Guests result)
         ++ TabFlushed err :: summary
    /\ match err with
       | Some _ => summary = []
       | None =>
           let parts := Render.summaryParts (AuditResult.Summary result) in
           exists e1 e2 e3 e4,
             summary
             = [Wrote newline e1;
                Wrote ("Total: "
                       +:+ pretty (AuditSummary.TotalGuests (AuditResult.Summary result))
                       +:+ " guest(s)") e2]
               ++ match parts with
                  | [] => []
                  | _ :: _ =>
                      [Wrote (" " +:+ emdash +:+ " " +:+ strings_Join parts ", ") e3]
                  end
               ++ [Wrote newline e4]
       end.
Proof.
  unfold Render.writeTable. intros Hrun.
  inv_bind_as Hrun x0 w0 tr0 trx0 Hhead. injection Hhead as _ _ <-.
  inv_bind_as Hrun x1 w1 tr1 trx1 Hrows. apply tableRows_inv in Hrows as ->.
  inv_bind_as Hrun ef w2 tr2 trx2 Hflush. apply call_inv in Hflush as [_ ->].
  destruct ef as [e |].
  - cbv [ret] in Hrun. injection Hrun as <- _ <-.
    exists []. split; [reflexivity | reflexivity].
  - inv_bind_as Hrun x3 w3 tr3 trx3 Hp1. apply w_print_inv in Hp1 as (e1 & ->).
    inv_bind_as Hrun x4 w4 tr4 trx4 Hp2. apply w_print_inv in Hp2 as (e2 & ->).
    inv_bind_as Hrun x5 w5 tr5 trx5 Hp3.
    inv_bind_as Hrun x6 w6 tr6 trx6 Hp4. apply w_print_inv in Hp4 as (e4 & ->).
    cbv [ret] in Hrun. injection Hrun as <- _ <-.
    eexists. split; [reflexivity |]. cbv zeta.
    destruct (Render.summaryParts (AuditResult.Summary result)) as [| p ps] eqn:Hparts.
    + cbv [ret] in Hp3. injection Hp3 as _ _ <-. exists e1, e2, None, e4. reflexivity.
    + change (0 <? Z.of_nat (length (p :: ps))) with (0 <? Z.pos (Pos.of_succ_nat (length ps))) in Hp3.
      cbn [Z.ltb Z.compare] in Hp3.
      apply w_print_inv in Hp3 as (e3 & ->). exists e1, e2, e3, e4. reflexivity.
Qed.

End RenderFacts.

(** * A result of the pipeline, rendered *)

Section RenderedRuns.
Context `{GoFormat} {W : Type} `{!Clock Time W}.

(** A record with an error has nothing but the identity of its guest. *)
Lemma failed_records_are_bare fuel client teamFilter inactiveDays verbose w
    result exitCode w' tr :
  RunAudit fuel client teamFilter inactiveDays verbose w
    = (Some (Some result, exitCode), w', tr) ->
  Forall (fun g =>
            GuestRecord.Error g <> EmptyString ->
            GuestRecord.LastLogin g = None
            /\ GuestRecord.LastPost g = None
            /\ GuestRecord.Teams g = []
            /\ GuestRecord.Channels g = []
            /\ GuestRecord.Inactive g = false)
    (AuditResult.Guests result).
Proof.
  intros Hrun.
  eapply (RunAudit_Forall
            (fun g =>
               GuestRecord.Error g <> EmptyString ->
               GuestRecord.LastLogin g = None
               /\ GuestRecord.LastPost g = None
               /\ GuestRecord.Teams g = []
               /\ GuestRecord.Channels g = []
               /\ GuestRecord.Inactive g = false)); [| | exact Hrun].
  - intros u e _ _. repeat split.
  - intros fid u w0 r w1 tr0 Hproc Herr. exfalso. apply Herr.
    apply processGuest_inv in Hproc as (rt & wt & trt & _ & _ & _ & Hcase).
    destruct rt as [teams | e0]; [| destruct Hcase as ([=] & _)].
    cbv zeta in Hcase.
    destruct Hcase as [(_ & _ & [=] & _) | (_ & [Hfail | Hkept])].
    + destruct Hfail as (e & t & e1 & [=] & _).
    + destruct Hkept as (r' & [= <-] & _ & Hnone & _). exact Hnone.
Qed.

(** X17. A guest whose lookup failed is rendered like any other guest, with
    nothing to show: in the table no team, no channel, [Never] for both
    dates and the status of the account, never [Inactive]; in the CSV file
    empty dates, teams and channels and [false] in the inactive column. *)
Theorem failed_guest_rendering fuel client teamFilter inactiveDays verbose w
    result exitCode w' tr :
  RunAudit fuel client teamFilter inactiveDays verbose w
    = (Some (Some result, exitCode), w', tr) ->
  Forall (fun g =>
            GuestRecord.Error g <> EmptyString ->
            Render.tableCells g
            = [GuestRecord.Username g; GuestRecord.DisplayName g;
               GuestRecord.Email g; EmptyString; EmptyString; "Never"; "Never";
               if GuestRecord.Active g then "Active" else "Deactivated"]
            /\ Render.csvRow g
               = [GuestRecord.Username g; GuestRecord.DisplayName g;
                  GuestRecord.Email g;
                  Render.FormatTimeISO (GuestRecord.CreatedAt g);
                  EmptyString; EmptyString; EmptyString; EmptyString;
                  fmt_bool (GuestRecord.Active g); "false"])
    (AuditResult.Guests result).
Proof.
  intros Hrun. apply failed_records_are_bare in Hrun.
  eapply Forall_impl; [exact Hrun |].
  intros g Hbare Herr. destruct (Hbare Herr) as (Hll & Hlp & Ht & Hc & Hi).
  unfold Render.tableCells, Render.csvRow, Render.guestStatus.
  rewrite Hll, Hlp, Ht, Hc, Hi. destruct (GuestRecord.Active g); auto.
Qed.

Lemma status_counts (gs : list (GuestRecord.t Time)) :
  Forall (fun g => GuestRecord.Error g <> EmptyString ->
                   GuestRecord.Inactive g = false) gs ->
  countIf (fun g => String.eqb (Render.guestStatus g) "Inactive") gs
    = countIf isInactive gs
  /\ countIf (fun g => String.eqb (Render.guestStatus g) "Active") gs
     = countIf isActive gs
       + countIf (fun g => isFailed g && GuestRecord.Active g) gs
  /\ countIf (fun g => String.eqb (Render.guestStatus g) "Deactivated") gs
     = countIf isDeactivated gs
       + countIf (fun g => isFailed g && negb (GuestRecord.Active g)) gs.
Proof.
  induction 1 as [| g gs Hg Hgs (IH1 & IH2 & IH3)]; [repeat split |].
  rewrite !countIf_cons, IH1, IH2, IH3.
  unfold Render.guestStatus, isInactive, isActive, isDeactivated, isFailed, str_ne.
  destruct (String.eqb_spec (GuestRecord.Error g) EmptyString) as [He | Hne].
  - destruct (GuestRecord.Active g), (GuestRecord.Inactive g); cbn; repeat split; lia.
  - rewrite (Hg Hne). destruct (GuestRecord.Active g); cbn; repeat split; lia.
Qed.

Lemma countIf_le {A} (p q : A -> bool) (l : list A) :
  (forall x, p x = true -> q x = true) -> countIf p l <= countIf q l.
Proof.
  intros Hpq. induction l as [| x l IH]; [reflexivity |].
  rewrite !countIf_cons. destruct (p x) eqn:Hp; [rewrite (Hpq x Hp); lia |].
  destruct (q x); lia.
Qed.

(** X18. The status column of the table against the summary: the rows shown as
    [Inactive] are as many as the inactive counter says; the rows shown as
    [Active] or [Deactivated] are those of the counter and, besides, the
    guests whose lookup failed, shown with the status of their account.  In
    a run without failure the three numbers agree with the summary. *)
Theorem status_column_vs_summary fuel client teamFilter inactiveDays verbose w
    result exitCode w' tr :
  RunAudit fuel client teamFilter inactiveDays verbose w
    = (Some (Some result, exitCode), w', tr) ->
  let gs := AuditResult.Guests result in
  let s := AuditResult.Summary result in
  let shown status := countIf (fun g => String.eqb (Render.guestStatus g) status) gs in
  shown "Inactive" = AuditSummary.InactiveGuests s
  /\ shown "Active"
     = AuditSummary.ActiveGuests s
       + countIf (fun g => isFailed g && GuestRecord.Active g) gs
  /\ shown "Deactivated"
     = AuditSummary.DeactivatedGuests s
       + countIf (fun g => isFailed g && negb (GuestRecord.Active g)) gs
  /\ (exitCode = ExitSuccess ->
      shown "Active" = AuditSummary.ActiveGuests s
      /\ shown "Deactivated" = AuditSummary.DeactivatedGuests s).
Proof.
  intros Hrun. cbv zeta.
  destruct (RunAudit_summary_counts _ _ _ _ _ _ _ _ _ _ Hrun)
    as (_ & Hf & Hd & Hi & Ha & _ & Hcode).
  pose proof (failed_records_are_bare _ _ _ _ _ _ _ _ _ _ Hrun) as Hbare.
  destruct (status_counts (AuditResult.Guests result)) as (H1 & H2 & H3).
  { eapply Forall_impl; [exact Hbare |]. intros g Hg Herr. apply (Hg Herr). }
  rewrite H1, H2, H3, Hi, Ha, Hd.
  split; [reflexivity |]. split; [reflexivity |]. split; [reflexivity |].
  intros ->.
  destruct (Z.eqb_spec (AuditSummary.FailedLookups (AuditResult.Summary result)) 0)
    as [Hz | Hnz]; [| discriminate Hcode].
  rewrite Hf in Hz.
  pose proof (countIf_le (fun g : GuestRecord.t Time => isFailed g && GuestRecord.Active g)
                isFailed (AuditResult.Guests result)) as Hle1.
  pose proof (countIf_le (fun g : GuestRecord.t Time => isFailed g
                                                          && negb (GuestRecord.Active g))
                isFailed (AuditResult.Guests result)) as Hle2.
  pose proof (countIf_nonneg (fun g : GuestRecord.t Time => isFailed g && GuestRecord.Active g)
                (AuditResult.Guests result)).
  pose proof (countIf_nonneg (fun g : GuestRecord.t Time => isFailed g
                                                             && negb (GuestRecord.Active g))
                (AuditResult.Guests result)).
  assert (countIf (fun g : GuestRecord.t Time => isFailed g && GuestRecord.Active g)
            (AuditResult.Guests result) <= countIf isFailed (AuditResult.Guests result)).
  { apply Hle1. intros g Hg. apply andb_true_iff in Hg as [Hg _]. exact Hg. }
  assert (countIf (fun g : GuestRecord.t Time => isFailed g && negb (GuestRecord.Active g))
            (AuditResult.Guests result) <= countIf isFailed (AuditResult.Guests result)).
  { apply Hle2. intros g Hg. apply andb_true_iff in Hg as [Hg _]. exact Hg. }
  split; lia.
Qed.

Lemma summaryParts_nil (s : AuditSummary.t) :
  Render.summaryParts s = []
  <-> AuditSummary.ActiveGuests s <= 0 /\ AuditSummary.InactiveGuests s <= 0
      /\ AuditSummary.DeactivatedGuests s <= 0 /\ AuditSummary.FailedLookups s <= 0.
Proof.
  unfold Render.summaryParts.
  destruct (Z.ltb_spec 0 (AuditSummary.ActiveGuests s)),
    (Z.ltb_spec 0 (AuditSummary.InactiveGuests s)),
    (Z.ltb_spec 0 (AuditSummary.DeactivatedGuests s)),
    (Z.ltb_spec 0 (AuditSummary.FailedLookups s));
    cbn; split; try discriminate; try (intros; lia); auto.
Qed.

(** X19. The summary line of the table names a bucket exactly when there is a
    guest: for the result of a run, the list of buckets after the total is
    empty if and only if the result has no guest. *)
Theorem summary_line_names_a_bucket fuel client teamFilter inactiveDays verbose w
    result exitCode w' tr :
  RunAudit fuel client teamFilter inactiveDays verbose w
    = (Some (Some result, exitCode), w', tr) ->
  Render.summaryParts (AuditResult.Summary result) = []
  <-> AuditResult.Guests result = [].
Proof.
  intros Hrun.
  destruct (RunAudit_summary_counts _ _ _ _ _ _ _ _ _ _ Hrun)
    as (_ & Hf & Hd & Hi & Ha & _ & _).
  pose proof (buckets_partition (AuditResult.Guests result)) as Hpart.
  pose proof (countIf_nonneg isFailed (AuditResult.Guests result)).
  pose proof (countIf_nonneg isDeactivated (AuditResult.Guests result)).
  pose proof (countIf_nonneg isInactive (AuditResult.Guests result)).
  pose proof (countIf_nonneg isActive (AuditResult.Guests result)).
  rewrite summaryParts_nil, Hf, Hd, Hi, Ha. split.
  - intros (? & ? & ? & ?). destruct (AuditResult.Guests result); [reflexivity |].
    simpl length in Hpart. lia.
  - intros ->. repeat split; reflexivity.
Qed.

End RenderedRuns.

(** * The real client *)

Lemma TrimRight_slash_cons c s :
  strings_TrimRight (String c s) "/"
  = match strings_TrimRight s "/" with
    | EmptyString => if Ascii.eqb c slash then EmptyString else String c EmptyString
    | String c' r => String c (String c' r)
    end.
Proof.
  cbn [strings_TrimRight]. destruct (strings_TrimRight s "/"); [| reflexivity].
  cbn. rewrite orb_false_r. reflexivity.
Qed.

(** X20. [NormalizeURL] removes the slashes at the end of the URL and nothing
    else: the URL is the result followed by slashes, the result does not end
    with a slash, and normalising twice changes nothing. *)
Theorem NormalizeURL_strips_slashes url :
  (exists k, url = NormalizeURL url +:+ slashes k)
  /\ (forall s, NormalizeURL url <> s +:+ "/")
  /\ NormalizeURL (NormalizeURL url) = NormalizeURL url.
Proof.
  unfold NormalizeURL. split; [| split].
  - induction url as [| c s (k & IH)]; [exists 0%nat; reflexivity |].
    rewrite TrimRight_slash_cons.
    destruct (strings_TrimRight s "/") as [| c' r].
    + destruct (Ascii.eqb_spec c slash) as [-> | Hne].
      * exists (S k). change (String slash s = String slash (slashes k)).
        f_equal. exact IH.
      * exists k. change (String c s = String c (slashes k)). f_equal. exact IH.
    + exists k. change (String c s = String c (String c' r +:+ slashes k)).
      f_equal. exact IH.
  - induction url as [| c s IH]; intros p Heq.
    + destruct p; discriminate Heq.
    + rewrite TrimRight_slash_cons in Heq.
      destruct (strings_TrimRight s "/") as [| c' r].
      * destruct (Ascii.eqb_spec c slash) as [-> | Hne].
        -- destruct p; discriminate Heq.
        -- destruct p as [| c2 p]; [injection Heq as ->; apply Hne; reflexivity |].
           destruct p; discriminate Heq.
      * destruct p as [| c2 p]; [discriminate Heq |].
        injection Heq as _ Heq. exact (IH p Heq).
  - induction url as [| c s IH]; [reflexivity |].
    rewrite TrimRight_slash_cons.
    destruct (strings_TrimRight s "/") as [| c' r] eqn:Hs.
    + destruct (Ascii.eqb_spec c slash) as [-> | Hne]; [reflexivity |].
      rewrite TrimRight_slash_cons. cbn [strings_TrimRight].
      destruct (Ascii.eqb_spec c slash); [contradiction | reflexivity].
    + rewrite TrimRight_slash_cons, IH. reflexivity.
Qed.

Lemma classifyAPIError_prefix url resp err :
  String.prefix "error: " (classifyAPIError url resp err) = true.
Proof.
  unfold classifyAPIError, classifyAPIErrorFromStatus.
  destruct resp as [resp |].
  - destruct (Response.StatusCode resp =? 401); [reflexivity |].
    destruct (Response.StatusCode resp =? 403); [reflexivity |].
    destruct (Response.StatusCode resp =? 404); [reflexivity |].
    destruct (500 <=? Response.StatusCode resp); reflexivity.
  - destruct (str_ne url EmptyString); reflexivity.
Qed.

Section ClientFacts.
Context `{GoAfter} {W : Type}.
Variable api : Client4 W.

(** The loop over the teams, run: every team is searched once, in order,
    with the posts [from:] the user, up to the first search that fails with
    something else than a 404; that failure is the answer, whatever was
    found before.  Without such a failure the answer is the latest of the
    posts found, taken in the order they were met. *)
Lemma searchTeams_inv username teamIDs latestTime w r w' tr :
  mmClient.searchTeams api username teamIDs latestTime w = (r, w', tr) ->
  Forall (fun e => exists teamID a, e = ApiSearched teamID ("from:" +:+ username) a) tr
  /\ match r with
     | inl t =>
         searchedTeams tr = teamIDs
         /\ List.filter searchFailed tr = []
         /\ t = mmClient.latestOfPosts (foundPosts tr) latestTime
     | inr e =>
         exists pre teamID post resp err tr0,
           teamIDs = pre ++ teamID :: post
           /\ tr = tr0 ++ [ApiSearched teamID ("from:" +:+ username) (inr (resp, err))]
           /\ searchedTeams tr0 = pre
           /\ List.filter searchFailed tr0 = []
           /\ is404 resp = false
           /\ e = classifyAPIError EmptyString resp err
     end.
Proof.
  revert latestTime w tr. induction teamIDs as [| teamID teamIDs IH];
    intros latestTime w tr Hrun.
  - simpl in Hrun. inv_ret Hrun. split; [constructor | repeat split].
  - simpl in Hrun. inv_bind_as Hrun a w1 tr1 tr2 Hcall.
    apply call_inv in Hcall as [_ ->].
    destruct a as [[posts |] | [resp err]].
    + apply IH in Hrun as [Hall Hr]. split; [constructor; eauto |].
      destruct r as [t | e].
      * destruct Hr as (Hs & Hf & ->). unfold searchedTeams, foundPosts in *.
        cbn [app]. rewrite !omap_cons, Hs. cbn [concat List.filter searchFailed].
        rewrite Hf. repeat split. clear.
        generalize (concat
                      (omap (fun e => match e with
                                      | ApiSearched _ _ (inl (Some posts)) => Some posts
                                      | _ => None
                                      end) tr2)).
        revert latestTime. induction posts as [| p posts IHp]; intros latestTime l;
          [reflexivity |].
        cbn [app mmClient.latestOfPosts]. apply IHp.
      * destruct Hr as (pre & t0 & post & resp & err & tr0 & -> & -> & Hs & Hf & H4 & ->).
        exists (teamID :: pre), t0, post, resp, err,
          (ApiSearched teamID ("from:" +:+ username) (inl (Some posts)) :: tr0).
        unfold searchedTeams in *. rewrite omap_cons, Hs.
        cbn [List.filter searchFailed]. auto 10.
    + apply IH in Hrun as [Hall Hr]. split; [constructor; eauto |].
      destruct r as [t | e].
      * destruct Hr as (Hs & Hf & ->). unfold searchedTeams, foundPosts in *.
        cbn [app]. rewrite !omap_cons, Hs. cbn [List.filter searchFailed].
        rewrite Hf. repeat split.
      * destruct Hr as (pre & t0 & post & resp & err & tr0 & -> & -> & Hs & Hf & H4 & ->).
        exists (teamID :: pre), t0, post, resp, err,
          (ApiSearched teamID ("from:" +:+ username) (inl None) :: tr0).
        unfold searchedTeams in *. rewrite omap_cons, Hs.
        cbn [List.filter searchFailed]. auto 10.
    + destruct (is404 resp) eqn:H404.
      * apply IH in Hrun as [Hall Hr]. split; [constructor; eauto |].
        destruct r as [t | e].
        -- destruct Hr as (Hs & Hf & ->). unfold searchedTeams, foundPosts in *.
           cbn [app]. rewrite !omap_cons, Hs. cbn [List.filter searchFailed].
           rewrite H404, Hf. repeat split.
        -- destruct Hr as (pre & t0 & post & resp' & err' & tr0 & -> & -> & Hs & Hf
                           & H4 & ->).
           exists (teamID :: pre), t0, post, resp', err',
             (ApiSearched teamID ("from:" +:+ username) (inr (resp, err)) :: tr0).
           unfold searchedTeams in *. rewrite omap_cons, Hs.
           cbn [List.filter searchFailed]. rewrite H404. auto 10.
      * inv_ret Hrun. split; [repeat constructor; eauto |].
        exists [], teamID, teamIDs, resp, err, []. auto 10.
Qed.


(** X21. [GetLastPostDateForUser] searches the teams it is given once each, in
    order, for the posts [from:] the user name (the user ID is not used),
    and stops at the first search that fails with something else than a
    404: that failure, classified, is the answer, whatever was found before,
    and the teams after it are not searched.  Without such a failure the
    answer is the latest of the posts found. *)
Theorem GetLastPostDateForUser_trace userID username teamIDs w r w' tr :
  mmClient.GetLastPostDateForUser api userID username teamIDs w = (r, w', tr) ->
  match r with
  | inl t =>
      searchedTeams tr = teamIDs
      /\ List.filter searchFailed tr = []
      /\ t = mmClient.latestOfPosts (foundPosts tr) None
  | inr e =>
      exists pre teamID post resp err tr0,
        teamIDs = pre ++ teamID :: post
        /\ tr = tr0 ++ [ApiSearched teamID ("from:" +:+ username) (inr (resp, err))]
        /\ searchedTeams tr0 = pre
        /\ List.filter searchFailed tr0 = []
        /\ is404 resp = false
        /\ e = classifyAPIError EmptyString resp err
  end.
Proof.
  unfold mmClient.GetLastPostDateForUser. intros Hrun.
  apply searchTeams_inv in Hrun as [_ Hr]. exact Hr.
Qed.

Lemma forget_inv {E A} (m : M W E A) w a w' :
  forget m w = (a, w') -> exists tr, m w = (a, w', tr).
Proof.
  unfold forget. destruct (m w) as [[a0 w0] tr]. intros [= <- <-]. eauto.
Qed.

(** X22. Every error of the real client says so: whatever method of the client
    fails, its message starts with [error: ]. *)
Theorem mmClient_errors_are_labelled :
  let client := mmAsClient api in
  (forall page perPage w e w',
      GetGuestUsers client page perPage w = (inr e, w') ->
      String.prefix "error: " e = true)
  /\ (forall name w e w',
         GetTeamByName client name w = (inr e, w') ->
         String.prefix "error: " e = true)
  /\ (forall userID w e w',
         GetTeamsForUser client userID w = (inr e, w') ->
         String.prefix "error: " e = true)
  /\ (forall teamID userID w e w',
         GetChannelsForTeamForUser client teamID userID w = (inr e, w') ->
         String.prefix "error: " e = true)
  /\ (forall userID username teamIDs w e w',
         GetLastPostDateForUser client userID username teamIDs w = (inr e, w') ->
         String.prefix "error: " e = true).
Proof.
  cbv zeta. cbn [mmAsClient GetGuestUsers GetTeamByName GetTeamsForUser
                   GetChannelsForTeamForUser GetLastPostDateForUser].
  repeat split.
  - intros page perPage w e w' Hrun. apply forget_inv in Hrun as (tr & Hrun).
    unfold mmClient.GetGuestUsers in Hrun. inv_bind_as Hrun a w1 tr1 tr2 Hcall.
    destruct a as [users | [resp err]]; cbv [ret] in Hrun; injection Hrun as Hr _ _;
      [discriminate Hr |].
    subst e. apply classifyAPIError_prefix.
  - intros name w e w' Hrun. apply forget_inv in Hrun as (tr & Hrun).
    unfold mmClient.GetTeamByName in Hrun. inv_bind_as Hrun a w1 tr1 tr2 Hcall.
    destruct a as [team | [resp err]];
      [cbv [ret] in Hrun; injection Hrun as Hr _ _; discriminate Hr |].
    destruct (is404 resp); cbv [ret] in Hrun; injection Hrun as Hr _ _;
      subst e; [reflexivity | apply classifyAPIError_prefix].
  - intros userID w e w' Hrun. apply forget_inv in Hrun as (tr & Hrun).
    unfold mmClient.GetTeamsForUser in Hrun. inv_bind_as Hrun a w1 tr1 tr2 Hcall.
    destruct a as [teams | [resp err]]; cbv [ret] in Hrun; injection Hrun as Hr _ _;
      [discriminate Hr |].
    subst e. apply classifyAPIError_prefix.
  - intros teamID userID w e w' Hrun. apply forget_inv in Hrun as (tr & Hrun).
    unfold mmClient.GetChannelsForTeamForUser in Hrun.
    inv_bind_as Hrun a w1 tr1 tr2 Hcall.
    destruct a as [channels | [resp err]]; cbv [ret] in Hrun;
      injection Hrun as Hr _ _; [discriminate Hr |].
    subst e. apply classifyAPIError_prefix.
  - intros userID username teamIDs w e w' Hrun.
    apply forget_inv in Hrun as (tr & Hrun).
    apply searchTeams_inv in Hrun as [_ Hr].
    destruct Hr as (pre & teamID & post & resp & err & tr0 & _ & _ & _ & _ & _ & ->).
    apply classifyAPIError_prefix.
Qed.

End ClientFacts.

(** ** The latest post

    [After] is the strict order of instants: no instant is after itself,
    the order is transitive, and two instants neither of which is after the
    other are the same instant. *)
Section LatestPost.
Context `{GoAfter}.
Hypothesis After_irrefl : forall t, Time_After t t = false.
Hypothesis After_trans :
  forall a b c, Time_After a b = true -> Time_After b c = true -> Time_After a c = true.
Hypothesis After_total :
  forall a b, Time_After a b = false -> Time_After b a = false -> a = b.

Lemma After_neg_trans a b c :
  Time_After a b = false -> Time_After b c = false -> Time_After a c = false.
Proof.
  intros Hab Hbc. destruct (Time_After a c) eqn:Hac; [| reflexivity].
  destruct (Time_After b a) eqn:Hba.
  - rewrite (After_trans b a c Hba Hac) in Hbc. discriminate Hbc.
  - rewrite (After_total a b Hab Hba) in Hac. congruence.
Qed.

Lemma postTimes_cons post posts :
  postTimes (post :: posts)
  = match MillisToTime (Post.CreateAt post) with
    | Some t => t :: postTimes posts
    | None => postTimes posts
    end.
Proof. reflexivity. Qed.

(** The loop over the posts keeps a latest instant among the one it started
    with and the dates of the posts. *)
Lemma latestOfPosts_acc posts latestTime :
  match mmClient.latestOfPosts posts latestTime with
  | None => latestTime = None /\ postTimes posts = []
  | Some m =>
      (latestTime = Some m \/ In m (postTimes posts))
      /\ forall t, latestTime = Some t \/ In t (postTimes posts) ->
                   Time_After t m = false
  end.
Proof.
  revert latestTime. induction posts as [| post posts IH]; intros latestTime.
  - simpl. destruct latestTime as [l |]; [| auto].
    split; [auto |]. intros t [[= ->] | []]. apply After_irrefl.
  - cbn [mmClient.latestOfPosts]. rewrite postTimes_cons.
    destruct (MillisToTime (Post.CreateAt post)) as [tp |]; [| apply IH].
    destruct latestTime as [l |].
    + destruct (Time_After tp l) eqn:Hgt.
      * specialize (IH (Some tp)).
        destruct (mmClient.latestOfPosts posts (Some tp)) as [m |];
          [| destruct IH as [[=] _]].
        destruct IH as [Hin Hmax]. split.
        -- destruct Hin as [[= ->] | Hin]; right; [left | right]; auto.
        -- intros t [[= ->] | [-> | Hin']].
           ++ destruct (Time_After t m) eqn:Htm; [| reflexivity].
              pose proof (Hmax tp (or_introl eq_refl)) as Htpm.
              rewrite (After_trans tp t m Hgt Htm) in Htpm. discriminate Htpm.
           ++ apply Hmax. auto.
           ++ apply Hmax. auto.
      * specialize (IH (Some l)).
        destruct (mmClient.latestOfPosts posts (Some l)) as [m |];
          [| destruct IH as [[=] _]].
        destruct IH as [Hin Hmax]. split.
        -- destruct Hin as [Hin | Hin]; [left | right; right]; auto.
        -- intros t [[= ->] | [-> | Hin']].
           ++ apply Hmax. auto.
           ++ apply (After_neg_trans t l m Hgt). apply Hmax. auto.
           ++ apply Hmax. auto.
    + specialize (IH (Some tp)).
      destruct (mmClient.latestOfPosts posts (Some tp)) as [m |];
        [| destruct IH as [[=] _]].
      destruct IH as [Hin Hmax]. split.
      * destruct Hin as [[= ->] | Hin]; right; [left | right]; auto.
      * intros t [[=] | [-> | Hin']]; apply Hmax; auto.
Qed.

(** X23. The date [GetLastPostDateForUser] returns is the latest date of the
    posts found: none if no post has a date, and otherwise the date of one
    of the posts, with no post after it. *)
Theorem last_post_is_the_latest {W : Type} (api : Client4 W) userID username teamIDs
    w t w' tr :
  mmClient.GetLastPostDateForUser api userID username teamIDs w = (inl t, w', tr) ->
  match t with
  | None => postTimes (foundPosts tr) = []
  | Some m =>
      In m (postTimes (foundPosts tr))
      /\ forall t', In t' (postTimes (foundPosts tr)) -> Time_After t' m = false
  end.
Proof.
  unfold mmClient.GetLastPostDateForUser. intros Hrun.
  apply searchTeams_inv in Hrun as [_ (_ & _ & ->)].
  pose proof (latestOfPosts_acc (foundPosts tr) None) as Hacc.
  destruct (mmClient.latestOfPosts (foundPosts tr) None) as [m |].
  - destruct Hacc as [[[=] | Hin] Hmax]. split; [exact Hin |]. auto.
  - apply Hacc.
Qed.

Lemma postTimes_In posts t :
  In t (postTimes posts)
  <-> exists post, In post posts /\ MillisToTime (Post.CreateAt post) = Some t.
Proof.
  induction posts as [| post posts IH].
  - split; [intros [] | intros (p & [] & _)].
  - rewrite postTimes_cons. split.
    + destruct (MillisToTime (Post.CreateAt post)) as [tp |] eqn:Htp.
      * intros [-> | Hin]; [exists post; simpl; auto |].
        apply IH in Hin as (p & Hp & Ht). exists p. simpl. auto.
      * intros Hin. apply IH in Hin as (p & Hp & Ht). exists p. simpl. auto.
    + intros (p & [-> | Hp] & Ht).
      * rewrite Ht. left. reflexivity.
      * assert (Hin : In t (postTimes posts)) by (apply IH; eauto).
        destruct (MillisToTime (Post.CreateAt post)); [right |]; exact Hin.
Qed.

(** X24. The posts of a search come out of a map, in no fixed order: the latest
    date does not depend on the order in which the loop meets them. *)
Theorem latest_post_any_order posts posts' latestTime :
  Permutation posts posts' ->
  mmClient.latestOfPosts posts latestTime = mmClient.latestOfPosts posts' latestTime.
Proof.
  intros Hperm.
  assert (Hsame : forall t, In t (postTimes posts) <-> In t (postTimes posts')).
  { intros t. rewrite !postTimes_In. split; intros (p & Hp & Ht); exists p.
    - split; [eapply Permutation_in; eauto | exact Ht].
    - split; [eapply Permutation_in; [symmetry |]; eauto | exact Ht]. }
  pose proof (latestOfPosts_acc posts latestTime) as H1.
  pose proof (latestOfPosts_acc posts' latestTime) as H2.
  destruct (mmClient.latestOfPosts posts latestTime) as [m |],
    (mmClient.latestOfPosts posts' latestTime) as [m' |].
  - destruct H1 as [Hin Hmax], H2 as [Hin' Hmax']. f_equal.
    apply After_total.
    + apply Hmax'. destruct Hin as [-> | Hin]; [auto | right; apply Hsame; exact Hin].
    + apply Hmax. destruct Hin' as [-> | Hin']; [auto | right; apply Hsame; exact Hin'].
  - destruct H1 as [Hin _], H2 as [-> Hnil]. exfalso.
    destruct Hin as [[=] | Hin]. apply Hsame in Hin. rewrite Hnil in Hin. exact Hin.
  - destruct H1 as [-> Hnil], H2 as [Hin _]. exfalso.
    destruct Hin as [[=] | Hin]. apply Hsame in Hin. rewrite Hnil in Hin. exact Hin.
  - reflexivity.
Qed.

End LatestPost.

(** * Authentication *)

Section AuthFacts.
Context {W : Type}.
Variable env : AuthEnv W.

(** X25. Where the password comes from.  The terminal is asked first and
    decides.  On a terminal the prompt is written, the terminal is read and
    the line is ended; the password is exactly what was read, whatever it
    is, even nothing, and a failed read is the error; the environment is
    not consulted.  Otherwise the value of [MM_PASSWORD] is read and
    nothing else is done: that value is the password, unless it is empty,
    which is an error.  Every error says so. *)
Theorem obtainPassword_one_source w r w' tr :
  obtainPassword env w = (r, w', tr) ->
  (exists isTerminal w1,
     term_IsTerminal env w = (isTerminal, w1)
     /\ hd_error tr = Some (AskedTerminal isTerminal)
     /\ if isTerminal then
          exists a,
            term_ReadPassword env w1 = (a, w')
            /\ tr = [AskedTerminal true; AuthStderr "Password: "; ReadPassword a;
                     AuthStderr newline]
            /\ r = match a with
                   | inl password => inl password
                   | inr err => inr ("error: failed to read password: " +:+ err)
                   end
        else
          exists value,
            os_Getenv env "MM_PASSWORD" w1 = (value, w')
            /\ tr = [AskedTerminal false; GotEnv "MM_PASSWORD" value]
            /\ r = if String.eqb value EmptyString
                   then inr "error: password required. Set MM_PASSWORD for non-interactive use, or run interactively to be prompted"
                   else inl value)
  /\ (forall e, r = inr e -> String.prefix "error: " e = true).
Proof.
  unfold obtainPassword. intros Hrun.
  inv_bind_as Hrun isTerminal w1 tr1 tr2 Hterm. apply call_inv in Hterm as [Hterm ->].
  destruct isTerminal.
  - inv_bind_as Hrun x1 w2 tr3 tr4 Hp. injection Hp as _ <- <-.
    inv_bind_as Hrun a w3 tr5 tr6 Hread. apply call_inv in Hread as [Hread ->].
    inv_bind_as Hrun x2 w4 tr7 tr8 Hn. injection Hn as _ <- <-.
    assert (Hr : w' = w3 /\ tr8 = []
                 /\ r = match a with
                        | inl password => inl password
                        | inr err => inr ("error: failed to read password: " +:+ err)
                        end).
    { destruct a as [password | err]; cbv [ret] in Hrun; injection Hrun as <- <- <-;
        auto. }
    destruct Hr as (-> & -> & ->). split.
    + exists true, w1. split; [exact Hterm |]. split; [reflexivity |].
      exists a. auto.
    + intros e He. destruct a as [password | err]; [discriminate He |].
      injection He as <-. reflexivity.
  - inv_bind_as Hrun value w2 tr3 tr4 Hget. apply call_inv in Hget as [Hget ->].
    assert (Hr : w' = w2 /\ tr4 = []
                 /\ r = if String.eqb value EmptyString
                        then inr "error: password required. Set MM_PASSWORD for non-interactive use, or run interactively to be prompted"
                        else inl value).
    { destruct (String.eqb value EmptyString); cbv [ret] in Hrun;
        injection Hrun as <- <- <-; auto. }
    destruct Hr as (-> & -> & ->). split.
    + exists false, w1. split; [exact Hterm |]. split; [reflexivity |].
      exists value. auto.
    + intros e He. destruct (String.eqb value EmptyString); [| discriminate He].
      injection He as <-. reflexivity.
Qed.

Lemma obtainPassword_no_call w r w' tr :
  obtainPassword env w = (r, w', tr) -> List.filter isAuthCall tr = [].
Proof.
  unfold obtainPassword. intros Hrun.
  inv_bind_as Hrun isTerminal w1 tr1 tr2 Hterm. apply call_inv in Hterm as [_ ->].
  destruct isTerminal.
  - inv_bind_as Hrun x1 w2 tr3 tr4 Hp. injection Hp as _ _ <-.
    inv_bind_as Hrun a w3 tr5 tr6 Hread. apply call_inv in Hread as [_ ->].
    inv_bind_as Hrun x2 w4 tr7 tr8 Hn. injection Hn as _ _ <-.
    destruct a; cbv [ret] in Hrun; injection Hrun as _ _ <-; reflexivity.
  - inv_bind_as Hrun value w2 tr3 tr4 Hget. apply call_inv in Hget as [_ ->].
    destruct (String.eqb value EmptyString); cbv [ret] in Hrun;
      injection Hrun as _ _ <-; reflexivity.
Qed.

(** X26. How [NewClient] authenticates.  The API is that of the normalised URL.
    A token wins over a user name: with a token there is one call, [GetMe],
    and no password is looked for.  Without a token and with a user name the
    password is obtained first; if that fails, its error is returned and the
    server is not called; otherwise there is one call, [Login], with that
    user name and password.  Without either nothing is called.  A failed
    call is classified with the normalised URL. *)
Theorem NewClient_credentials url token username verbose w r w' tr :
  NewClient env url token username verbose w = (r, w', tr) ->
  let url' := NormalizeURL url in
  let api := model_NewAPIv4Client env url' in
  let answer (a : ApiResult unit) : Client4 W + error :=
    match a with
    | inl _ => inl api
    | inr (resp, err) => inr (classifyAPIError url' resp err)
    end in
  (token <> EmptyString
   /\ List.filter isPasswordEvent tr = []
   /\ exists a, List.filter isAuthCall tr = [GotMe a] /\ r = answer a)
  \/ (token = EmptyString /\ username <> EmptyString
      /\ exists p w1 trP rest,
           obtainPassword env w = (p, w1, trP)
           /\ tr = NewAPI url' :: trP ++ rest
           /\ match p with
              | inr e => r = inr e /\ rest = []
              | inl password =>
                  exists a,
                    List.filter isAuthCall tr = [LoggedIn username password a]
                    /\ r = answer a
              end)
  \/ (token = EmptyString /\ username = EmptyString
      /\ tr = [NewAPI url']
      /\ exists e, r = inr e
                   /\ String.prefix "error: authentication required" e = true).
Proof.
  unfold NewClient. intros Hrun. cbv zeta.
  inv_bind_as Hrun x0 w0 tr0 trx0 Hnew. injection Hnew as _ <- <-.
  destruct (str_ne token EmptyString) eqn:Htok.
  - left. apply str_ne_true in Htok. split; [exact Htok |].
    inv_bind_as Hrun x1 w1 tr1 trx1 Hset. injection Hset as _ _ <-.
    inv_bind_as Hrun x2 w2 tr2 trx2 Hv. apply when_inv in Hv as [_ ->].
    inv_bind_as Hrun a w3 tr3 trx3 Hme. apply call_inv in Hme as [_ ->].
    assert (Htr : trx3 = [] /\ r = match a with
                                   | inl _ => inl (model_NewAPIv4Client env (NormalizeURL url))
                                   | inr (resp, err) =>
                                       inr (classifyAPIError (NormalizeURL url) resp err)
                                   end).
    { destruct a as [u | [resp err]]; cbv [ret] in Hrun; injection Hrun as <- _ <-;
        auto. }
    destruct Htr as [-> ->].
    split; [destruct verbose; reflexivity |].
    exists a. split; [destruct verbose; reflexivity | reflexivity].
  - apply str_ne_false in Htok. destruct (str_ne username EmptyString) eqn:Husr.
    + right. left. apply str_ne_true in Husr. split; [exact Htok |].
      split; [exact Husr |].
      inv_bind_as Hrun p w1 trP trx1 Hpw.
      exists p, w1, trP, trx1. split; [exact Hpw |]. split; [reflexivity |].
      pose proof (obtainPassword_no_call _ _ _ _ Hpw) as HnoP.
      destruct p as [password | e].
      * inv_bind_as Hrun x2 w2 tr2 trx2 Hv. apply when_inv in Hv as [_ ->].
        inv_bind_as Hrun a w3 tr3 trx3 Hlog. apply call_inv in Hlog as [_ ->].
        exists a.
        assert (Htr : trx3 = []
                      /\ r = match a with
                             | inl _ => inl (model_NewAPIv4Client env (NormalizeURL url))
                             | inr (resp, err) =>
                                 inr (classifyAPIError (NormalizeURL url) resp err)
                             end).
        { destruct a as [u | [resp err]]; cbv [ret] in Hrun;
            injection Hrun as <- _ <-; auto. }
        destruct Htr as [-> ->]. split; [| reflexivity].
        cbn [app List.filter isAuthCall]. rewrite !List.filter_app, HnoP.
        destruct verbose; reflexivity.
      * cbv [ret] in Hrun. injection Hrun as <- _ <-. auto.
    + right. right. apply str_ne_false in Husr.
      cbv [ret] in Hrun. injection Hrun as <- _ <-.
      split; [exact Htok |]. split; [exact Husr |]. split; [reflexivity |].
      eexists. split; reflexivity.
Qed.

End AuthFacts.

(** * The program *)

Lemma within_inv {W E E' A} (f : E -> E') (m : M W E A) w a w' tr :
  within f m w = (a, w', tr) -> exists tr0, m w = (a, w', tr0) /\ tr = map f tr0.
Proof.
  unfold within. destruct (m w) as [[a0 w0] tr0]. intros [= <- <- <-]. eauto.
Qed.

Section MainFacts.
Context `{GoAfter} {W File : Type} `{!Clock Time W}.
Variable version : string.
Variable authEnv : AuthEnv W.
Variable outputEnv : OutputEnv Time W File.

(** The ways through [run]. *)
Lemma run_inv fuel flags w out w' tr :
  run version authEnv outputEnv fuel flags w = (out, w', tr) ->
  (Flags.showVersion flags = true
   /\ out = Some ExitSuccess
   /\ w' = w
   /\ tr = [PrintedVersion ("mm-guest-audit " +:+ version +:+ newline)])
  \/ (Flags.showVersion flags = false
      /\ (Flags.url flags = EmptyString \/ validFormat (Flags.format flags) = false)
      /\ out = Some ExitConfigError
      /\ w' = w
      /\ exists line, tr = [MainStderr line])
  \/ (Flags.showVersion flags = false
      /\ Flags.url flags <> EmptyString
      /\ validFormat (Flags.format flags) = true
      /\ exists c w1 trA,
           NewClient authEnv (Flags.url flags) (Flags.token flags)
             (Flags.username flags) (Flags.verbose flags) w = (c, w1, trA)
           /\ match c with
              | inr err =>
                  out = Some ExitConfigError
                  /\ tr = map Auth trA ++ [MainStderr err]
              | inl api =>
                  exists a w2 trU ds,
                    RunAudit fuel (mmAsClient api) (Flags.team flags)
                      (Flags.inactiveDays flags) (Flags.verbose flags) w1
                    = (a, w2, trU)
                    /\ match a with
                       | None =>
                           out = None
                           /\ tr = map Auth trA ++ map MainStderr ds ++ map Audit trU
                       | Some (None, exitCode) =>
                           out = Some exitCode
                           /\ tr = map Auth trA ++ map MainStderr ds ++ map Audit trU
                       | Some (Some result, exitCode) =>
                           exists err w3 trO,
                             WriteOutput outputEnv result (Flags.format flags)
                               (Flags.output flags) w2 = (err, w3, trO)
                             /\ tr = map Auth trA ++ map MainStderr ds
                                     ++ map Audit trU ++ map Output trO
                                     ++ match err with
                                        | Some e =>
                                            [MainStderr
                                               ("error: failed to write output: "
                                                +:+ e)]
                                        | None => []
                                        end
                             /\ out = Some match err with
                                           | Some _ => ExitOutputError
                                           | None => exitCode
                                           end
                       end
              end).
Proof.
  unfold run. intros Hrun.
  destruct (Flags.showVersion flags).
  { left. inv_bind_as Hrun x w0 tr0 tr1 Hp. injection Hp as _ <- <-.
    cbv [ret] in Hrun. injection Hrun as <- <- <-. auto. }
  right. destruct (String.eqb_spec (Flags.url flags) EmptyString) as [Hurl | Hurl].
  { left. inv_bind_as Hrun x w0 tr0 tr1 Hp. injection Hp as _ <- <-.
    cbv [ret] in Hrun. injection Hrun as <- <- <-.
    split; [reflexivity |]. split; [auto |]. split; [reflexivity |].
    split; [reflexivity |]. eauto. }
  fold (validFormat (Flags.format flags)) in Hrun.
  destruct (validFormat (Flags.format flags)) eqn:Hfmt; cbn [negb] in Hrun.
  2: { left. inv_bind_as Hrun x w0 tr0 tr1 Hp. injection Hp as _ <- <-.
       cbv [ret] in Hrun. injection Hrun as <- <- <-.
       split; [reflexivity |]. split; [auto |]. split; [reflexivity |].
       split; [reflexivity |]. eauto. }
  right. split; [reflexivity |]. split; [exact Hurl |]. split; [reflexivity |].
  inv_bind_as Hrun c w1 trA' trx Hauth.
  apply within_inv in Hauth as (trA & Hauth & ->).
  exists c, w1, trA. split; [exact Hauth |].
  destruct c as [api | err].
  - inv_bind_as Hrun x2 w2 d trx2 Hv. apply when_inv in Hv as [-> Hd].
    inv_bind_as Hrun a w3 trU' trx3 Haudit.
    apply within_inv in Haudit as (trU & Haudit & ->).
    exists a, w3, trU,
      (if Flags.verbose flags then ["Authentication successful."] else []).
    split; [exact Haudit |].
    assert (Hds : d = map MainStderr
                        (if Flags.verbose flags
                         then ["Authentication successful."] else [])).
    { rewrite Hd. destruct (Flags.verbose flags); reflexivity. }
    rewrite Hds. clear Hd Hds.
    destruct a as [[[result |] exitCode] |].
    + inv_bind_as Hrun err w4 trO' trx4 Hout.
      apply within_inv in Hout as (trO & Hout & ->).
      exists err, w4, trO. split; [exact Hout |].
      destruct err as [e |].
      * inv_bind_as Hrun x5 w5 tr5 trx5 Hp. injection Hp as _ _ <-.
        cbv [ret] in Hrun. injection Hrun as <- _ <-. auto.
      * cbv [ret] in Hrun. injection Hrun as <- _ <-.
        rewrite !app_nil_r. auto.
    + cbv [ret] in Hrun. injection Hrun as <- _ <-. rewrite !app_nil_r. auto.
    + cbv [ret] in Hrun. injection Hrun as <- _ <-. rewrite !app_nil_r. auto.
  - inv_bind_as Hrun x2 w2 d trx2 Hp. injection Hp as _ _ <-.
    cbv [ret] in Hrun. injection Hrun as <- _ <-. auto.
Qed.


Lemma renderings_app (tr1 tr2 : list (MainEvent Time File)) :
  renderings (tr1 ++ tr2) = renderings tr1 ++ renderings tr2.
Proof. apply omap_app. Qed.

Lemma renderings_Auth (l : list AuthEvent) :
  renderings (map (@Auth Time File) l) = []
  /\ List.filter isOutput (map (@Auth Time File) l) = [].
Proof. induction l as [| e l [IH1 IH2]]; [split; reflexivity | split; assumption]. Qed.

Lemma renderings_Audit (l : list (Event Time)) :
  renderings (map (@Audit Time File) l) = []
  /\ List.filter isOutput (map (@Audit Time File) l) = [].
Proof. induction l as [| e l [IH1 IH2]]; [split; reflexivity | split; assumption]. Qed.

Lemma renderings_MainStderr (l : list string) :
  renderings (map (@MainStderr Time File) l) = []
  /\ List.filter isOutput (map (@MainStderr Time File) l) = [].
Proof. induction l as [| e l [IH1 IH2]]; [split; reflexivity | split; assumption]. Qed.

Lemma renderings_WriteOutput result format outputPath w r w' tr :
  WriteOutput outputEnv result format outputPath w = (r, w', tr) ->
  renderings (map (@Output Time File) tr) = [(format, r)].
Proof.
  intros Hrun.
  apply WriteOutput_inv in Hrun as (wr & w1 & trw & w2 & _ & Hw & -> & _).
  rewrite map_app, renderings_app.
  assert (Hnil : renderings (map (@Output Time File) trw) = []).
  { destruct Hw as [(_ & _ & _ & ->) | (_ & c & _ & Hc)]; [reflexivity |].
    destruct c as [f | err]; destruct Hc as [_ ->]; reflexivity. }
  rewrite Hnil. destruct wr; reflexivity.
Qed.

Lemma RunAudit_codes fuel client teamFilter inactiveDays verbose w r exitCode w' tr :
  RunAudit fuel client teamFilter inactiveDays verbose w = (Some (r, exitCode), w', tr) ->
  match r with
  | Some _ => exitCode = ExitSuccess \/ exitCode = ExitPartialFailure
  | None => exitCode = ExitConfigError \/ exitCode = ExitAPIError
  end.
Proof.
  intros Hrun.
  destruct (RunAudit_Some_inv _ _ _ _ _ _ _ _ _ Hrun)
    as [(_ & e & [= -> ->] & _) | [(full & e & _ & [= -> ->] & _)
                                 | (result & code & [= -> ->])]];
    [auto | auto |].
  destruct (RunAudit_summary_counts _ _ _ _ _ _ _ _ _ _ Hrun)
    as (_ & _ & _ & _ & _ & _ & ->).
  destruct (_ =? 0); auto.
Qed.

Ltac code_neq :=
  let Hc := fresh "Hc" in
  intros Hc; cbv in Hc; discriminate Hc.

Lemma render_valid (env : OutputEnv Time W File) format wr result w0 r w0' :
  validFormat format = true ->
  render env format wr result w0 = (r, w0') ->
  (format = "table" /\ writeTable env wr result w0 = (r, w0'))
  \/ (format = "csv" /\ writeCSV env wr result w0 = (r, w0'))
  \/ (format = "json" /\ writeJSON env wr result w0 = (r, w0')).
Proof.
  unfold validFormat, render. intros Hvalid Hrender.
  destruct (String.eqb_spec format "csv") as [Hcsv | Hcsv]; [auto |].
  destruct (String.eqb_spec format "json") as [Hjson | Hjson]; [auto |].
  left. split; [| exact Hrender].
  destruct (String.eqb_spec format "table") as [Htable | Htable]; [exact Htable |].
  discriminate Hvalid.
Qed.

(** X27. The exit code of the program.  It is one of the five codes.  The
    result is rendered at most once.  When it is, the client was created,
    the audit returned a result, and the renderer that ran is the one the
    format names, table, csv or json, on that result of the audit and on
    the writer [WriteOutput] chose, standard output when no path is given;
    what that renderer answered is what the rendering reports, and the exit
    code is the output error if it answered an error and the code of the
    audit otherwise.  So the code is the output error exactly when the
    rendering failed, whatever the audit had to report; and after a
    configuration or API error nothing is written to the output at all. *)
Theorem run_exit_code fuel flags w exitCode w' tr :
  run version authEnv outputEnv fuel flags w = (Some exitCode, w', tr) ->
  (exitCode = ExitSuccess \/ exitCode = ExitConfigError \/ exitCode = ExitAPIError
   \/ exitCode = ExitPartialFailure \/ exitCode = ExitOutputError)
  /\ (renderings tr = []
      \/ (validFormat (Flags.format flags) = true
          /\ exists err api w1 trA result code w2 trU wr w3 w4,
               renderings tr = [(Flags.format flags, err)]
               /\ NewClient authEnv (Flags.url flags) (Flags.token flags)
                    (Flags.username flags) (Flags.verbose flags) w
                  = (inl api, w1, trA)
               /\ RunAudit fuel (mmAsClient api) (Flags.team flags)
                    (Flags.inactiveDays flags) (Flags.verbose flags) w1
                  = (Some (Some result, code), w2, trU)
               /\ In (Output (Rendered (Flags.format flags) wr err)) tr
               /\ ((Flags.format flags = "table"
                    /\ writeTable outputEnv wr result w3 = (err, w4))
                   \/ (Flags.format flags = "csv"
                       /\ writeCSV outputEnv wr result w3 = (err, w4))
                   \/ (Flags.format flags = "json"
                       /\ writeJSON outputEnv wr result w3 = (err, w4)))
               /\ (Flags.output flags = EmptyString -> wr = Stdout /\ w3 = w2)
               /\ exitCode = match err with
                             | Some _ => ExitOutputError
                             | None => code
                             end))
  /\ (exitCode = ExitOutputError
      <-> exists e, renderings tr = [(Flags.format flags, Some e)])
  /\ (exitCode = ExitConfigError \/ exitCode = ExitAPIError ->
      List.filter isOutput tr = []).
Proof.
  intros Hrun.
  apply run_inv in Hrun
    as [(_ & [= ->] & _ & ->)
       | [(_ & _ & [= ->] & _ & line & ->)
         | (_ & _ & Hfmt & c & w1 & trA & Hauth & Hc)]].
  - split; [auto |]. split; [auto |]. split; [| reflexivity].
    split; [code_neq | intros (e & [=])].
  - split; [auto |]. split; [auto |]. split; [| reflexivity].
    split; [code_neq | intros (e & [=])].
  - destruct (renderings_Auth trA) as [HrA HoA].
    destruct c as [api | err].
    + destruct Hc as (a & w2 & trU & ds & Haudit & Ha).
      destruct (renderings_Audit trU) as [HrU HoU].
      destruct (renderings_MainStderr ds) as [HrD HoD].
      destruct a as [[[result |] code] |]; [| | destruct Ha as [[=] _]].
      * destruct Ha as (err & w3 & trO & Hout & -> & [= Hex]).
        pose proof (RunAudit_codes _ _ _ _ _ _ _ _ _ _ Haudit) as Hcode.
        cbv beta iota in Hcode.
        pose proof (renderings_WriteOutput _ _ _ _ _ _ _ Hout) as HrO.
        assert (Hr : renderings
                       (map Auth trA ++ map MainStderr ds ++ map Audit trU
                        ++ map Output trO
                        ++ match err with
                           | Some e =>
                               [MainStderr ("error: failed to write output: " +:+ e)]
                           | None => []
                           end)
                     = [(Flags.format flags, err)]).
        { rewrite !renderings_app, HrA, HrD, HrU, HrO. destruct err; reflexivity. }
        rewrite Hr.
        assert (Hrendered :
                  exists wr w4 w5,
                    In (Output (Rendered (Flags.format flags) wr err))
                      (map Auth trA ++ map MainStderr ds ++ map Audit trU
                       ++ map Output trO
                       ++ match err with
                          | Some e =>
                              [MainStderr ("error: failed to write output: " +:+ e)]
                          | None => []
                          end)
                    /\ ((Flags.format flags = "table"
                         /\ writeTable outputEnv wr result w4 = (err, w5))
                        \/ (Flags.format flags = "csv"
                            /\ writeCSV outputEnv wr result w4 = (err, w5))
                        \/ (Flags.format flags = "json"
                            /\ writeJSON outputEnv wr result w4 = (err, w5)))
                    /\ (Flags.output flags = EmptyString -> wr = Stdout /\ w4 = w2)).
        { apply WriteOutput_inv in Hout
            as (wr & w4 & trw & w5 & Hrender & Hw & -> & _).
          exists wr, w4, w5. split.
          - rewrite !in_app_iff. do 3 right. left.
            apply in_map. apply in_or_app. right. left. reflexivity.
          - split; [exact (render_valid _ _ _ _ _ _ _ Hfmt Hrender) |].
            intros Hpath.
            destruct Hw as [(_ & -> & -> & _) | (Hne & _)]; [auto | contradiction]. }
        destruct Hrendered as (wr & w4 & w5 & Hin & Hren & Hstd).
        subst exitCode.
        split; [destruct err; [auto 6 | destruct Hcode as [-> | ->]; auto 6] |].
        split.
        { right. split; [exact Hfmt |].
          exists err, api, w1, trA, result, code, w2, trU, wr, w4, w5. auto 10. }
        destruct err as [e |].
        -- split; [split; eauto |]. intros [Hc | Hc]; revert Hc; code_neq.
        -- split; [| destruct Hcode as [-> | ->]; intros [Hc | Hc]; revert Hc; code_neq].
           split; [destruct Hcode as [-> | ->]; code_neq | intros (e & [=])].
      * destruct Ha as ([= ->] & ->).
        pose proof (RunAudit_codes _ _ _ _ _ _ _ _ _ _ Haudit) as Hcode.
        cbv beta iota in Hcode.
        assert (Hr : renderings
                       (map (@Auth Time File) trA ++ map MainStderr ds
                        ++ map Audit trU) = []).
        { rewrite !renderings_app, HrA, HrD, HrU. reflexivity. }
        rewrite Hr. split; [destruct Hcode as [-> | ->]; auto 6 |].
        split; [auto |]. split.
        -- split; [destruct Hcode as [-> | ->]; code_neq | intros (e & [=])].
        -- intros _. rewrite !List.filter_app, HoA, HoD, HoU. reflexivity.
    + destruct Hc as ([= ->] & ->).
      rewrite renderings_app, HrA. split; [auto |]. split; [auto |]. split.
      * split; [code_neq | intros (e & [=])].
      * intros _. rewrite List.filter_app, HoA. reflexivity.
Qed.

(** X28. The flags are checked before anything else is done: with the version
    flag, or else without a URL or with a format that is not one of the
    three, the program prints one line and stops; it creates no client,
    calls no server, writes no output and leaves the world as it was.  The
    version flag wins over invalid flags. *)
Theorem run_checks_flags_first fuel flags w out w' tr :
  Flags.showVersion flags = true \/ Flags.url flags = EmptyString
  \/ validFormat (Flags.format flags) = false ->
  run version authEnv outputEnv fuel flags w = (out, w', tr) ->
  out = Some (if Flags.showVersion flags then ExitSuccess else ExitConfigError)
  /\ w' = w
  /\ length tr = 1%nat
  /\ Forall (fun e => isAuth e = false /\ isAudit e = false /\ isOutput e = false) tr.
Proof.
  intros Hflags Hrun.
  apply run_inv in Hrun
    as [(Hv & -> & -> & ->)
       | [(Hv & _ & -> & -> & line & ->)
         | (Hv & Hurl & Hfmt & _)]].
  - rewrite Hv. repeat split. repeat constructor.
  - rewrite Hv. repeat split. repeat constructor.
  - exfalso. destruct Hflags as [Hf | [Hf | Hf]]; congruence.
Qed.

End MainFacts.

(** * More scenarios, checked *)

(** [TestRunAudit_PartialFailure]: a result and the partial-failure code. *)
Lemma RunAudit_exit_code_witness :
  exists out w' tr,
    runMock 5 partialFailureMock EmptyString 30 false testNow = (Some out, w', tr)
    /\ ((exists result,
           out = (Some result, ExitSuccess)
           /\ AuditSummary.FailedLookups (AuditResult.Summary result) = 0)
        \/ (exists result,
              out = (Some result, ExitPartialFailure)
              /\ 0 < AuditSummary.FailedLookups (AuditResult.Summary result))
        \/ out = (None, ExitConfigError)
        \/ out = (None, ExitAPIError)).
Proof.
  do 3 eexists. split; [vm_compute; reflexivity |].
  eapply (@RunAudit_exit_code utcLib Z stoppedClock 5 (mockZ partialFailureMock)
            EmptyString 30 false testNow).
  vm_compute. reflexivity.
Defined.

(** The same run without a threshold. *)
Lemma threshold_disabled_flags_nobody_witness :
  exists result exitCode w' tr,
    runMock 5 partialFailureMock EmptyString 0 false testNow
    = (Some (Some result, exitCode), w', tr)
    /\ Forall (fun g => GuestRecord.Inactive g = false) (AuditResult.Guests result)
    /\ AuditSummary.InactiveGuests (AuditResult.Summary result) = 0
    /\ AuditResult.InactiveDays result = 0.
Proof.
  do 4 eexists. split; [vm_compute; reflexivity |].
  eapply (@threshold_disabled_flags_nobody utcLib Z stoppedClock 5
            (mockZ partialFailureMock) EmptyString 0 false testNow).
  - vm_compute. discriminate.
  - vm_compute. reflexivity.
Defined.

(** [TestRunAudit_Pagination]: none of the 250 guests ever logged in. *)
Lemma never_logged_in_is_flagged_witness :
  exists result exitCode w' tr,
    runMock 2 paginationMock EmptyString 30 false testNow
    = (Some (Some result, exitCode), w', tr)
    /\ Forall (fun g =>
                 GuestRecord.Error g = EmptyString ->
                 GuestRecord.LastLogin g = None ->
                 GuestRecord.Inactive g = true)
         (AuditResult.Guests result).
Proof.
  do 4 eexists. split; [vm_compute; reflexivity |].
  eapply (@never_logged_in_is_flagged utcLib Z stoppedClock 2
            (mockZ paginationMock) EmptyString 30 false testNow).
  - vm_compute. reflexivity.
  - vm_compute. reflexivity.
Defined.

(** [TestRunAudit_TeamFilter]: one record, of the guest in Sales. *)
Lemma records_well_formed_witness :
  exists result exitCode w' tr,
    runMock 5 teamFilterMock "Sales" 30 false testNow
    = (Some (Some result, exitCode), w', tr)
    /\ Forall (fun g =>
                 Forall (fun c => In (ChannelInfo.TeamName c)
                                    (map TeamInfo.DisplayName (GuestRecord.Teams g)))
                   (GuestRecord.Channels g)
                 /\ (GuestRecord.Teams g = [] ->
                     GuestRecord.Channels g = [] /\ GuestRecord.LastPost g = None))
         (AuditResult.Guests result).
Proof.
  do 4 eexists. split; [vm_compute; reflexivity |].
  eapply (@records_well_formed utcLib Z stoppedClock 5 (mockZ teamFilterMock)
            "Sales" 30 false testNow).
  vm_compute. reflexivity.
Defined.

(** The guest of [TestRunAudit_TeamFilter] who is in two teams, without a
    filter: the team call, two channel calls, one last-post call. *)
Lemma processGuest_calls_witness :
  exists r w' tr,
    @processGuest utcLib Z stoppedClock (mockZ teamFilterMock) bob EmptyString 30
      false testNow = ((Some r, None), w', tr)
    /\ calls tr
       = [CallTeamsForUser "user2"; CallChannels "team1" "user2";
          CallChannels "team2" "user2";
          CallLastPostDate "user2" "bob.smith" ["team1"; "team2"]].
Proof.
  do 3 eexists. split; [vm_compute; reflexivity |].
  exact (@processGuest_calls utcLib Z stoppedClock (mockZ teamFilterMock) bob
           EmptyString 30 false testNow (Some _) _ _ eq_refl).
Defined.

(** The channel call for the second team, Sales, fails. *)
Lemma processGuest_error_ends_turn_witness :
  exists rec e w' tr,
    @processGuest utcLib Z stoppedClock (mockZ channelFailureMock) jane EmptyString
      30 false testNow = ((rec, Some e), w', tr)
    /\ rec = None
    /\ e = "failed to get channels for team "
           +:+ @strconv_Quote utcLib "Sales"
           +:+ ": " +:+ "error: API request failed (HTTP 500)"
    /\ List.filter isLastPost tr = []
    /\ exists pre last,
         tr = pre ++ [last] /\ failed last = true /\ List.filter failed pre = [].
Proof.
  do 4 eexists. split; [vm_compute; reflexivity |].
  edestruct (@processGuest_error_ends_turn utcLib Z stoppedClock
               (mockZ channelFailureMock) jane EmptyString 30 false testNow)
    as (Hrec & Hlp & Hlast & _); [vm_compute; reflexivity |].
  split; [exact Hrec |]. split; [reflexivity |]. split; [exact Hlp | exact Hlast].
Defined.

(** [TestRunAudit_PartialFailure]: both guests are asked for, in order. *)
Lemma team_call_once_per_guest_witness :
  exists result exitCode w' tr,
    runMock 5 partialFailureMock EmptyString 30 false testNow
    = (Some (Some result, exitCode), w', tr)
    /\ teamCallIDs tr = ["user1"; "user2"]
    /\ teamCallIDs tr = map User.Id (listedUsers tr).
Proof.
  do 4 eexists. split; [vm_compute; reflexivity |].
  split; [vm_compute; reflexivity |].
  eapply (@team_call_once_per_guest utcLib Z stoppedClock 5
            (mockZ partialFailureMock) EmptyString 30 false testNow).
  vm_compute. reflexivity.
Defined.

(** The server that fails on the second page: no call for any guest. *)
Lemma listing_precedes_guests_witness :
  exists out w' tr,
    @RunAudit utcLib Z stoppedClock 5 flakyClient EmptyString 30 false testNow
    = (out, w', tr)
    /\ (exists trA trG,
          tr = trA ++ trG
          /\ List.filter isGuestCall trA = []
          /\ List.filter isListing trG = []
          /\ List.filter isTeamLookup trG = [])
    /\ ((forall result exitCode, out <> Some (Some result, exitCode)) ->
        List.filter isGuestCall tr = []).
Proof.
  do 3 eexists. split; [vm_compute; reflexivity |].
  eapply (@listing_precedes_guests utcLib Z stoppedClock 5 flakyClient EmptyString
            30 false testNow).
  vm_compute. reflexivity.
Defined.

(** [TestRunAudit_TeamFilter]: Sales is looked up first, and once. *)
Lemma team_lookup_once_and_first_witness :
  exists out w' tr,
    runMock 5 teamFilterMock "Sales" 30 false testNow = (out, w', tr)
    /\ exists rt rest,
         tr = GotTeamByName "Sales" rt :: rest
         /\ List.filter isTeamLookup rest = [].
Proof.
  do 3 eexists. split; [vm_compute; reflexivity |].
  edestruct (@team_lookup_once_and_first utcLib Z stoppedClock 5
               (mockZ teamFilterMock) "Sales" 30 false testNow) as [_ Hfirst];
    [vm_compute; reflexivity |].
  destruct Hfirst as (rt & w1 & rest & _ & Htr & Hrest); [discriminate |].
  exists rt, rest. split; [exact Htr | exact Hrest].
Defined.

(** [TestRunAudit_Pagination]: 250 guests, two pages. *)
Lemma mock_pagination_witness :
  exists result exitCode w' tr,
    @RunAudit utcLib Z stoppedClock 2 (mockZ paginationMock) EmptyString 30 false
      testNow = (Some (Some result, exitCode), w', tr)
    /\ listingCalls tr
       = map (fun i => (Z.of_nat i, 200,
                        inl (take 200 (drop (200 * i) (guests paginationMock)))))
           (seq 0 (S (length (guests paginationMock) / 200)))
    /\ listedUsers tr = guests paginationMock
    /\ length (AuditResult.Guests result) = length (guests paginationMock).
Proof.
  apply (@mock_pagination utcLib Z stoppedClock paginationMock 2 30 false testNow).
  - reflexivity.
  - vm_compute. reflexivity.
Defined.

(** [sampleResult] of output_test.go, written to a file that takes two
    rows: the header and the first guest are written, the second guest is
    not, and the writer is flushed. *)
Lemma writeCSV_rows_witness :
  exists err w' tr,
    @Render.writeCSV utcLib utcFormat (list string) testRenderEnv sampleResult []
    = (err, w', tr)
    /\ err = Some "write: no space left on device"
    /\ length tr = 4%nat
    /\ Forall (fun r => length r = 10%nat)
         (Render.csvHeader
          :: map (@Render.csvRow utcLib utcFormat) (AuditResult.Guests sampleResult)).
Proof.
  do 3 eexists. split; [vm_compute; reflexivity |].
  split; [reflexivity |]. split; [reflexivity |].
  edestruct (@writeCSV_rows utcLib utcFormat (list string) testRenderEnv sampleResult [])
    as [Hrows _]; [vm_compute; reflexivity | exact Hrows].
Defined.

(** [sampleResult] as a table: the summary names two buckets. *)
Lemma writeTable_trace_witness :
  exists w' tr summary,
    @Render.writeTable utcLib utcFormat (list string) testRenderEnv sampleResult []
    = (None, w', tr)
    /\ tr = TabWrote (Render.tableHeader +:+ newline)
            :: map (fun g => TabWrote (@Render.tableLine utcLib utcFormat g))
                 (AuditResult.Guests sampleResult)
            ++ TabFlushed None :: summary
    /\ length summary = 4%nat.
Proof.
  edestruct (@writeTable_trace utcLib utcFormat (list string) testRenderEnv
               sampleResult [] None) as (summary & Htr & e1 & e2 & e3 & e4 & Hs);
    [vm_compute; reflexivity |].
  do 2 eexists. exists summary. split; [vm_compute; reflexivity |].
  split; [exact Htr |]. rewrite Hs. reflexivity.
Defined.

(** [TestRunAudit_PartialFailure], rendered: the guest that failed. *)
Lemma failed_guest_rendering_witness :
  exists result exitCode w' tr,
    runMock 5 partialFailureMock EmptyString 30 false testNow
    = (Some (Some result, exitCode), w', tr)
    /\ Forall (fun g =>
                 GuestRecord.Error g <> EmptyString ->
                 @Render.tableCells utcLib utcFormat g
                 = [GuestRecord.Username g; GuestRecord.DisplayName g;
                    GuestRecord.Email g; EmptyString; EmptyString; "Never"; "Never";
                    if GuestRecord.Active g then "Active" else "Deactivated"]
                 /\ @Render.csvRow utcLib utcFormat g
                    = [GuestRecord.Username g; GuestRecord.DisplayName g;
                       GuestRecord.Email g;
                       @Render.FormatTimeISO utcLib utcFormat (GuestRecord.CreatedAt g);
                       EmptyString; EmptyString; EmptyString; EmptyString;
                       fmt_bool (GuestRecord.Active g); "false"])
         (AuditResult.Guests result).
Proof.
  do 4 eexists. split; [vm_compute; reflexivity |].
  eapply (@failed_guest_rendering utcLib utcFormat Z stoppedClock 5
            (mockZ partialFailureMock) EmptyString 30 false testNow).
  vm_compute. reflexivity.
Defined.

(** [TestRunAudit_PartialFailure]: two rows are shown as [Active], one of
    them the guest that failed; the summary counts one active guest. *)
Lemma status_column_vs_summary_witness :
  exists result exitCode w' tr,
    runMock 5 partialFailureMock EmptyString 30 false testNow
    = (Some (Some result, exitCode), w', tr)
    /\ countIf (fun g => String.eqb (@Render.guestStatus utcLib g) "Active")
         (AuditResult.Guests result) = 2
    /\ AuditSummary.ActiveGuests (AuditResult.Summary result) = 1
    /\ countIf (fun g => String.eqb (@Render.guestStatus utcLib g) "Inactive")
         (AuditResult.Guests result)
       = AuditSummary.InactiveGuests (AuditResult.Summary result).
Proof.
  do 4 eexists. split; [vm_compute; reflexivity |].
  split; [vm_compute; reflexivity |]. split; [vm_compute; reflexivity |].
  edestruct (@status_column_vs_summary utcLib Z stoppedClock 5
               (mockZ partialFailureMock) EmptyString 30 false testNow)
    as [Hinactive _]; [vm_compute; reflexivity | exact Hinactive].
Defined.

(** [TestRunAudit_TeamFilterNotFound]'s source without a filter: no guest,
    and a summary line that names no bucket. *)
Lemma summary_line_names_a_bucket_witness :
  exists result exitCode w' tr,
    runMock 5 noTeamMock EmptyString 30 false testNow
    = (Some (Some result, exitCode), w', tr)
    /\ (Render.summaryParts (AuditResult.Summary result) = []
        <-> AuditResult.Guests result = []).
Proof.
  do 4 eexists. split; [vm_compute; reflexivity |].
  eapply (@summary_line_names_a_bucket utcLib Z stoppedClock 5 (mockZ noTeamMock)
            EmptyString 30 false testNow).
  vm_compute. reflexivity.
Defined.

(** The fourth team cannot be searched: the answer is that failure, though
    the first team had posts. *)
Lemma GetLastPostDateForUser_trace_witness :
  exists e w' tr,
    @mmClient.GetLastPostDateForUser utcLib utcAfter Z testApi "user1" "jane.doe"
      ["team1"; "team2"; "team3"; "team4"; "team5"] testNow = (inr e, w', tr)
    /\ exists pre teamID post resp err tr0,
         ["team1"; "team2"; "team3"; "team4"; "team5"] = pre ++ teamID :: post
         /\ tr = tr0 ++ [ApiSearched teamID ("from:" +:+ "jane.doe") (inr (resp, err))]
         /\ searchedTeams tr0 = pre
         /\ List.filter searchFailed tr0 = []
         /\ is404 resp = false
         /\ e = classifyAPIError EmptyString resp err.
Proof.
  do 3 eexists. split; [vm_compute; reflexivity |].
  exact (@GetLastPostDateForUser_trace utcLib utcAfter Z testApi "user1" "jane.doe"
           ["team1"; "team2"; "team3"; "team4"; "team5"] testNow (inr _) _ _ eq_refl).
Defined.

Lemma utcAfter_irrefl (t : Z) : utcAfter t t = false.
Proof. unfold utcAfter. destruct (Z.gtb_spec t t); [lia | reflexivity]. Qed.

Lemma utcAfter_trans (a b c : Z) :
  utcAfter a b = true -> utcAfter b c = true -> utcAfter a c = true.
Proof.
  unfold utcAfter.
  destruct (Z.gtb_spec a b), (Z.gtb_spec b c), (Z.gtb_spec a c);
    intros; try reflexivity; try discriminate; lia.
Qed.

Lemma utcAfter_total (a b : Z) :
  utcAfter a b = false -> utcAfter b a = false -> a = b.
Proof.
  unfold utcAfter.
  destruct (Z.gtb_spec a b), (Z.gtb_spec b a); intros; try discriminate; lia.
Qed.

(** Three teams searched: the later of the two dated posts of the first. *)
Lemma last_post_is_the_latest_witness :
  exists m w' tr,
    @mmClient.GetLastPostDateForUser utcLib utcAfter Z testApi "user1" "jane.doe"
      ["team1"; "team2"; "team3"] testNow = (inl (Some m), w', tr)
    /\ m = 1709740800000000000
    /\ In m (@postTimes utcLib (foundPosts tr))
    /\ forall t', In t' (@postTimes utcLib (foundPosts tr)) -> utcAfter t' m = false.
Proof.
  do 3 eexists. split; [vm_compute; reflexivity |]. split; [reflexivity |].
  exact (@last_post_is_the_latest utcLib utcAfter utcAfter_irrefl utcAfter_trans
           utcAfter_total Z testApi "user1" "jane.doe" ["team1"; "team2"; "team3"]
           testNow (Some _) _ _ eq_refl).
Defined.

(** Two posts, met in either order. *)
Lemma latest_post_any_order_witness :
  @mmClient.latestOfPosts utcLib utcAfter
    [Post.mk 1709568000000; Post.mk 1709740800000] None
  = @mmClient.latestOfPosts utcLib utcAfter
      [Post.mk 1709740800000; Post.mk 1709568000000] None.
Proof.
  apply (@latest_post_any_order utcLib utcAfter utcAfter_irrefl utcAfter_trans
           utcAfter_total).
  apply perm_swap.
Defined.

(** Without a terminal the password is the value of [MM_PASSWORD]; on a
    terminal where nothing is typed the password is empty, and accepted. *)
Lemma obtainPassword_one_source_witness :
  (exists w' tr,
     obtainPassword testAuthEnv testNow = (inl "secret", w', tr)
     /\ tr = [AskedTerminal false; GotEnv "MM_PASSWORD" "secret"])
  /\ (exists w' tr,
        obtainPassword terminalAuthEnv testNow = (inl EmptyString, w', tr)
        /\ tr = [AskedTerminal true; AuthStderr "Password: ";
                 ReadPassword (inl EmptyString); AuthStderr newline]).
Proof.
  split.
  - edestruct (@obtainPassword_one_source Z testAuthEnv testNow)
      as [(isTerminal & w1 & Hterm & _ & Hcase) _]; [vm_compute; reflexivity |].
    do 2 eexists. split; [vm_compute; reflexivity | reflexivity].
  - edestruct (@obtainPassword_one_source Z terminalAuthEnv testNow)
      as [(isTerminal & w1 & Hterm & _ & Hcase) _]; [vm_compute; reflexivity |].
    do 2 eexists. split; [vm_compute; reflexivity | reflexivity].
Defined.

(** A user name and no token: the password is obtained, then [Login]. *)
Lemma NewClient_credentials_witness :
  exists r w' tr,
    NewClient testAuthEnv "https://mm.example.com///" EmptyString "admin" true testNow
    = (r, w', tr)
    /\ r = inl testApi
    /\ List.filter isAuthCall tr = [LoggedIn "admin" "secret" (inl tt)]
    /\ hd_error tr = Some (NewAPI "https://mm.example.com").
Proof.
  do 3 eexists. split; [vm_compute; reflexivity |].
  split; [reflexivity |]. split; [reflexivity |].
  edestruct (@NewClient_credentials Z testAuthEnv "https://mm.example.com///"
               EmptyString "admin" true testNow)
    as [(Htok & _) | [(_ & _ & p & w1 & trP & rest & _ & Htr & _) | (_ & Husr & _)]];
    [vm_compute; reflexivity | | |].
  - exfalso. apply Htok. reflexivity.
  - rewrite Htr. reflexivity.
  - discriminate Husr.
Defined.

(** The audit succeeds and the output cannot be written: exit code 4. *)
Lemma run_exit_code_witness :
  exists w' tr,
    @run utcLib utcAfter Z string stoppedClock "1.0" testAuthEnv fullDiskOutput 5
      testFlags testNow = (Some ExitOutputError, w', tr)
    /\ renderings tr = [("csv", Some "write: no space left on device")]
    /\ (ExitOutputError = ExitOutputError
        <-> exists e, renderings tr = [(Flags.format testFlags, Some e)]).
Proof.
  do 2 eexists. split; [vm_compute; reflexivity |].
  split; [vm_compute; reflexivity |].
  edestruct (@run_exit_code utcLib utcAfter Z string stoppedClock "1.0" testAuthEnv
               fullDiskOutput 5 testFlags testNow) as (_ & _ & Hiff & _);
    [vm_compute; reflexivity | exact Hiff].
Defined.

(** The version flag with no URL and a format that does not exist. *)
Lemma run_checks_flags_first_witness :
  exists out w' tr,
    @run utcLib utcAfter Z string stoppedClock "1.0" testAuthEnv fullDiskOutput 5
      (Flags.mk EmptyString EmptyString EmptyString EmptyString 0 "xml" EmptyString
         false true) testNow = (out, w', tr)
    /\ out = Some ExitSuccess
    /\ w' = testNow
    /\ length tr = 1%nat
    /\ Forall (fun e => isAuth e = false /\ isAudit e = false /\ isOutput e = false) tr.
Proof.
  do 3 eexists. split; [vm_compute; reflexivity |].
  eapply (@run_checks_flags_first utcLib utcAfter Z string stoppedClock "1.0"
            testAuthEnv fullDiskOutput 5
            (Flags.mk EmptyString EmptyString EmptyString EmptyString 0 "xml"
               EmptyString false true) testNow).
  - left. reflexivity.
  - vm_compute. reflexivity.
Defined.

(** * The substring test of the tests *)

Lemma append_cons c s t : String c s +:+ t = String c (s +:+ t).
Proof. reflexivity. Qed.

Lemma append_nil_l t : EmptyString +:+ t = t.
Proof. reflexivity. Qed.

Lemma append_nil_r s : s +:+ EmptyString = s.
Proof.
  induction s as [| c s IH]; [reflexivity |]. rewrite append_cons, IH. reflexivity.
Qed.

Lemma length_append s t : String.length (s +:+ t) = (String.length s + String.length t)%nat.
Proof.
  induction s as [| c s IH]; [reflexivity |].
  rewrite append_cons. simpl String.length. rewrite IH. reflexivity.
Qed.

Lemma substring_prefix sub s :
  String.substring 0 (String.length sub) s = sub <-> exists post, s = sub +:+ post.
Proof.
  revert s. induction sub as [| c sub IH]; intros s.
  - split; [intros _; exists s; reflexivity |].
    intros _. destruct s; reflexivity.
  - destruct s as [| c' s].
    + split; [discriminate | intros (post & Hp); discriminate Hp].
    + simpl String.length. cbn [String.substring]. split.
      * intros [= -> Hs]. apply IH in Hs as (post & ->). exists post. reflexivity.
      * intros (post & Hp). rewrite append_cons in Hp. injection Hp as -> ->.
        f_equal. apply IH. eauto.
Qed.

Lemma substring_at i sub s :
  (i + String.length sub <= String.length s)%nat ->
  String.substring i (String.length sub) s = sub
  <-> exists pre post, String.length pre = i /\ s = pre +:+ sub +:+ post.
Proof.
  revert s. induction i as [| i IH]; intros s Hlen.
  - rewrite substring_prefix. split.
    + intros (post & ->). exists EmptyString, post. auto.
    + intros (pre & post & Hpre & ->). destruct pre; [| discriminate Hpre].
      exists post. reflexivity.
  - destruct s as [| c s]; [simpl in Hlen; lia |].
    simpl in Hlen. cbn [String.substring].
    destruct (String.length sub) eqn:Hsub at 1.
    + rewrite <- Hsub. rewrite IH by lia. split.
      * intros (pre & post & Hpre & ->). exists (String c pre), post.
        split; [simpl; lia | reflexivity].
      * intros (pre & post & Hpre & Hs). destruct pre as [| c0 pre]; [discriminate Hpre |].
        rewrite append_cons in Hs. injection Hs as -> ->.
        exists pre, post. split; [simpl in Hpre; lia | reflexivity].
    + rewrite <- Hsub. rewrite IH by lia. split.
      * intros (pre & post & Hpre & ->). exists (String c pre), post.
        split; [simpl; lia | reflexivity].
      * intros (pre & post & Hpre & Hs). destruct pre as [| c0 pre]; [discriminate Hpre |].
        rewrite append_cons in Hs. injection Hs as -> ->.
        exists pre, post. split; [simpl in Hpre; lia | reflexivity].
Qed.

Lemma containsStr_loop_spec n s sub i :
  0 <= i ->
  containsStr_loop n s sub i = true
  <-> exists j, (Z.to_nat i <= j < Z.to_nat i + n)%nat
                /\ String.substring j (String.length sub) s = sub.
Proof.
  revert i. induction n as [| n IH]; intros i Hi.
  - simpl. split; [discriminate | intros (j & Hj & _); lia].
  - cbn [containsStr_loop]. unfold str_slice, len.
    replace (Z.to_nat (i + Z.of_nat (String.length sub) - i))
      with (String.length sub) by lia.
    destruct (String.eqb_spec (String.substring (Z.to_nat i) (String.length sub) s) sub)
      as [Heq | Hne].
    + split; [intros _ | reflexivity]. exists (Z.to_nat i). split; [lia | exact Heq].
    + rewrite IH by lia. split.
      * intros (j & Hj & Hs). exists j. split; [lia | exact Hs].
      * intros (j & Hj & Hs). exists j. split; [| exact Hs].
        destruct (decide (j = Z.to_nat i)) as [-> | Hji]; [contradiction | lia].
Qed.

(** X29. [containsSubstring] of the tests is the substring test: it holds
    exactly when the first string is the second one with something before
    and something after it, either of which may be empty. *)
Theorem containsSubstring_spec s sub :
  containsSubstring s sub = true <-> exists pre post, s = pre +:+ sub +:+ post.
Proof.
  unfold containsSubstring, containsStr, len. split.
  - intros Hc. apply andb_true_iff in Hc as [Hlen Hc]. apply Z.leb_le in Hlen.
    apply orb_true_iff in Hc as [Heq | Hc].
    + apply String.eqb_eq in Heq as ->. exists EmptyString, EmptyString.
      rewrite append_nil_l, append_nil_r. reflexivity.
    + apply andb_true_iff in Hc as [_ Hc].
      apply containsStr_loop_spec in Hc as (j & Hj & Hs); [| lia].
      apply substring_at in Hs as (pre & post & _ & ->); [eauto | lia].
  - intros (pre & post & ->).
    rewrite !length_append. apply andb_true_iff. split; [apply Z.leb_le; lia |].
    apply orb_true_iff.
    destruct (String.length pre + (String.length sub + String.length post))%nat
      as [| k] eqn:Hk.
    + left. assert (pre = EmptyString) as -> by (destruct pre; [reflexivity | discriminate Hk]).
      assert (post = EmptyString) as ->.
      { destruct post; [reflexivity |]. simpl in Hk. lia. }
      rewrite append_nil_l, append_nil_r. apply String.eqb_refl.
    + right. apply andb_true_iff. split; [reflexivity |].
      apply containsStr_loop_spec; [lia |].
      exists (String.length pre). split; [lia |].
      apply substring_at; [rewrite !length_append; lia | eauto].
Qed.
